(** * tools/make_image.py : the image composition pipeline [combine_images]

    A shallow embedding of [combine_images] (provisioning session, block
    device mounter, preservation set resolver, root replacer) as a program
    in a state-and-exception monad over an explicit world, followed by the
    properties of the design document that can be stated on it.

    Conventions of the embedding.
    - Every external operation ([subprocess.run(..., check=True)],
      [subprocess.check_output], [tempfile.mkdtemp], [shutil.rmtree]) is an
      [action].  Its exit status is given by the environment ([status]); a
      non-zero status raises, exactly as [check=True] does, and leaves the
      world untouched apart from the log.  A zero status applies the nominal
      effect of the command to the world.
    - File trees are finite trees with association lists for directories
      (listing order is the order [os.listdir] returns).
    - Python's [try ... finally] is [try_finally]: the finaliser always
      runs; an exception raised by the finaliser replaces the one in flight
      and keeps it as its [__context__]. *)

From Stdlib Require Import String Ascii List ZArith NArith Bool Lia.
Import ListNotations.
Open Scope string_scope.

(* ------------------------------------------------------------------------- *)
(** ** File trees *)

#[warnings="-register-all"]
Inductive node : Type :=
| File (data : string)
| Tar (members : list (string * node))
| Dir (entries : list (string * node)).

Fixpoint assoc {A : Type} (name : string) (l : list (string * A)) : option A :=
  match l with
  | [] => None
  | (k, v) :: l' => if String.eqb k name then Some v else assoc name l'
  end.

Fixpoint set_entry {A : Type} (name : string) (v : A) (l : list (string * A))
  : list (string * A) :=
  match l with
  | [] => [(name, v)]
  | (k, x) :: l' =>
      if String.eqb k name then (k, v) :: l' else (k, x) :: set_entry name v l'
  end.

Definition remove_entry {A : Type} (name : string) (l : list (string * A))
  : list (string * A) :=
  filter (fun p => negb (String.eqb (fst p) name)) l.

Definition child (name : string) (n : node) : option node :=
  match n with
  | Dir es => assoc name es
  | _ => None
  end.

Definition set_child (name : string) (m : node) (n : node) : node :=
  match n with
  | Dir es => Dir (set_entry name m es)
  | _ => n
  end.

Definition remove_child (name : string) (n : node) : node :=
  match n with
  | Dir es => Dir (remove_entry name es)
  | _ => n
  end.

Definition is_dir (o : option node) : bool :=
  match o with
  | Some (Dir _) => true
  | _ => false
  end.

Definition is_some {A : Type} (o : option A) : bool :=
  match o with
  | Some _ => true
  | None => false
  end.

Fixpoint walk (p : list string) (n : node) : option node :=
  match p with
  | [] => Some n
  | c :: p' =>
      match child c n with
      | Some m => walk p' m
      | None => None
      end
  end.

(** [s.split("/")] *)
Fixpoint components (s : string) : list string :=
  match s with
  | EmptyString => [EmptyString]
  | String c r =>
      if Ascii.eqb c "/" then EmptyString :: components r
      else match components r with
           | [] => [String c EmptyString]
           | h :: t => String c h :: t
           end
  end.

(** Path resolution skips empty components and ["."]. *)
Definition path_of (s : string) : list string :=
  filter (fun c => negb (String.eqb c "") && negb (String.eqb c ".")) (components s).

Definition resolve_path (root : node) (s : string) : option node :=
  walk (path_of s) root.

(** [os.path.exists(os.path.join(mount, s))] for a relative [s] *)
Definition path_exists (root : node) (s : string) : bool :=
  is_some (resolve_path root s).

(** [os.path.isdir(os.path.join(mount, s))] *)
Definition path_isdir (root : node) (s : string) : bool :=
  is_dir (resolve_path root s).

Fixpoint no_slash (s : string) : bool :=
  match s with
  | EmptyString => true
  | String c r => negb (Ascii.eqb c "/") && no_slash r
  end.

Definition valid_name (s : string) : bool :=
  negb (String.eqb s "") && negb (String.eqb s ".") && negb (String.eqb s "..")
  && no_slash s.

Fixpoint memb (x : string) (l : list string) : bool :=
  match l with
  | [] => false
  | y :: l' => String.eqb y x || memb x l'
  end.

Fixpoint nodupb (l : list string) : bool :=
  match l with
  | [] => true
  | x :: l' => negb (memb x l') && nodupb l'
  end.

(** A well-formed tree: in every directory the names are file names (no
    slash, not empty, not a dot entry) and pairwise different. *)
Fixpoint wf_node (n : node) : bool :=
  match n with
  | File _ => true
  | Tar _ => true
  | Dir es =>
      forallb valid_name (map fst es) && nodupb (map fst es)
      && forallb (fun p => wf_node (snd p)) es
  end.

(** Directories merge, anything else is overwritten (what [tar x] and
    [cp -a] do on an existing destination). *)
Fixpoint overlay (new old : node) {struct new} : node :=
  match new with
  | Dir ns =>
      match old with
      | Dir os =>
          Dir ((fix go (l : list (string * node)) (acc : list (string * node)) :=
                  match l with
                  | [] => acc
                  | (name, n) :: l' =>
                      go l' (set_entry name
                               (match assoc name acc with
                                | Some o => overlay n o
                                | None => n
                                end) acc)
                  end) ns os)
      | _ => new
      end
  | _ => new
  end.

(** Put [n] at path [p] of [t], creating the directories on the way. *)
Fixpoint graft (p : list string) (n : node) (t : node) : node :=
  match p with
  | [] => overlay n t
  | c :: p' =>
      match t with
      | Dir es =>
          Dir (set_entry c
                 (graft p' n (match assoc c es with
                              | Some m => m
                              | None => Dir []
                              end)) es)
      | _ => Dir [(c, graft p' n (Dir []))]
      end
  end.

Fixpoint update_entries (name : string) (f : node -> node) (l : list (string * node))
  : list (string * node) :=
  match l with
  | [] => []
  | (k, v) :: l' =>
      (k, if String.eqb k name then f v else v) :: update_entries name f l'
  end.

(** Remove what is at path [p]. *)
Fixpoint remove_at (p : list string) (t : node) : node :=
  match p with
  | [] => t
  | c :: p' =>
      match p' with
      | [] => remove_child c t
      | _ :: _ =>
          match t with
          | Dir es => Dir (update_entries c (remove_at p') es)
          | _ => t
          end
      end
  end.

(** [cp src dst] / [cp -a src dst] for a top-level entry: when [dst] is an
    existing directory the copy lands inside it. *)
Definition cp_into (name : string) (src : node) (root : node) : node :=
  match child name root with
  | Some (Dir ds) => set_child name (graft [name] src (Dir ds)) root
  | _ => set_child name src root
  end.

(** The members a [tar c] run picks up, and what [tar x] puts back. *)
Fixpoint collect (members : list string) (root : node) : list (string * node) :=
  match members with
  | [] => []
  | m :: ms =>
      match resolve_path root m with
      | Some n => (m, n) :: collect ms root
      | None => collect ms root
      end
  end.

Definition extract (members : list (string * node)) (root : node) : node :=
  fold_left (fun t mn => graft (path_of (fst mn)) (snd mn) t) members root.

(** [os.listdir]: the names, in directory order. *)
Definition names (es : list (string * node)) : list string := map fst es.

(* ------------------------------------------------------------------------- *)
(** ** External operations, exceptions, environment *)

(** The two partitions of the donor image and their temporary mount points. *)
Inductive part : Type := Boot | Root.

(** One constructor per external operation of [combine_images]. *)
Inductive action : Type :=
| MountBind (fs : string)       (* sudo mount --bind /fs azurelinux/fs *)
| CpResolv                      (* sudo cp /etc/resolv.conf azurelinux/etc/resolv.conf *)
| Chroot (args : list string)   (* sudo chroot azurelinux args... *)
| RmResolv                      (* sudo rm -f azurelinux/etc/resolv.conf *)
| UmountBind (fs : string)      (* sudo umount azurelinux/fs *)
| LosetupAttach                 (* sudo losetup --find --show -P raspbian *)
| Fsck (p : part)               (* sudo dosfsck -a loop p1 / sudo fsck.ext4 -y loop p2 *)
| Mkdtemp (p : part)            (* tempfile.mkdtemp(prefix=...) *)
| Mount (p : part)              (* sudo mount loop pN mount_point *)
| TarCreate (members : list string) (* sudo tar cf root/raspbian_preserve.tar members *)
| MvArchive                     (* sudo mv root/raspbian_preserve.tar /tmp/raspbian_preserve.tar *)
| RmRf (entry : string)         (* sudo rm -rf root/entry *)
| RmF (entry : string)          (* sudo rm -f root/entry *)
| CpA (entry : string)          (* sudo cp -a azurelinux/entry root/entry *)
| Cp (entry : string)           (* sudo cp azurelinux/entry root/entry *)
| TarExtract                    (* sudo tar xf /tmp/raspbian_preserve.tar -C root *)
| RmArchive                     (* sudo rm -f /tmp/raspbian_preserve.tar *)
| Sleep                         (* time.sleep(5) *)
| Umount (p : part)             (* sudo umount mount_point *)
| LosetupDetach                 (* sudo losetup -d loop *)
| Rmtree (p : part).            (* shutil.rmtree(mount_point) *)

Definition part_eqb (p q : part) : bool :=
  match p, q with
  | Boot, Boot | Root, Root => true
  | _, _ => false
  end.

Fixpoint list_eqb (l1 l2 : list string) : bool :=
  match l1, l2 with
  | [], [] => true
  | x :: l1', y :: l2' => String.eqb x y && list_eqb l1' l2'
  | _, _ => false
  end.

Definition action_eqb (a b : action) : bool :=
  match a, b with
  | MountBind x, MountBind y => String.eqb x y
  | CpResolv, CpResolv => true
  | Chroot x, Chroot y => list_eqb x y
  | RmResolv, RmResolv => true
  | UmountBind x, UmountBind y => String.eqb x y
  | LosetupAttach, LosetupAttach => true
  | Fsck p, Fsck q => part_eqb p q
  | Mkdtemp p, Mkdtemp q => part_eqb p q
  | Mount p, Mount q => part_eqb p q
  | TarCreate x, TarCreate y => list_eqb x y
  | MvArchive, MvArchive => true
  | RmRf x, RmRf y => String.eqb x y
  | RmF x, RmF y => String.eqb x y
  | CpA x, CpA y => String.eqb x y
  | Cp x, Cp y => String.eqb x y
  | TarExtract, TarExtract => true
  | RmArchive, RmArchive => true
  | Sleep, Sleep => true
  | Umount p, Umount q => part_eqb p q
  | LosetupDetach, LosetupDetach => true
  | Rmtree p, Rmtree q => part_eqb p q
  | _, _ => false
  end.

(** The Python exceptions the function can raise. *)
Inductive exn_kind : Type :=
| CalledProcessError (cmd : list string) (returncode : Z)
| OSError (op : action)
| FileNotFoundError (path : string)
| NotADirectoryError (path : string)
| IsADirectoryError (path : string)
| FileExistsError (path : string).

(** An exception in flight: what was raised, and its [__context__] chain
    (the exceptions that were being handled when it was raised, most recent
    first). *)
Record exn : Type := mk_exn { raised : exn_kind; context : list exn_kind }.

Definition fresh (k : exn_kind) : exn := mk_exn k [].

(** [e'] raised while [e] was propagating. *)
Definition with_context (e' e : exn) : exn :=
  mk_exn (raised e') (context e' ++ raised e :: context e).

(** The first exception of the chain. *)
Definition root_cause (e : exn) : exn_kind := last (context e) (raised e).

Inductive result (A : Type) : Type :=
| Ok (a : A)
| Raise (e : exn).
Arguments Ok {A} a.
Arguments Raise {A} e.

(** Everything the function gets from outside. *)
Record env : Type := mk_env {
  status : action -> Z;              (* exit status of each operation; 0 is success *)
  losetup_stdout : string;           (* what [losetup --show] prints *)
  mkdtemp_name : part -> string;     (* the directory [mkdtemp] returns *)
  random_source : N;                 (* the bits [random.getrandbits] draws from *)
  sha512_crypt : string -> N -> string -> string;  (* passlib: salt, rounds, secret *)
  chroot_effect : list string -> node -> node;     (* what a command run in the chroot does to the tree *)
  host_resolv_conf : string          (* content of the host's /etc/resolv.conf *)
}.

(** The world [combine_images] acts on. *)
Record world : Type := mk_world {
  azl_tree : node;           (* the replacement tree (directory [azurelinux]) *)
  binds : list string;       (* pseudo-filesystems bound into the replacement tree *)
  loop_attached : bool;      (* the image is attached to a loop device *)
  mounted : list part;       (* mount points with a partition mounted *)
  mount_dirs : list part;    (* temporary mount-point directories that exist *)
  rootfs : node;             (* content of the donor root partition *)
  staging : option node;     (* /tmp/raspbian_preserve.tar *)
  trace : list action        (* operations executed so far, oldest first *)
}.

Definition set_azl_tree (t : node) (w : world) : world :=
  mk_world t (binds w) (loop_attached w) (mounted w) (mount_dirs w) (rootfs w)
    (staging w) (trace w).
Definition set_binds (b : list string) (w : world) : world :=
  mk_world (azl_tree w) b (loop_attached w) (mounted w) (mount_dirs w) (rootfs w)
    (staging w) (trace w).
Definition set_loop_attached (b : bool) (w : world) : world :=
  mk_world (azl_tree w) (binds w) b (mounted w) (mount_dirs w) (rootfs w)
    (staging w) (trace w).
Definition set_mounted (m : list part) (w : world) : world :=
  mk_world (azl_tree w) (binds w) (loop_attached w) m (mount_dirs w) (rootfs w)
    (staging w) (trace w).
Definition set_mount_dirs (m : list part) (w : world) : world :=
  mk_world (azl_tree w) (binds w) (loop_attached w) (mounted w) m (rootfs w)
    (staging w) (trace w).
Definition set_rootfs (t : node) (w : world) : world :=
  mk_world (azl_tree w) (binds w) (loop_attached w) (mounted w) (mount_dirs w) t
    (staging w) (trace w).
Definition set_staging (s : option node) (w : world) : world :=
  mk_world (azl_tree w) (binds w) (loop_attached w) (mounted w) (mount_dirs w)
    (rootfs w) s (trace w).
Definition log (a : action) (w : world) : world :=
  mk_world (azl_tree w) (binds w) (loop_attached w) (mounted w) (mount_dirs w)
    (rootfs w) (staging w) (trace w ++ [a]).

(* ------------------------------------------------------------------------- *)
(** ** Small pieces of the Python library *)

Definition nl : string := String (ascii_of_nat 10) EmptyString.

Definition ends_with_slash (s : string) : bool :=
  match rev (list_ascii_of_string s) with
  | c :: _ => Ascii.eqb c "/"
  | [] => false
  end.

(** [os.path.join(a, b)] *)
Definition join (a b : string) : string :=
  if String.prefix "/" b then b
  else if String.eqb a "" || ends_with_slash a then a ++ b
  else a ++ "/" ++ b.

Definition is_space (c : ascii) : bool :=
  let n := nat_of_ascii c in
  Nat.eqb n 32 || (Nat.leb 9 n && Nat.leb n 13).

Fixpoint lstrip (l : list ascii) : list ascii :=
  match l with
  | c :: l' => if is_space c then lstrip l' else l
  | [] => []
  end.

(** [str.strip()] *)
Definition strip (s : string) : string :=
  string_of_list_ascii (rev (lstrip (rev (lstrip (list_ascii_of_string s))))).

Definition hex_digit (n : N) : ascii :=
  nth (N.to_nat n) (list_ascii_of_string "0123456789abcdef") "0"%char.

(** [n.to_bytes(len, 'big')] *)
Fixpoint to_bytes_big (len : nat) (n : N) : list N :=
  match len with
  | O => []
  | S k => to_bytes_big k (n / 256) ++ [(n mod 256)%N]
  end.

(** [bytes.hex()] *)
Fixpoint hex (bs : list N) : string :=
  match bs with
  | [] => EmptyString
  | b :: bs' => String (hex_digit (b / 16)) (String (hex_digit (b mod 16)) (hex bs'))
  end.

Definition ROUNDS : N := 5000.
Definition BACKUP_TAR_NAME : string := "raspbian_preserve.tar".
Definition BACKUP_TAR_TMP : string := "/tmp/raspbian_preserve.tar".
Definition PSEUDO_FS : list string := ["dev"; "proc"; "sys"].
Definition FSTAB : string :=
  "proc /proc proc defaults 0 0" ++ nl ++
  "/dev/mmcblk0p2 / ext4 defaults,rw 0 1" ++ nl ++
  "/dev/mmcblk0p1 /boot/firmware vfat defaults,rw,nofail 0 1" ++ nl.
Definition HOSTNAME : string := "azurelinux" ++ nl.
Definition PACKAGES : list string :=
  ["systemd"; "shadow-utils"; "openssh"; "iproute"; "sudo"; "procps-ng"; "less";
   "vim"; "vim-extra"; "man-pages"; "man-db"; "which"; "wpa_supplicant"; "file";
   "bash-completion"; "chrony"; "dhcpcd"].

(** Write [n] at path [p] of [t]; the parent directory has to exist. *)
Fixpoint put_at (p : list string) (n : node) (t : node) : option node :=
  match p with
  | [] => None
  | c :: p' =>
      match t with
      | Dir es =>
          match p' with
          | [] => Some (Dir (set_entry c n es))
          | _ :: _ =>
              match assoc c es with
              | Some m =>
                  match put_at p' n m with
                  | Some m' => Some (Dir (set_entry c m' es))
                  | None => None
                  end
              | None => None
              end
          end
      | _ => None
      end
  end.

(** [os.listdir(path)], [o] being what is at [path]. *)
Definition listdir (path : string) (o : option node) : exn_kind + list string :=
  match o with
  | Some (Dir es) => inr (names es)
  | Some _ => inl (NotADirectoryError path)
  | None => inl (FileNotFoundError path)
  end.

(* ------------------------------------------------------------------------- *)
(** ** The monad: world passing with exceptions *)

Definition M (A : Type) : Type := world -> result A * world.

Definition ret {A : Type} (a : A) : M A := fun w => (Ok a, w).

Definition bind {A B : Type} (m : M A) (f : A -> M B) : M B :=
  fun w =>
    match m w with
    | (Ok a, w') => f a w'
    | (Raise e, w') => (Raise e, w')
    end.

Definition raise {A : Type} (k : exn_kind) : M A := fun w => (Raise (fresh k), w).

Definition gets {A : Type} (f : world -> A) : M A := fun w => (Ok (f w), w).

(** [try: body finally: fin] *)
Definition try_finally {A : Type} (body : M A) (fin : M unit) : M A :=
  fun w =>
    match body w with
    | (Ok a, w1) =>
        match fin w1 with
        | (Ok _, w2) => (Ok a, w2)
        | (Raise e', w2) => (Raise e', w2)
        end
    | (Raise e, w1) =>
        match fin w1 with
        | (Ok _, w2) => (Raise e, w2)
        | (Raise e', w2) => (Raise (with_context e' e), w2)
        end
    end.

Declare Scope monad_scope.
Delimit Scope monad_scope with monad.
Notation "x <- m ;; k" := (bind m (fun x => k))
  (at level 61, m at next level, right associativity) : monad_scope.
Notation "m ;; k" := (bind m (fun _ => k))
  (at level 61, right associativity) : monad_scope.
Open Scope monad_scope.

(** [for x in l: f(x)] *)
Fixpoint for_each {A : Type} (l : list A) (f : A -> M unit) : M unit :=
  match l with
  | [] => ret tt
  | x :: l' => f x ;; for_each l' f
  end.

(* ------------------------------------------------------------------------- *)
(** ** [combine_images] *)

Section CombineImages.

Variable E : env.
Variables raspbian azurelinux : string.

Definition loop_device : string := strip (losetup_stdout E).

Definition partition (p : part) : string :=
  loop_device ++ match p with Boot => "p1" | Root => "p2" end.

(** [boot_mount] and [root_mount] *)
Definition mount_point (p : part) : string := mkdtemp_name E p.

Definition mkdtemp_prefix (p : part) : string :=
  match p with Boot => "mnt_boot_" | Root => "mnt_root_" end.

(** [random.getrandbits(64).to_bytes(8, 'big').hex()] *)
Definition password_salt : string :=
  hex (to_bytes_big 8 (random_source E mod 2 ^ 64)%N).

(** [sha512_crypt.using(salt=password_salt, rounds=5000).hash('azl')] *)
Definition password_hash : string := sha512_crypt E password_salt ROUNDS "azl".

Definition TDNF_UPDATE : list string := ["tdnf"; "-y"; "update"].
Definition TDNF_INSTALL : list string := ["tdnf"; "-y"; "install"] ++ PACKAGES.
Definition USERMOD : list string := ["usermod"; "-p"; password_hash; "root"].

Definition resolv_dst : string := join (join azurelinux "etc") "resolv.conf".

(** The command line of each operation, as the source builds it. *)
Definition argv (a : action) : list string :=
  match a with
  | MountBind fs => ["sudo"; "mount"; "--bind"; "/" ++ fs; join azurelinux fs]
  | CpResolv => ["sudo"; "cp"; "/etc/resolv.conf"; resolv_dst]
  | Chroot args => ["sudo"; "chroot"; azurelinux] ++ args
  | RmResolv => ["sudo"; "rm"; "-f"; resolv_dst]
  | UmountBind fs => ["sudo"; "umount"; join azurelinux fs]
  | LosetupAttach => ["sudo"; "losetup"; "--find"; "--show"; "-P"; raspbian]
  | Fsck Boot => ["sudo"; "dosfsck"; "-a"; partition Boot]
  | Fsck Root => ["sudo"; "fsck.ext4"; "-y"; partition Root]
  | Mkdtemp p => ["tempfile.mkdtemp"; mkdtemp_prefix p]
  | Mount p => ["sudo"; "mount"; partition p; mount_point p]
  | TarCreate members =>
      ["sudo"; "tar"; "cf"; join (mount_point Root) BACKUP_TAR_NAME] ++ members
  | MvArchive =>
      ["sudo"; "mv"; join (mount_point Root) BACKUP_TAR_NAME; BACKUP_TAR_TMP]
  | RmRf entry => ["sudo"; "rm"; "-rf"; join (mount_point Root) entry]
  | RmF entry => ["sudo"; "rm"; "-f"; join (mount_point Root) entry]
  | CpA entry =>
      ["sudo"; "cp"; "-a"; join azurelinux entry; join (mount_point Root) entry]
  | Cp entry => ["sudo"; "cp"; join azurelinux entry; join (mount_point Root) entry]
  | TarExtract => ["sudo"; "tar"; "xf"; BACKUP_TAR_TMP; "-C"; mount_point Root]
  | RmArchive => ["sudo"; "rm"; "-f"; BACKUP_TAR_TMP]
  | Sleep => ["time.sleep"; "5"]
  | Umount p => ["sudo"; "umount"; mount_point p]
  | LosetupDetach => ["sudo"; "losetup"; "-d"; loop_device]
  | Rmtree p => ["shutil.rmtree"; mount_point p]
  end.

(** What an operation that exits with status 0 does to the world. *)
Definition effect (a : action) (w : world) : world :=
  match a with
  | MountBind fs => set_binds (binds w ++ [fs]) w
  | CpResolv =>
      match put_at (path_of "etc/resolv.conf") (File (host_resolv_conf E)) (azl_tree w) with
      | Some t => set_azl_tree t w
      | None => w
      end
  | Chroot args => set_azl_tree (chroot_effect E args (azl_tree w)) w
  | RmResolv => set_azl_tree (remove_at (path_of "etc/resolv.conf") (azl_tree w)) w
  | UmountBind fs => set_binds (filter (fun b => negb (String.eqb b fs)) (binds w)) w
  | LosetupAttach => set_loop_attached true w
  | Fsck _ => w
  | Mkdtemp p => set_mount_dirs (mount_dirs w ++ [p]) w
  | Mount p => set_mounted (mounted w ++ [p]) w
  | TarCreate members =>
      set_rootfs (set_child BACKUP_TAR_NAME (Tar (collect members (rootfs w))) (rootfs w)) w
  | MvArchive =>
      match child BACKUP_TAR_NAME (rootfs w) with
      | Some n => set_staging (Some n) (set_rootfs (remove_child BACKUP_TAR_NAME (rootfs w)) w)
      | None => w
      end
  | RmRf entry | RmF entry => set_rootfs (remove_at (path_of entry) (rootfs w)) w
  | CpA entry | Cp entry =>
      match resolve_path (azl_tree w) entry with
      | Some src => set_rootfs (cp_into entry src (rootfs w)) w
      | None => w
      end
  | TarExtract =>
      match staging w with
      | Some (Tar ms) => set_rootfs (extract ms (rootfs w)) w
      | _ => w
      end
  | RmArchive => set_staging None w
  | Sleep => w
  | Umount p => set_mounted (filter (fun q => negb (part_eqb q p)) (mounted w)) w
  | LosetupDetach => set_loop_attached false w
  | Rmtree p => set_mount_dirs (filter (fun q => negb (part_eqb q p)) (mount_dirs w)) w
  end.

(** [subprocess.run(argv, check=True)] and [subprocess.check_output(argv)] *)
Definition run (a : action) : M unit :=
  fun w =>
    if Z.eqb (status E a) 0 then (Ok tt, effect a (log a w))
    else (Raise (fresh (CalledProcessError (argv a) (status E a))), log a w).

(** A library call that can raise [OSError] ([mkdtemp], [rmtree]) *)
Definition call (a : action) : M unit :=
  fun w =>
    if Z.eqb (status E a) 0 then (Ok tt, effect a (log a w))
    else (Raise (fresh (OSError a)), log a w).

(** [time.sleep(5)] *)
Definition sleep : M unit := fun w => (Ok tt, log Sleep w).

(** [os.makedirs(os.path.join(azurelinux, fs), exist_ok=True)] *)
Definition makedirs (fs : string) : M unit :=
  fun w =>
    match azl_tree w with
    | Dir es =>
        match assoc fs es with
        | Some (Dir _) => (Ok tt, w)
        | Some _ => (Raise (fresh (FileExistsError (join azurelinux fs))), w)
        | None => (Ok tt, set_azl_tree (Dir (set_entry fs (Dir []) es)) w)
        end
    | _ => (Raise (fresh (NotADirectoryError (join azurelinux fs))), w)
    end.

(** [with open(os.path.join(azurelinux, rel), 'w') as f: f.write(data)] *)
Definition write_text (rel : string) (data : string) : M unit :=
  fun w =>
    if path_isdir (azl_tree w) rel
    then (Raise (fresh (IsADirectoryError (join azurelinux rel))), w)
    else match put_at (path_of rel) (File data) (azl_tree w) with
         | Some t => (Ok tt, set_azl_tree t w)
         | None => (Raise (fresh (FileNotFoundError (join azurelinux rel))), w)
         end.

(** Lines 36-52: binds, resolv.conf, fstab, hostname. *)
Definition session_setup : M unit :=
  for_each PSEUDO_FS (fun fs => makedirs fs ;; run (MountBind fs)) ;;
  run CpResolv ;;
  write_text "etc/fstab" FSTAB ;;
  write_text "etc/hostname" HOSTNAME.

(** Lines 55-65: the body of the first [try]. *)
Definition session_body : M unit :=
  run (Chroot TDNF_UPDATE) ;;
  run (Chroot TDNF_INSTALL) ;;
  run (Chroot USERMOD).

(** Lines 67-72: the first [finally]. *)
Definition session_release : M unit :=
  run RmResolv ;;
  for_each PSEUDO_FS (fun fs => run (UmountBind fs)).

Definition provisioning_session : M unit :=
  session_setup ;;
  try_finally session_body session_release.

(** Lines 100-117: the preservation set, from the mounted root. *)
Definition preservation_set (root : node) : result (list string) :=
  let dirs_to_backup : list string := [] in
  let dirs_to_backup : list string :=
    if path_exists root "usr/lib/modules"
    then (dirs_to_backup ++ ["usr/lib/modules"])%list else dirs_to_backup in
  let dirs_to_backup : list string :=
    if path_exists root "usr/src"
    then (dirs_to_backup ++ ["usr/src"])%list else dirs_to_backup in
  let dirs_to_backup : list string :=
    if path_exists root "usr/lib/firmware"
    then (dirs_to_backup ++ ["usr/lib/firmware"])%list else dirs_to_backup in
  match listdir (join (mount_point Root) "usr/lib") (resolve_path root "usr/lib") with
  | inr entries =>
      Ok (fold_left
            (fun (dirs : list string) entry =>
               if String.prefix "rasp" entry
               then (dirs ++ [("usr/lib/" ++ entry)%string])%list else dirs)
            entries dirs_to_backup)
  | inl k => Raise (fresh k)
  end.

Definition resolve_preservation_set : M (list string) :=
  fun w => (preservation_set (rootfs w), w).

(** Lines 118-125 *)
Definition archive (dirs_to_backup : list string) : M unit :=
  match dirs_to_backup with
  | [] => ret tt
  | _ :: _ => run (TarCreate dirs_to_backup) ;; run MvArchive
  end.

Definition listdir_m (path : string) (f : world -> option node) : M (list string) :=
  fun w =>
    match listdir path (f w) with
    | inr entries => (Ok entries, w)
    | inl k => (Raise (fresh k), w)
    end.

(** Lines 128-135 *)
Definition wipe : M unit :=
  entries <- listdir_m (mount_point Root) (fun w => Some (rootfs w)) ;;
  for_each entries (fun entry =>
    if String.eqb entry "boot" then ret tt
    else
      isdir <- gets (fun w => path_isdir (rootfs w) entry) ;;
      if isdir then run (RmRf entry) else run (RmF entry)).

(** Lines 138-144 *)
Definition copy_tree : M unit :=
  entries <- listdir_m azurelinux (fun w => Some (azl_tree w)) ;;
  for_each entries (fun entry =>
    isdir <- gets (fun w => path_isdir (azl_tree w) entry) ;;
    if isdir then run (CpA entry) else run (Cp entry)).

(** Lines 147-155 *)
Definition restore : M unit :=
  archived <- gets (fun w => is_some (staging w)) ;;
  if archived then run TarExtract ;; run RmArchive else ret tt.

(** Lines 88-162: the body of the second [try]. *)
Definition mount_and_replace : M unit :=
  run (Mount Boot) ;;
  run (Mount Root) ;;
  dirs_to_backup <- resolve_preservation_set ;;
  archive dirs_to_backup ;;
  wipe ;;
  copy_tree ;;
  restore.

(** Lines 165-170: the second [finally]. *)
Definition release : M unit :=
  sleep ;;
  run (Umount Boot) ;;
  run (Umount Root) ;;
  run LosetupDetach ;;
  call (Rmtree Boot) ;;
  call (Rmtree Root).

(** Lines 74-170 *)
Definition block_device_stage : M unit :=
  run LosetupAttach ;;
  run (Fsck Boot) ;;
  run (Fsck Root) ;;
  call (Mkdtemp Boot) ;;
  call (Mkdtemp Root) ;;
  try_finally mount_and_replace release.

Definition combine_images : M unit :=
  provisioning_session ;;
  block_device_stage.

End CombineImages.

(* ------------------------------------------------------------------------- *)
(** ** Vocabulary of the properties *)

(** Lines 88-144: the second [try] up to the copy, i.e. without the restore
    step ([mount_and_replace] is this followed by [restore]). *)
Definition before_restore (E : env) (raspbian azurelinux : string) : M unit :=
  run E raspbian azurelinux (Mount Boot) ;;
  run E raspbian azurelinux (Mount Root) ;;
  dirs_to_backup <- resolve_preservation_set E ;;
  archive E raspbian azurelinux dirs_to_backup ;;
  wipe E raspbian azurelinux ;;
  copy_tree E raspbian azurelinux.

(** The straight-line blocks of operations. *)
Definition SESSION_BODY (E : env) : list action :=
  [Chroot TDNF_UPDATE; Chroot TDNF_INSTALL; Chroot (USERMOD E)].
Definition SESSION_RELEASE : list action :=
  [RmResolv; UmountBind "dev"; UmountBind "proc"; UmountBind "sys"].
Definition ATTACH_AND_CHECK : list action :=
  [LosetupAttach; Fsck Boot; Fsck Root; Mkdtemp Boot; Mkdtemp Root].
Definition MOUNTS : list action := [Mount Boot; Mount Root].
Definition RELEASE : list action :=
  [Umount Boot; Umount Root; LosetupDetach; Rmtree Boot; Rmtree Root].

Definition succeeds (E : env) (a : action) : bool := Z.eqb (status E a) 0.

(** The first operation of a block that exits with a non-zero status. *)
Definition first_failed (E : env) (l : list action) : option action :=
  find (fun a => negb (succeeds E a)) l.

(** What a block logs: its operations up to and including the first failure. *)
Fixpoint until_failure (E : env) (l : list action) : list action :=
  match l with
  | [] => []
  | a :: l' => a :: (if succeeds E a then until_failure E l' else [])
  end.

(** What a failed operation raises: [OSError] from the library calls,
    [CalledProcessError] with command line and status from the commands. *)
Definition raises (E : env) (raspbian azurelinux : string) (c : action) : exn_kind :=
  match c with
  | Mkdtemp _ | Rmtree _ => OSError c
  | _ => CalledProcessError (argv E raspbian azurelinux c) (status E c)
  end.

(** A straight-line block of operations, each with [check=True]: the
    operations run in order until one fails; the result is the operation
    that failed, if any, and the world reached. *)
Fixpoint run_block (E : env) (l : list action) (w : world) : option action * world :=
  match l with
  | [] => (None, w)
  | a :: l' =>
      if succeeds E a then run_block E l' (effect E a (log a w))
      else (Some a, log a w)
  end.

Definition block_result (E : env) (raspbian azurelinux : string)
    (rw : option action * world) : result unit * world :=
  match rw with
  | (None, w) => (Ok tt, w)
  | (Some c, w) => (Raise (fresh (raises E raspbian azurelinux c)), w)
  end.

(** Lines 100-155: what follows the two mounts in the second [try]. *)
Definition replace_steps (E : env) (raspbian azurelinux : string) : M unit :=
  dirs_to_backup <- resolve_preservation_set E ;;
  archive E raspbian azurelinux dirs_to_backup ;;
  wipe E raspbian azurelinux ;;
  copy_tree E raspbian azurelinux ;;
  restore E raspbian azurelinux.

Fixpoint index_of (a : action) (l : list action) : option nat :=
  match l with
  | [] => None
  | b :: l' =>
      if action_eqb b a then Some O
      else match index_of a l' with
           | Some i => Some (S i)
           | None => None
           end
  end.

Definition occurs (a : action) (l : list action) : bool := is_some (index_of a l).

(** Both are executed, [a] first. *)
Definition before (a b : action) (l : list action) : bool :=
  match index_of a l, index_of b l with
  | Some i, Some j => Nat.ltb i j
  | _, _ => false
  end.

Definition is_mount_or_umount (a : action) : bool :=
  match a with
  | Mount _ | Umount _ => true
  | _ => false
  end.

(** Operations of the provisioning session. *)
Definition session_action (a : action) : Prop :=
  match a with
  | MountBind _ | CpResolv | Chroot _ | RmResolv | UmountBind _ => True
  | _ => False
  end.

(** Operations of wipe and copy. *)
Definition swap_action (a : action) : Prop :=
  match a with
  | RmRf _ | RmF _ | CpA _ | Cp _ => True
  | _ => False
  end.

(** Operations of the root replacer. *)
Definition replace_action (a : action) : Prop :=
  match a with
  | TarCreate _ | MvArchive | RmRf _ | RmF _ | CpA _ | Cp _ | TarExtract | RmArchive => True
  | _ => False
  end.

(** Operations of the block device mounter. *)
Definition mounter_action (a : action) : Prop :=
  match a with
  | LosetupAttach | Fsck _ | Mkdtemp _ | Mount _ | Sleep | Umount _ | LosetupDetach
  | Rmtree _ => True
  | _ => False
  end.

(** Operations of the block device mounter and the root replacer. *)
Definition block_action (a : action) : Prop :=
  match a with
  | MountBind _ | CpResolv | Chroot _ | RmResolv | UmountBind _ => False
  | _ => True
  end.

(** [I] is kept by every allowed operation, whether it fails (only logged)
    or succeeds (logged, then its effect); with [tree] set, also by direct
    writes to the replacement tree. *)
Definition invariant_of (E : env) (ok : action -> Prop) (tree : bool)
    (I : world -> Prop) : Prop :=
  (forall a w, ok a -> I w -> I (log a w) /\ I (effect E a (log a w))) /\
  (tree = true -> forall t w, I w -> I (set_azl_tree t w)).

(** [m] changes the world only through the allowed operations (and, with
    [tree] set, direct writes to the replacement tree). *)
Definition uses {A : Type} (E : env) (ok : action -> Prop) (tree : bool) (m : M A)
  : Prop :=
  forall I : world -> Prop, invariant_of E ok tree I ->
  forall w r w', I w -> m w = (r, w') -> I w'.

Definition bindings_released (w : world) : Prop :=
  forall fs, In fs PSEUDO_FS -> ~ In fs (binds w).

(** C6 as the design document states it: when the resolved preservation
    set is empty, no archive is created and nothing is extracted. *)
Definition empty_set_skips_restore (E : env) (raspbian azurelinux : string)
    (w : world) : Prop :=
  preservation_set E (rootfs w) = Ok [] ->
  forall res w', combine_images E raspbian azurelinux w = (res, w') ->
    (forall members, occurs (TarCreate members) (trace w') = false) /\
    occurs TarExtract (trace w') = false.

(** C2 as the design document states it: when a command of the session
    fails, the three bindings are released and the exception the caller sees
    is the failure of that command, with nothing in its place. *)
Definition session_reports_original (E : env) (raspbian azurelinux : string)
    (w : world) : Prop :=
  forall e w' c,
    provisioning_session E raspbian azurelinux w = (Raise e, w') ->
    first_failed E (trace w') = Some c ->
    bindings_released w' /\
    e = fresh (CalledProcessError (argv E raspbian azurelinux c) (status E c)).

(** C10 as stated: however the session ends (normally, or by the
    [CalledProcessError] of a failed command), [etc/resolv.conf] is gone from
    the replacement tree. *)
Definition resolv_conf_always_removed (E : env) (raspbian azurelinux : string)
    (w : world) : Prop :=
  forall res w',
    provisioning_session E raspbian azurelinux w = (res, w') ->
    (res = Ok tt \/
     exists cmd rc ctx, res = Raise (mk_exn (CalledProcessError cmd rc) ctx)) ->
    path_exists (azl_tree w') "etc/resolv.conf" = false.

(** C5 as stated: if boot is mounted before root, root is unmounted before
    boot. *)
Definition unmounts_in_reverse_order (l : list action) : Prop :=
  before (Mount Boot) (Mount Root) l = true ->
  before (Umount Root) (Umount Boot) l = true.

(** A stale archive left at the staging path by an earlier, aborted run. *)
Definition stale_archive : node := Tar [("etc/shadow", File "stale")].

(** [e2fsck(8)] and [fsck.fat(8)]: exit status 1 reports that errors were
    found and corrected. *)
Definition FSCK_ERRORS_CORRECTED : Z := 1.

(** Modelled from the spec: the error kinds of section 7 of the design
    document.  The source has no error types of its own (a failed command
    raises [CalledProcessError] with its command line); the design document
    names a failure after the stage of the operation that failed. *)
Inductive error_kind : Type :=
| AttachFailed | FilesystemCorrupt | MountFailed | ProvisioningFailed
| ReplacementFailed | ReleaseFailed.

(** Modelled from the spec: the stage an operation belongs to (sections 4
    and 7 of the design document). *)
Definition stage_error (a : action) : error_kind :=
  match a with
  | MountBind _ | CpResolv | Chroot _ => ProvisioningFailed
  | LosetupAttach => AttachFailed
  | Fsck _ => FilesystemCorrupt
  | Mkdtemp _ | Mount _ => MountFailed
  | TarCreate _ | MvArchive | RmRf _ | RmF _ | CpA _ | Cp _ | TarExtract | RmArchive =>
      ReplacementFailed
  | RmResolv | UmountBind _ | Sleep | Umount _ | LosetupDetach | Rmtree _ => ReleaseFailed
  end.

(** The error kind an exception stands for: the stage of the failed
    operation whose exception it is. *)
Definition reports (E : env) (raspbian azurelinux : string) (e : exn) (k : error_kind)
  : Prop :=
  exists a, stage_error a = k /\ status E a <> 0%Z
            /\ raised e = raises E raspbian azurelinux a.

(** C7 as stated, for the error: in every run in which a command of the
    archive step fails, the pipeline aborts with a [ReplacementFailed]
    error. *)
Definition archive_failure_reported (E : env) (raspbian azurelinux : string)
    (w : world) : Prop :=
  forall c res w',
    combine_images E raspbian azurelinux w = (res, w') ->
    (c = MvArchive \/ exists dirs, c = TarCreate dirs) ->
    In c (trace w') -> status E c <> 0%Z ->
    exists e, res = Raise e /\ reports E raspbian azurelinux e ReplacementFailed.

(* ------------------------------------------------------------------------- *)
(** ** The preservation set as the design document words it *)

Definition FIXED_PATHS : list string := ["usr/lib/modules"; "usr/src"; "usr/lib/firmware"].
Definition VENDOR_PREFIX : string := "rasp".

(** The entries directly under [usr/lib] (none when it is not a directory). *)
Definition usr_lib_entries (root : node) : list string :=
  match resolve_path root "usr/lib" with
  | Some (Dir es) => names es
  | _ => []
  end.

(** Section 4.3 of the design document: the fixed paths that exist, in rule
    order, then [usr/lib/<entry>] for every entry directly under [usr/lib]
    whose name starts with the vendor prefix. *)
Definition spec_preservation_set (root : node) : list string :=
  (filter (path_exists root) FIXED_PATHS ++
   map (fun entry => ("usr/lib/" ++ entry)%string)
     (filter (String.prefix VENDOR_PREFIX) (usr_lib_entries root)))%list.

(** The resolver returns the set of section 4.3, without duplicates, every
    path of it existing under the mounted root. *)
Definition resolves_exactly (E : env) (root : node) : Prop :=
  preservation_set E root = Ok (spec_preservation_set root) /\
  NoDup (spec_preservation_set root) /\
  Forall (fun p => path_exists root p = true) (spec_preservation_set root).

(* ------------------------------------------------------------------------- *)
(** ** Concrete inputs used by the examples *)

Definition donor_root : node :=
  Dir [("boot", Dir [("kernel.img", File "k")]);
       ("etc", Dir [("passwd", File "root")]);
       ("usr", Dir [("lib", Dir [("modules", Dir [("y.ko", File "y")]);
                                 ("firmware", Dir []);
                                 ("raspberrypi-sys-mods", Dir []);
                                 ("os-release", File "raspbian")]);
                    ("src", Dir [])])].

(** A donor root with nothing to preserve. *)
Definition bare_root : node :=
  Dir [("boot", Dir []); ("etc", Dir [("passwd", File "root")]);
       ("usr", Dir [("lib", Dir [("os-release", File "raspbian")])])].

(** A donor root that has [usr/src] but no [usr/lib]. *)
Definition src_only_root : node :=
  Dir [("boot", Dir []); ("usr", Dir [("src", Dir [])])].

Definition replacement_tree : node :=
  Dir [("etc", Dir [("os-release", File "azl")]);
       ("usr", Dir [("lib", Dir [("modules", Dir [("x.ko", File "x")])])])].

(** An environment with the given exit statuses.  The hash function is a
    stand-in that only shows where salt and secret go. *)
Definition env_with (st : action -> Z) : env :=
  mk_env st ("/dev/loop0" ++ nl)
    (fun p => match p with Boot => "/tmp/mnt_boot_a" | Root => "/tmp/mnt_root_b" end)
    81985529216486895%N
    (fun salt _ secret => "$6$" ++ salt ++ "$" ++ secret)
    (fun _ t => t)
    ("nameserver 192.0.2.1" ++ nl).

(** Every operation succeeds, except the listed ones, which exit with the
    status given. *)
Fixpoint failing (l : list (action * Z)) (a : action) : Z :=
  match l with
  | [] => 0%Z
  | (b, rc) :: l' => if action_eqb a b then rc else failing l' a
  end.

Definition start (donor : node) (stale : option node) : world :=
  mk_world replacement_tree [] false [] [] donor stale [].


(* ------------------------------------------------------------------------- *)
(** ** Vocabulary of the further properties *)

(** The body of the wipe loop (lines 129-135). *)
Definition wipe_entry (E : env) (raspbian azurelinux : string) (entry : string) : M unit :=
  if String.eqb entry "boot" then ret tt
  else
    isdir <- gets (fun w => path_isdir (rootfs w) entry) ;;
    if isdir then run E raspbian azurelinux (RmRf entry)
    else run E raspbian azurelinux (RmF entry).

(** The body of the copy loop (lines 139-144). *)
Definition copy_entry (E : env) (raspbian azurelinux : string) (entry : string) : M unit :=
  isdir <- gets (fun w => path_isdir (azl_tree w) entry) ;;
  if isdir then run E raspbian azurelinux (CpA entry)
  else run E raspbian azurelinux (Cp entry).

(** The removal issued for a directory entry: recursive for a directory. *)
Definition rm_command (p : string * node) : action :=
  match snd p with
  | Dir _ => RmRf (fst p)
  | _ => RmF (fst p)
  end.

(** One removal per entry other than [boot], in listing order. *)
Definition wipe_commands (es : list (string * node)) : list action :=
  map rm_command (filter (fun p => negb (String.eqb (fst p) "boot")) es).

Definition cp_command (p : string * node) : action :=
  match snd p with
  | Dir _ => CpA (fst p)
  | _ => Cp (fst p)
  end.

(** One copy per entry, in listing order. *)
Definition copy_commands (es : list (string * node)) : list action := map cp_command es.

(** What a copy puts under [name] in a root that holds [old] there. *)
Definition copied (name : string) (src : node) (old : option node) : node :=
  match old with
  | Some (Dir ds) => graft [name] src (Dir ds)
  | _ => src
  end.

Definition is_hex_digit (c : ascii) : bool :=
  existsb (Ascii.eqb c) (list_ascii_of_string "0123456789abcdef").

(** [int(c, 16)] for one digit *)
Definition hex_value (c : ascii) : N :=
  (fix find (l : list ascii) (i : N) : N :=
     match l with
     | [] => 0%N
     | d :: l' => if Ascii.eqb c d then i else find l' (i + 1)%N
     end) (list_ascii_of_string "0123456789abcdef") 0%N.

(** [bytes.fromhex] *)
Fixpoint unhex (s : string) : list N :=
  match s with
  | String h (String l r) => (16 * hex_value h + hex_value l)%N :: unhex r
  | _ => []
  end.

(** [int.from_bytes(bs, 'big')] *)
Definition from_bytes_big (bs : list N) : N :=
  fold_left (fun acc b => (256 * acc + b)%N) bs 0%N.

(** A mounted root with a file and directories at top level. *)
Definition mixed_root : node :=
  Dir [("boot", Dir [("kernel.img", File "k")]); ("swapfile", File "s");
       ("etc", Dir [("passwd", File "root")]);
       ("usr", Dir [("lib", Dir [])])].

(** A replacement tree that has a [boot] directory and a top-level file. *)
Definition tree_with_boot : node :=
  Dir [("boot", Dir [("grub.cfg", File "g")]); ("etc", Dir [("os-release", File "azl")]);
       ("README", File "r")].

(* ------------------------------------------------------------------------- *)
(** ** The rest of the script: [download_file], [cleanup], [main]

    These functions work on the current directory of the host.  It is a
    file tree ([cwd]); the image files in it are opaque files, and what is
    inside the image (its partitions) stays in the [world] of
    [combine_images].  The extracted tree is the directory
    [azurelinux_extracted] of [cwd]: [combine_images] runs on it and what it
    leaves is written back. *)

Definition EXTRACT_TO : string := "azurelinux_extracted".
Definition DOCKER_IMAGE : string := "mcr.microsoft.com/azurelinux/base/core:3.0".
Definition RASPBIAN_URL : string :=
  "https://downloads.raspberrypi.com/raspios_lite_arm64/images/raspios_lite_arm64-2025-05-13/2025-05-13-raspios-bookworm-arm64-lite.img.xz".
Definition RASPBIAN_XZ : string := "2025-05-13-raspios-bookworm-arm64-lite.img.xz".
Definition RASPBIAN_IMG : string := "2025-05-13-raspios-bookworm-arm64-lite.img".
Definition AZL_IMAGE : string := "azl-pi.img".

(** [s.replace(old, new)]: the occurrences of [old] are replaced from left
    to right; an empty [old] matches before every character and at the end. *)
Fixpoint replace_empty (new s : string) : string :=
  match s with
  | EmptyString => EmptyString
  | String c r => String c (new ++ replace_empty new r)
  end.

Fixpoint replace_fuel (fuel : nat) (old new s : string) : string :=
  match fuel with
  | O => s
  | S k =>
      if String.prefix old s
      then new ++ replace_fuel k old new
                    (substring (String.length old) (String.length s - String.length old) s)
      else match s with
           | EmptyString => EmptyString
           | String c r => String c (replace_fuel k old new r)
           end
  end.

Definition str_replace (old new s : string) : string :=
  match old with
  | EmptyString => new ++ replace_empty new s
  | _ => replace_fuel (S (String.length s)) old new s
  end.

Definition is_digit (c : ascii) : bool :=
  let n := nat_of_ascii c in Nat.leb 48 n && Nat.leb n 57.

(** Digits, with single underscores allowed between them. *)
Fixpoint digits_ok (l : list ascii) (after_digit : bool) : bool :=
  match l with
  | [] => after_digit
  | c :: l' =>
      if is_digit c then digits_ok l' true
      else if Ascii.eqb c "_" then after_digit && digits_ok l' false
      else false
  end.

(** The texts [int(s)] accepts (ASCII): an optional sign, then digits. *)
Definition is_int_literal (s : string) : bool :=
  match list_ascii_of_string (strip s) with
  | c :: l => if Ascii.eqb c "+" || Ascii.eqb c "-" then digits_ok l false
              else digits_ok (c :: l) false
  | [] => false
  end.

(** The operations of [main], [download_file] and [cleanup]. *)
Inductive host_action : Type :=
| LosetupDetachAll                   (* sudo losetup -D *)
| PodmanPull                         (* podman pull image *)
| PodmanCreate                       (* podman create image *)
| RmtreeExtract                      (* shutil.rmtree(extract_to) *)
| PodmanCp                           (* podman cp id:/ extract_to *)
| PodmanRm                           (* podman rm id *)
| Urlretrieve (url dest : string)    (* urllib.request.urlretrieve(url, dest) *)
| XzDecompress                       (* xz -dk image.xz *)
| MoveImage                          (* shutil.move(image, azl-pi.img) *)
| RmRfExtract                        (* sudo rm -rf extract_to *)
| RemoveImage                        (* os.remove(image) *)
| Nproc                              (* nproc *)
| Zstd.                              (* zstd -v9T azl-pi.img *)

Definition host_action_eqb (a b : host_action) : bool :=
  match a, b with
  | LosetupDetachAll, LosetupDetachAll | PodmanPull, PodmanPull
  | PodmanCreate, PodmanCreate | RmtreeExtract, RmtreeExtract | PodmanCp, PodmanCp
  | PodmanRm, PodmanRm | XzDecompress, XzDecompress | MoveImage, MoveImage
  | RmRfExtract, RmRfExtract | RemoveImage, RemoveImage | Nproc, Nproc | Zstd, Zstd => true
  | Urlretrieve u d, Urlretrieve u' d' => String.eqb u u' && String.eqb d d'
  | _, _ => false
  end.

Inductive host_exn_kind : Type :=
| HCalledProcessError (cmd : list string) (returncode : Z)
| HOSError (op : host_action)
| HFileNotFoundError (text : string)
| HNotADirectoryError (path : string)
| HIsADirectoryError (path : string)
| HFileExistsError (path : string)
| HValueError (text : string).

(** An exception of [main]: one that came out of [combine_images], or one
    raised by the rest of the script. *)
Inductive host_exn : Type :=
| FromPipeline (e : exn)
| FromHost (k : host_exn_kind).

Inductive hresult (A : Type) : Type :=
| HOk (a : A)
| HRaise (e : host_exn).
Arguments HOk {A} a.
Arguments HRaise {A} e.

Record host_env : Type := mk_host_env {
  pipeline_env : env;                 (* what [combine_images] gets from outside *)
  host_status : host_action -> Z;     (* exit status of each operation; 0 is success *)
  podman_create_stdout : string;      (* what [podman create] prints *)
  nproc_stdout : string;              (* what [nproc] prints *)
  container_root : node;              (* the root file system of the container *)
  download : string -> string;        (* what a URL delivers *)
  xz_decompress : string -> string;
  zstd_compress : string -> string
}.

Record host : Type := mk_host {
  cwd : node;                      (* the current directory *)
  pipeline : world;                (* the world of [combine_images] *)
  host_trace : list host_action    (* operations executed so far, oldest first *)
}.

Definition set_cwd (c : node) (h : host) : host := mk_host c (pipeline h) (host_trace h).
Definition set_pipeline (w : world) (h : host) : host := mk_host (cwd h) w (host_trace h).
Definition hlog (a : host_action) (h : host) : host :=
  mk_host (cwd h) (pipeline h) (host_trace h ++ [a]).

(** Write a file of the current directory, if its directory exists. *)
Definition write_file (path : string) (n : node) (c : node) : node :=
  match put_at (path_of path) n c with
  | Some c' => c'
  | None => c
  end.

Definition H (A : Type) : Type := host -> hresult A * host.

Definition hret {A : Type} (a : A) : H A := fun h => (HOk a, h).

Definition hbind {A B : Type} (m : H A) (f : A -> H B) : H B :=
  fun h =>
    match m h with
    | (HOk a, h') => f a h'
    | (HRaise e, h') => (HRaise e, h')
    end.

Definition hraise {A : Type} (k : host_exn_kind) : H A := fun h => (HRaise (FromHost k), h).

(** [os.path.exists(path)], for a path relative to the current directory
    (no [..] in it); the empty path does not exist. *)
Definition exists_in (c : node) (path : string) : bool :=
  negb (String.eqb path "") && path_exists c path.

Definition hexists (path : string) : H bool := fun h => (HOk (exists_in (cwd h) path), h).

Declare Scope host_scope.
Delimit Scope host_scope with host.
Notation "x <- m ;; k" := (hbind m (fun x => k))
  (at level 61, m at next level, right associativity) : host_scope.
Notation "m ;; k" := (hbind m (fun _ => k))
  (at level 61, right associativity) : host_scope.

Section Script.

Variable HE : host_env.

Local Open Scope host_scope.

Definition container_id : string := strip (podman_create_stdout HE).

(** The command line (or call) of each operation, as the source builds it. *)
Definition hargv (a : host_action) : list string :=
  match a with
  | LosetupDetachAll => ["sudo"; "losetup"; "-D"]
  | PodmanPull => ["podman"; "pull"; DOCKER_IMAGE]
  | PodmanCreate => ["podman"; "create"; DOCKER_IMAGE]
  | RmtreeExtract => ["shutil.rmtree"; EXTRACT_TO]
  | PodmanCp => ["podman"; "cp"; (container_id ++ ":/")%string; EXTRACT_TO]
  | PodmanRm => ["podman"; "rm"; container_id]
  | Urlretrieve url dest => ["urllib.request.urlretrieve"; url; dest]
  | XzDecompress => ["xz"; "-dk"; RASPBIAN_XZ]
  | MoveImage => ["shutil.move"; RASPBIAN_IMG; AZL_IMAGE]
  | RmRfExtract => ["sudo"; "rm"; "-rf"; EXTRACT_TO]
  | RemoveImage => ["os.remove"; RASPBIAN_IMG]
  | Nproc => ["nproc"]
  | Zstd => ["zstd"; "-v9T"; AZL_IMAGE]
  end.

(** What an operation that succeeds does. *)
Definition heffect (a : host_action) (h : host) : host :=
  match a with
  | LosetupDetachAll => set_pipeline (set_loop_attached false (pipeline h)) h
  | PodmanPull | PodmanCreate | PodmanRm | Nproc | Urlretrieve _ _ => h
  | RmtreeExtract | RmRfExtract => set_cwd (remove_at (path_of EXTRACT_TO) (cwd h)) h
  | PodmanCp => set_cwd (graft (path_of EXTRACT_TO) (container_root HE) (cwd h)) h
  | XzDecompress =>
      match resolve_path (cwd h) RASPBIAN_XZ with
      | Some (File d) =>
          set_cwd (write_file RASPBIAN_IMG (File (xz_decompress HE d)) (cwd h)) h
      | _ => h
      end
  | MoveImage =>
      match resolve_path (cwd h) RASPBIAN_IMG with
      | Some n =>
          set_cwd (write_file AZL_IMAGE n (remove_at (path_of RASPBIAN_IMG) (cwd h))) h
      | None => h
      end
  | RemoveImage => set_cwd (remove_at (path_of RASPBIAN_IMG) (cwd h)) h
  | Zstd =>
      match resolve_path (cwd h) AZL_IMAGE with
      | Some (File d) =>
          set_cwd (write_file (AZL_IMAGE ++ ".zst") (File (zstd_compress HE d)) (cwd h)) h
      | _ => h
      end
  end.

(** [subprocess.run(argv, check=True)] and [subprocess.check_output(argv)] *)
Definition hrun (a : host_action) : H unit :=
  fun h =>
    if Z.eqb (host_status HE a) 0 then (HOk tt, heffect a (hlog a h))
    else (HRaise (FromHost (HCalledProcessError (hargv a) (host_status HE a))), hlog a h).

(** A library call that can raise [OSError] *)
Definition hcall (a : host_action) : H unit :=
  fun h =>
    if Z.eqb (host_status HE a) 0 then (HOk tt, heffect a (hlog a h))
    else (HRaise (FromHost (HOSError a)), hlog a h).

(** [urllib.request.urlretrieve(url, dest)]: the download can fail, and so
    does opening [dest] when it is a directory or its directory is missing. *)
Definition urlretrieve (url dest : string) : H unit :=
  fun h =>
    if Z.eqb (host_status HE (Urlretrieve url dest)) 0 then
      if path_isdir (cwd h) dest
      then (HRaise (FromHost (HIsADirectoryError dest)), hlog (Urlretrieve url dest) h)
      else
        match put_at (path_of dest) (File (download HE url)) (cwd h) with
        | Some c => (HOk tt, set_cwd c (hlog (Urlretrieve url dest) h))
        | None =>
            (HRaise (FromHost (HOSError (Urlretrieve url dest))),
             hlog (Urlretrieve url dest) h)
        end
    else (HRaise (FromHost (HOSError (Urlretrieve url dest))), hlog (Urlretrieve url dest) h).

(** Lines 18-24 *)
Definition download_file (url dest : string) : H unit :=
  present <- hexists dest ;;
  if negb present then urlretrieve url dest else hret tt.

(** [os.remove(image)]: a directory is not removed. *)
Definition os_remove_image : H unit :=
  fun h =>
    if path_isdir (cwd h) RASPBIAN_IMG
    then (HRaise (FromHost (HIsADirectoryError RASPBIAN_IMG)), h)
    else hcall RemoveImage h.

(** [int(subprocess.check_output(['nproc'], text=True).strip())] *)
Definition nproc : H unit :=
  hrun Nproc ;;
  if is_int_literal (strip (nproc_stdout HE)) then hret tt
  else hraise (HValueError (strip (nproc_stdout HE))).

(** Lines 182-185: rename the combined image to [azl-pi.img]. *)
Definition rename_image : H unit :=
  image <- hexists RASPBIAN_IMG ;;
  final <- hexists AZL_IMAGE ;;
  if image && negb final then hcall MoveImage else hret tt.

(** Lines 186-189: remove the extracted directory. *)
Definition remove_tree : H unit :=
  extracted <- hexists EXTRACT_TO ;;
  if extracted then hrun RmRfExtract else hret tt.

(** Lines 190-193: remove the uncompressed image. *)
Definition remove_raw_image : H unit :=
  image <- hexists RASPBIAN_IMG ;;
  if image then os_remove_image else hret tt.

(** Lines 194-200: compress the final image. *)
Definition compress_image : H unit :=
  final <- hexists AZL_IMAGE ;;
  if final then nproc ;; hrun Zstd else hret tt.

(** Lines 172-200 *)
Definition cleanup : H unit :=
  rename_image ;;
  remove_tree ;;
  remove_raw_image ;;
  compress_image.

(** [shutil.rmtree(extract_to)] *)
Definition rmtree_extract : H unit :=
  fun h =>
    if path_isdir (cwd h) EXTRACT_TO then hcall RmtreeExtract h
    else (HRaise (FromHost (HNotADirectoryError EXTRACT_TO)), h).

(** [os.makedirs(extract_to, exist_ok=True)] *)
Definition makedirs_extract : H unit :=
  fun h =>
    match resolve_path (cwd h) EXTRACT_TO with
    | Some (Dir _) => (HOk tt, h)
    | Some _ => (HRaise (FromHost (HFileExistsError EXTRACT_TO)), h)
    | None => (HOk tt, set_cwd (write_file EXTRACT_TO (Dir []) (cwd h)) h)
    end.

(** Lines 204-245: everything [main] does before [combine_images]. *)
Definition prepare : H unit :=
  hrun LosetupDetachAll ;;
  hrun PodmanPull ;;
  hrun PodmanCreate ;;
  stale <- hexists EXTRACT_TO ;;
  (if stale then rmtree_extract else hret tt) ;;
  makedirs_extract ;;
  hrun PodmanCp ;;
  hrun PodmanRm ;;
  download_file RASPBIAN_URL RASPBIAN_XZ ;;
  archive_present <- hexists RASPBIAN_XZ ;;
  if negb archive_present
  then hraise (HFileNotFoundError
                 ("Raspberry Pi SD image " ++ RASPBIAN_XZ ++ " does not exist."))
  else
    image_present <- hexists (str_replace ".xz" "" RASPBIAN_XZ) ;;
    (if negb image_present then hrun XzDecompress else hret tt) ;;
    image_present <- hexists (str_replace ".xz" "" RASPBIAN_XZ) ;;
    if negb image_present
    then hraise (HFileNotFoundError
                   ("Extracted Raspberry Pi SD image "
                    ++ str_replace ".xz" "" RASPBIAN_XZ ++ " does not exist."))
    else hret tt.

(** Line 246: [combine_images] on the image and the extracted tree. *)
Definition run_combine : H unit :=
  fun h =>
    let tree := match resolve_path (cwd h) EXTRACT_TO with
                | Some t => t
                | None => Dir []
                end in
    match combine_images (pipeline_env HE) (str_replace ".xz" "" RASPBIAN_XZ) EXTRACT_TO
            (set_azl_tree tree (pipeline h)) with
    | (Ok _, w') =>
        (HOk tt, mk_host (write_file EXTRACT_TO (azl_tree w') (cwd h)) w' (host_trace h))
    | (Raise e, w') =>
        (HRaise (FromPipeline e),
         mk_host (write_file EXTRACT_TO (azl_tree w') (cwd h)) w' (host_trace h))
    end.

(** Lines 203-249 *)
Definition main : H unit :=
  prepare ;;
  run_combine ;;
  cleanup.

End Script.

(** A host environment with the given exit statuses, around [env_with]. *)
Definition host_env_with (st : action -> Z) (hst : host_action -> Z) : host_env :=
  mk_host_env (env_with st) hst ("4f2a9c" ++ nl) ("4" ++ nl)
    replacement_tree
    (fun url => "xz:" ++ url)
    (fun d => "raw:" ++ d)
    (fun d => "zst:" ++ d).

Fixpoint hfailing (l : list (host_action * Z)) (a : host_action) : Z :=
  match l with
  | [] => 0%Z
  | (b, rc) :: l' => if host_action_eqb a b then rc else hfailing l' a
  end.

(** The directory [main] starts in, and the world behind the image. *)
Definition host_start (files : list (string * node)) : host :=
  mk_host (Dir files) (start donor_root None) [].

(** The names of the current directory an operation can change. *)
Definition touches (a : host_action) : list string :=
  match a with
  | RmtreeExtract | RmRfExtract | PodmanCp => [EXTRACT_TO]
  | XzDecompress => [RASPBIAN_IMG]
  | MoveImage => [RASPBIAN_IMG; AZL_IMAGE]
  | RemoveImage => [RASPBIAN_IMG]
  | Zstd => [(AZL_IMAGE ++ ".zst")%string]
  | _ => []
  end.

(** From a state in [P], [m] ends in [Q] when it returns and in [R] when it
    raises. *)
Definition htriple {A : Type} (P : host -> Prop) (m : H A)
  (Q : A -> host -> Prop) (R : host_exn -> host -> Prop) : Prop :=
  forall h r h', P h -> m h = (r, h') ->
    match r with
    | HOk a => Q a h'
    | HRaise e => R e h'
    end.

(** The operations of [cleanup]. *)
Definition is_cleanup_op (a : host_action) : bool :=
  match a with
  | MoveImage | RmRfExtract | RemoveImage | Nproc | Zstd => true
  | _ => false
  end.

(** What the steps of [main] before [cleanup] keep, from the state [h0] they
    start in to the state [h] they have reached: they run no operation of
    [cleanup]; they change no file but the extracted directory, the
    downloaded archive and the decompressed image; a decompressed image that
    was there is kept and not decompressed again; an archive that was there
    is kept and not downloaded again. *)
Definition prepare_keeps (h0 h : host) : Prop :=
  exists l,
    host_trace h = (host_trace h0 ++ l)%list /\
    (forall a, In a l -> is_cleanup_op a = false) /\
    (forall x, x <> EXTRACT_TO -> x <> RASPBIAN_XZ -> x <> RASPBIAN_IMG ->
       child x (cwd h) = child x (cwd h0)) /\
    (forall n, child RASPBIAN_IMG (cwd h0) = Some n ->
       child RASPBIAN_IMG (cwd h) = Some n /\ ~ In XzDecompress l) /\
    (forall n, child RASPBIAN_XZ (cwd h0) = Some n ->
       child RASPBIAN_XZ (cwd h) = Some n /\ forall u d, ~ In (Urlretrieve u d) l).
(* ------------------------------------------------------------------------- *)
(** * Properties *)

(** ** File trees *)

Lemma assoc_in {A : Type} (name : string) (l : list (string * A)) :
  In name (map fst l) -> exists v, assoc name l = Some v.
Proof.
  induction l as [|[k v] l IH]; simpl; [intros []|].
  destruct (String.eqb_spec k name) as [->|Hne]; [eauto|].
  intros [H|H]; [contradiction|auto].
Qed.

Lemma assoc_some_in {A : Type} (name : string) (l : list (string * A)) (v : A) :
  assoc name l = Some v -> In (name, v) l.
Proof.
  induction l as [|[k x] l IH]; simpl; [discriminate|].
  destruct (String.eqb_spec k name) as [->|Hne].
  - intros [= ->]. now left.
  - intros H. right. auto.
Qed.

Lemma memb_in (x : string) (l : list string) : memb x l = true <-> In x l.
Proof.
  induction l as [|y l IH]; simpl; [intuition discriminate|].
  rewrite orb_true_iff, IH.
  destruct (String.eqb_spec y x); intuition (auto; discriminate).
Qed.

Lemma nodupb_NoDup (l : list string) : nodupb l = true -> NoDup l.
Proof.
  induction l as [|x l IH]; simpl; [constructor|].
  rewrite andb_true_iff, negb_true_iff. intros [Hx Hl].
  constructor; [|auto].
  intros Hin. apply memb_in in Hin. congruence.
Qed.

Lemma wf_child (name : string) (n m : node) :
  wf_node n = true -> child name n = Some m -> wf_node m = true.
Proof.
  destruct n as [d|ms|es]; simpl; try discriminate.
  rewrite !andb_true_iff. intros [_ Hall] Hc.
  apply assoc_some_in in Hc.
  rewrite forallb_forall in Hall. apply (Hall _ Hc).
Qed.

Lemma wf_walk (p : list string) : forall n m,
  wf_node n = true -> walk p n = Some m -> wf_node m = true.
Proof.
  induction p as [|c p IH]; simpl; intros n m Hwf.
  - now intros [= <-].
  - destruct (child c n) as [k|] eqn:Hc; [|discriminate].
    apply IH. eapply wf_child; eauto.
Qed.

Lemma wf_dir_names (es : list (string * node)) :
  wf_node (Dir es) = true ->
  NoDup (names es) /\ Forall (fun e => valid_name e = true) (names es).
Proof.
  simpl. rewrite !andb_true_iff. intros [[Hv Hn] _]. split.
  - now apply nodupb_NoDup.
  - apply Forall_forall. now apply forallb_forall.
Qed.

Lemma components_no_slash (e : string) : no_slash e = true -> components e = [e].
Proof.
  induction e as [|c r IH]; simpl; [reflexivity|].
  rewrite andb_true_iff, negb_true_iff. intros [Hc Hr].
  now rewrite Hc, (IH Hr).
Qed.

Lemma path_of_usr_lib_entry (e : string) :
  valid_name e = true -> path_of ("usr/lib/" ++ e) = ["usr"; "lib"; e].
Proof.
  unfold valid_name. rewrite !andb_true_iff, !negb_true_iff.
  intros [[[He Hd] _] Hs].
  unfold path_of. simpl. rewrite (components_no_slash e Hs). simpl.
  now rewrite He, Hd.
Qed.

Lemma usr_lib_entry_exists (root : node) (es : list (string * node)) (e : string) :
  resolve_path root "usr/lib" = Some (Dir es) ->
  valid_name e = true -> In e (names es) ->
  path_exists root ("usr/lib/" ++ e) = true.
Proof.
  unfold path_exists, resolve_path. intros Hd Hv Hin.
  rewrite (path_of_usr_lib_entry e Hv).
  change (path_of "usr/lib") with ["usr"; "lib"] in Hd.
  simpl in *.
  destruct (child "usr" root) as [u|]; [|discriminate].
  destruct (child "lib" u) as [l|]; [|discriminate].
  injection Hd as ->. simpl.
  destruct (assoc_in e es Hin) as [v ->]. reflexivity.
Qed.

Lemma append_inj_l (p a b : string) : (p ++ a = p ++ b)%string -> a = b.
Proof. induction p as [|c p IH]; simpl; [auto|]. intros [= H]. auto. Qed.

Lemma NoDup_map_append (p : string) (l : list string) :
  NoDup l -> NoDup (map (fun e => p ++ e) l).
Proof.
  induction 1 as [|x l Hx Hl IH]; simpl; constructor; [|assumption].
  rewrite in_map_iff. intros [y [Heq Hy]].
  apply append_inj_l in Heq. subst. contradiction.
Qed.

(** ** The resolver *)

Lemma fold_rasp (entries : list string) : forall acc : list string,
  fold_left
    (fun (dirs : list string) entry =>
       if String.prefix "rasp" entry
       then (dirs ++ [("usr/lib/" ++ entry)%string])%list else dirs)
    entries acc
  = (acc ++ map (fun entry => ("usr/lib/" ++ entry)%string)
              (filter (String.prefix "rasp") entries))%list.
Proof.
  induction entries as [|e l IH]; intros acc; simpl.
  - now rewrite app_nil_r.
  - destruct (String.prefix "rasp" e); rewrite IH; [|reflexivity].
    simpl. now rewrite <- app_assoc.
Qed.

Lemma fixed_rules (root : node) :
  (let d := [] in
   let d := if path_exists root "usr/lib/modules" then (d ++ ["usr/lib/modules"])%list else d in
   let d := if path_exists root "usr/src" then (d ++ ["usr/src"])%list else d in
   if path_exists root "usr/lib/firmware" then (d ++ ["usr/lib/firmware"])%list else d)
  = filter (path_exists root) FIXED_PATHS.
Proof.
  unfold FIXED_PATHS. simpl.
  destruct (path_exists root "usr/lib/modules"), (path_exists root "usr/src"),
    (path_exists root "usr/lib/firmware"); reflexivity.
Qed.

Lemma preservation_set_dir (E : env) (root : node) (es : list (string * node)) :
  resolve_path root "usr/lib" = Some (Dir es) ->
  preservation_set E root = Ok (spec_preservation_set root).
Proof.
  intros Hd. unfold preservation_set, spec_preservation_set, usr_lib_entries.
  rewrite Hd. cbv zeta. unfold listdir.
  rewrite fold_rasp. f_equal. f_equal. apply (fixed_rules root).
Qed.

Lemma preservation_set_no_dir (E : env) (root : node) :
  path_isdir root "usr/lib" = false ->
  exists k, preservation_set E root = Raise (fresh k) /\
    (k = FileNotFoundError (join (mount_point E Root) "usr/lib") \/
     k = NotADirectoryError (join (mount_point E Root) "usr/lib")).
Proof.
  unfold path_isdir, preservation_set. cbv zeta.
  destruct (resolve_path root "usr/lib") as [[d|ms|es]|]; simpl; try discriminate;
    intros _; eexists; split; eauto.
Qed.

(** ** Stepping through the monad *)

Section Reasoning.

Variable E : env.
Variables raspbian azurelinux : string.

Lemma run_ok (a : action) (w : world) :
  status E a = 0%Z ->
  run E raspbian azurelinux a w = (Ok tt, effect E a (log a w)).
Proof. intros H. unfold run. now rewrite H. Qed.

Lemma run_fail (a : action) (w : world) :
  status E a <> 0%Z ->
  run E raspbian azurelinux a w
  = (Raise (fresh (CalledProcessError (argv E raspbian azurelinux a) (status E a))),
     log a w).
Proof.
  intros H. unfold run. destruct (Z.eqb_spec (status E a) 0); [contradiction|reflexivity].
Qed.

Lemma call_ok (a : action) (w : world) :
  status E a = 0%Z -> call E a w = (Ok tt, effect E a (log a w)).
Proof. intros H. unfold call. now rewrite H. Qed.

Lemma call_fail (a : action) (w : world) :
  status E a <> 0%Z -> call E a w = (Raise (fresh (OSError a)), log a w).
Proof.
  intros H. unfold call. destruct (Z.eqb_spec (status E a) 0); [contradiction|reflexivity].
Qed.

Lemma succeeds_true (a : action) : succeeds E a = true <-> status E a = 0%Z.
Proof. unfold succeeds. apply Z.eqb_eq. Qed.

Lemma succeeds_false (a : action) : succeeds E a = false <-> status E a <> 0%Z.
Proof. unfold succeeds. apply Z.eqb_neq. Qed.

Lemma trace_effect (a : action) (w : world) : trace (effect E a w) = trace w.
Proof.
  destruct a; simpl; try reflexivity;
    repeat match goal with
           | |- context [match ?x with _ => _ end] => destruct x; simpl
           end; reflexivity.
Qed.

(** ** Programs and the operations they use *)

Lemma uses_weaken {A : Type} (ok ok' : action -> Prop) (tree tree' : bool) (m : M A) :
  (forall a, ok a -> ok' a) -> (tree = true -> tree' = true) ->
  uses E ok tree m -> uses E ok' tree' m.
Proof.
  intros Hok Htree Hm I [HI Ht]. apply Hm. split.
  - intros a w Ha. apply HI. auto.
  - intros Htr. apply Ht. auto.
Qed.

Lemma uses_ret {A : Type} ok tree (a : A) : uses E ok tree (ret a).
Proof. intros I _ w r w' Hw [= _ <-]. exact Hw. Qed.

Lemma uses_gets {A : Type} ok tree (f : world -> A) : uses E ok tree (gets f).
Proof. intros I _ w r w' Hw [= _ <-]. exact Hw. Qed.

Lemma uses_bind {A B : Type} ok tree (m : M A) (f : A -> M B) :
  uses E ok tree m -> (forall a, uses E ok tree (f a)) -> uses E ok tree (bind m f).
Proof.
  intros Hm Hf I HI w r w' Hw. unfold bind.
  destruct (m w) as [[a|e] w1] eqn:Hmw.
  - apply (Hf a I HI). apply (Hm I HI _ _ _ Hw Hmw).
  - intros [= _ <-]. apply (Hm I HI _ _ _ Hw Hmw).
Qed.

Lemma uses_run (ok : action -> Prop) tree (a : action) :
  ok a -> uses E ok tree (run E raspbian azurelinux a).
Proof.
  intros Ha I [HI _] w r w' Hw. unfold run.
  destruct (HI a w Ha Hw) as [Hl He].
  destruct (Z.eqb (status E a) 0); intros [= _ <-]; assumption.
Qed.

Lemma uses_call (ok : action -> Prop) tree (a : action) :
  ok a -> uses E ok tree (call E a).
Proof.
  intros Ha I [HI _] w r w' Hw. unfold call.
  destruct (HI a w Ha Hw) as [Hl He].
  destruct (Z.eqb (status E a) 0); intros [= _ <-]; assumption.
Qed.

Lemma uses_sleep (ok : action -> Prop) tree : ok Sleep -> uses E ok tree sleep.
Proof.
  intros Ha I [HI _] w r w' Hw [= _ <-]. apply (HI Sleep w Ha Hw).
Qed.

Lemma uses_for_each {A : Type} ok tree (l : list A) (f : A -> M unit) :
  (forall x, uses E ok tree (f x)) -> uses E ok tree (for_each l f).
Proof.
  intros Hf. induction l as [|x l IH]; simpl.
  - apply uses_ret.
  - apply uses_bind; auto.
Qed.

Lemma uses_try_finally {A : Type} ok tree (body : M A) (fin : M unit) :
  uses E ok tree body -> uses E ok tree fin -> uses E ok tree (try_finally body fin).
Proof.
  intros Hb Hf I HI w r w' Hw. unfold try_finally.
  destruct (body w) as [[a|e] w1] eqn:Hbw;
    pose proof (Hb I HI _ _ _ Hw Hbw) as H1;
    destruct (fin w1) as [[u|e'] w2] eqn:Hfw;
    pose proof (Hf I HI _ _ _ H1 Hfw) as H2;
    intros [= _ <-]; exact H2.
Qed.

Lemma uses_listdir_m ok tree (path : string) (f : world -> option node) :
  uses E ok tree (listdir_m path f).
Proof.
  intros I _ w r w' Hw. unfold listdir_m.
  destruct (listdir path (f w)); intros [= _ <-]; exact Hw.
Qed.

Lemma uses_resolve ok tree : uses E ok tree (resolve_preservation_set E).
Proof. intros I _ w r w' Hw [= _ <-]. exact Hw. Qed.

Lemma uses_makedirs ok (fs : string) : uses E ok true (makedirs azurelinux fs).
Proof.
  intros I [_ Ht] w r w' Hw. unfold makedirs.
  destruct (azl_tree w) as [d|ms|es]; try (intros [= _ <-]; exact Hw).
  destruct (assoc fs es) as [[d|ms|ds]|]; intros [= _ <-]; auto.
Qed.

Lemma uses_write_text ok (rel data : string) :
  uses E ok true (write_text azurelinux rel data).
Proof.
  intros I [_ Ht] w r w' Hw. unfold write_text.
  destruct (path_isdir (azl_tree w) rel); [intros [= _ <-]; exact Hw|].
  destruct (put_at (path_of rel) (File data) (azl_tree w));
    intros [= _ <-]; auto.
Qed.

Lemma uses_session_setup :
  uses E session_action true (session_setup E raspbian azurelinux).
Proof.
  unfold session_setup.
  apply uses_bind.
  { apply uses_for_each. intros fs. apply uses_bind; [apply uses_makedirs|].
    intros _. apply uses_run. exact I. }
  intros _. apply uses_bind; [apply uses_run; exact I|].
  intros _. apply uses_bind; [apply uses_write_text|].
  intros _. apply uses_write_text.
Qed.

Lemma uses_session_body :
  uses E session_action true (session_body E raspbian azurelinux).
Proof.
  unfold session_body.
  apply uses_bind; [apply uses_run; exact I|intros _].
  apply uses_bind; [apply uses_run; exact I|intros _].
  apply uses_run; exact I.
Qed.

Lemma uses_session_release :
  uses E session_action true (session_release E raspbian azurelinux).
Proof.
  unfold session_release. apply uses_bind; [apply uses_run; exact I|].
  intros _. apply uses_for_each. intros fs. apply uses_run. exact I.
Qed.

Lemma uses_provisioning_session :
  uses E session_action true (provisioning_session E raspbian azurelinux).
Proof.
  unfold provisioning_session. apply uses_bind; [apply uses_session_setup|].
  intros _. apply uses_try_finally;
    [apply uses_session_body | apply uses_session_release].
Qed.

Lemma uses_archive (dirs : list string) :
  uses E replace_action false (archive E raspbian azurelinux dirs).
Proof.
  destruct dirs as [|d ds]; simpl; [apply uses_ret|].
  apply uses_bind; [|intros _]; apply uses_run; exact I.
Qed.

Lemma uses_wipe : uses E swap_action false (wipe E raspbian azurelinux).
Proof.
  unfold wipe. apply uses_bind; [apply uses_listdir_m|].
  intros entries. apply uses_for_each. intros entry.
  destruct (String.eqb entry "boot"); [apply uses_ret|].
  apply uses_bind; [apply uses_gets|].
  intros [|]; apply uses_run; exact I.
Qed.

Lemma uses_copy_tree : uses E swap_action false (copy_tree E raspbian azurelinux).
Proof.
  unfold copy_tree. apply uses_bind; [apply uses_listdir_m|].
  intros entries. apply uses_for_each. intros entry.
  apply uses_bind; [apply uses_gets|].
  intros [|]; apply uses_run; exact I.
Qed.

Lemma uses_restore : uses E replace_action false (restore E raspbian azurelinux).
Proof.
  unfold restore. apply uses_bind; [apply uses_gets|].
  intros [|]; [|apply uses_ret].
  apply uses_bind; [|intros _]; apply uses_run; exact I.
Qed.

Lemma swap_is_replace (a : action) : swap_action a -> replace_action a.
Proof. destruct a; simpl; auto. Qed.

Lemma replace_is_block (a : action) : replace_action a -> block_action a.
Proof. destruct a; simpl; auto. Qed.

Lemma mounter_is_block (a : action) : mounter_action a -> block_action a.
Proof. destruct a; simpl; auto. Qed.

Lemma uses_release : uses E mounter_action false (release E raspbian azurelinux).
Proof.
  unfold release.
  apply uses_bind; [apply uses_sleep; exact I|intros _].
  apply uses_bind; [apply uses_run; exact I|intros _].
  apply uses_bind; [apply uses_run; exact I|intros _].
  apply uses_bind; [apply uses_run; exact I|intros _].
  apply uses_bind; [apply uses_call; exact I|intros _].
  apply uses_call; exact I.
Qed.

Lemma uses_replace_block {A : Type} (m : M A) :
  uses E replace_action false m -> uses E block_action false m.
Proof. apply uses_weaken; [apply replace_is_block|auto]. Qed.

Lemma uses_swap_replace {A : Type} (m : M A) :
  uses E swap_action false m -> uses E replace_action false m.
Proof. apply uses_weaken; [apply swap_is_replace|auto]. Qed.

Lemma uses_mount_and_replace :
  uses E block_action false (mount_and_replace E raspbian azurelinux).
Proof.
  unfold mount_and_replace.
  apply uses_bind; [apply uses_run; exact I|intros _].
  apply uses_bind; [apply uses_run; exact I|intros _].
  apply uses_bind; [apply uses_resolve|intros dirs].
  apply uses_bind; [apply uses_replace_block, uses_archive|intros _].
  apply uses_bind; [apply uses_replace_block, uses_swap_replace, uses_wipe|intros _].
  apply uses_bind; [apply uses_replace_block, uses_swap_replace, uses_copy_tree|intros _].
  apply uses_replace_block, uses_restore.
Qed.

Lemma uses_block_device_stage :
  uses E block_action false (block_device_stage E raspbian azurelinux).
Proof.
  unfold block_device_stage.
  apply uses_bind; [apply uses_run; exact I|intros _].
  apply uses_bind; [apply uses_run; exact I|intros _].
  apply uses_bind; [apply uses_run; exact I|intros _].
  apply uses_bind; [apply uses_call; exact I|intros _].
  apply uses_bind; [apply uses_call; exact I|intros _].
  apply uses_try_finally; [apply uses_mount_and_replace|].
  apply (uses_weaken mounter_action block_action false false);
    [apply mounter_is_block|auto|apply uses_release].
Qed.

(** What a program adds to the log consists of operations it uses. *)
Lemma uses_trace {A : Type} (ok : action -> Prop) tree (m : M A) (w : world) r w' :
  uses E ok tree m -> m w = (r, w') ->
  exists l, trace w' = (trace w ++ l)%list /\ Forall ok l.
Proof.
  intros Hm Hrun.
  apply (Hm (fun x => exists l, trace x = (trace w ++ l)%list /\ Forall ok l))
    with (w := w) (r := r); [|exists []; now rewrite app_nil_r|exact Hrun].
  split.
  - intros a x Ha [l [Hl Hf]]. split.
    + exists (l ++ [a])%list. simpl. rewrite Hl, app_assoc. split; [reflexivity|].
      apply Forall_app. auto.
    + exists (l ++ [a])%list. rewrite trace_effect. simpl.
      rewrite Hl, app_assoc. split; [reflexivity|]. apply Forall_app. auto.
  - intros _ t x [l [Hl Hf]]. exists l. auto.
Qed.

(** A field of the world that no allowed operation touches is unchanged. *)
Lemma uses_frame {A B : Type} (ok : action -> Prop) tree (m : M A)
    (field : world -> B) (w : world) r w' :
  (forall a x, ok a -> field (effect E a x) = field x) ->
  (forall a x, field (log a x) = field x) ->
  (tree = true -> forall t x, field (set_azl_tree t x) = field x) ->
  uses E ok tree m -> m w = (r, w') -> field w' = field w.
Proof.
  intros He Hl Ht Hm Hrun.
  apply (Hm (fun x => field x = field w)) with (w := w) (r := r);
    [|reflexivity|exact Hrun].
  split.
  - intros a x Ha Hx. split; [now rewrite Hl|]. now rewrite He, Hl.
  - intros Htree t x Hx. now rewrite Ht.
Qed.

End Reasoning.

(** ** Straight-line blocks *)

Section Blocks.

Variable E : env.
Variables raspbian azurelinux : string.

Lemma run_block_failed (l : list action) : forall w,
  fst (run_block E l w) = first_failed E l.
Proof.
  induction l as [|a l IH]; intros w; simpl; [reflexivity|].
  unfold first_failed in *. simpl.
  destruct (succeeds E a); simpl; [apply IH|reflexivity].
Qed.

Lemma run_block_trace (l : list action) : forall w,
  trace (snd (run_block E l w)) = (trace w ++ until_failure E l)%list.
Proof.
  induction l as [|a l IH]; intros w; simpl; [now rewrite app_nil_r|].
  destruct (succeeds E a); simpl; [|reflexivity].
  rewrite IH, trace_effect. simpl. now rewrite <- app_assoc.
Qed.

Lemma run_block_frame {B : Type} (field : world -> B) (l : list action) :
  (forall a x, In a l -> field (effect E a x) = field x) ->
  (forall a x, field (log a x) = field x) ->
  forall w, field (snd (run_block E l w)) = field w.
Proof.
  intros He Hl. induction l as [|a l IH]; intros w; simpl; [reflexivity|].
  destruct (succeeds E a); simpl; [|apply Hl].
  rewrite IH; [|intros b x Hb; apply He; now right].
  rewrite He; [apply Hl|now left].
Qed.

Lemma until_failure_incl (l : list action) (a : action) :
  In a (until_failure E l) -> In a l.
Proof.
  induction l as [|b l IH]; simpl; [auto|].
  intros [H|H]; [now left|]. destruct (succeeds E b); [right; auto|destruct H].
Qed.

Lemma until_failure_all (l : list action) :
  first_failed E l = None -> until_failure E l = l.
Proof.
  unfold first_failed. induction l as [|a l IH]; simpl; [reflexivity|].
  destruct (succeeds E a); simpl; [|discriminate]. intros H. now rewrite IH.
Qed.

Lemma first_failed_app_none (l1 l2 : list action) :
  first_failed E (l1 ++ l2) = None ->
  first_failed E l1 = None /\ first_failed E l2 = None.
Proof.
  unfold first_failed. induction l1 as [|a l IH]; simpl; [auto|].
  destruct (succeeds E a); simpl; [auto|discriminate].
Qed.

Lemma first_failed_fails (l : list action) (c : action) :
  first_failed E l = Some c -> In c l /\ status E c <> 0%Z.
Proof.
  unfold first_failed. intros H. apply find_some in H. destruct H as [Hin Hs].
  split; [exact Hin|]. apply succeeds_false. now apply negb_true_iff.
Qed.

Ltac by_status :=
  unfold run, call, sleep, bind, block_result; simpl; unfold succeeds; simpl;
  repeat match goal with
         | |- context [Z.eqb (status E ?a) 0] =>
             destruct (Z.eqb (status E a) 0); simpl; try reflexivity
         end.

Lemma session_body_block (w : world) :
  session_body E raspbian azurelinux w
  = block_result E raspbian azurelinux (run_block E (SESSION_BODY E) w).
Proof. unfold session_body, SESSION_BODY. by_status. Qed.

Lemma session_release_block (w : world) :
  session_release E raspbian azurelinux w
  = block_result E raspbian azurelinux (run_block E SESSION_RELEASE w).
Proof. unfold session_release, SESSION_RELEASE, PSEUDO_FS. by_status. Qed.

Lemma release_block (w : world) :
  release E raspbian azurelinux w
  = block_result E raspbian azurelinux (run_block E RELEASE (log Sleep w)).
Proof. unfold release, RELEASE. by_status. Qed.

Lemma mount_and_replace_block (w : world) :
  mount_and_replace E raspbian azurelinux w
  = match run_block E MOUNTS w with
    | (None, w1) => replace_steps E raspbian azurelinux w1
    | (Some c, w1) => (Raise (fresh (raises E raspbian azurelinux c)), w1)
    end.
Proof.
  unfold mount_and_replace, replace_steps, MOUNTS.
  unfold run at 1 2, bind at 1 2. simpl. unfold succeeds.
  destruct (Z.eqb (status E (Mount Boot)) 0); [|reflexivity].
  destruct (Z.eqb (status E (Mount Root)) 0); reflexivity.
Qed.

Lemma block_device_stage_block (w : world) :
  block_device_stage E raspbian azurelinux w
  = match run_block E ATTACH_AND_CHECK w with
    | (None, w1) =>
        try_finally (mount_and_replace E raspbian azurelinux)
          (release E raspbian azurelinux) w1
    | (Some c, w1) => (Raise (fresh (raises E raspbian azurelinux c)), w1)
    end.
Proof.
  unfold block_device_stage, ATTACH_AND_CHECK.
  unfold run at 1 2 3, call at 1 2, bind at 1 2 3 4 5. simpl. unfold succeeds.
  destruct (Z.eqb (status E LosetupAttach) 0); [|reflexivity].
  destruct (Z.eqb (status E (Fsck Boot)) 0); [|reflexivity].
  destruct (Z.eqb (status E (Fsck Root)) 0); [|reflexivity].
  destruct (Z.eqb (status E (Mkdtemp Boot)) 0); [|reflexivity].
  destruct (Z.eqb (status E (Mkdtemp Root)) 0); reflexivity.
Qed.

Lemma combine_after_session (w w1 : world) :
  provisioning_session E raspbian azurelinux w = (Ok tt, w1) ->
  combine_images E raspbian azurelinux w = block_device_stage E raspbian azurelinux w1.
Proof. intros H. unfold combine_images, bind. now rewrite H. Qed.

Lemma uses_replace_steps :
  uses E replace_action false (replace_steps E raspbian azurelinux).
Proof.
  unfold replace_steps.
  apply uses_bind; [apply uses_resolve|intros dirs].
  apply uses_bind; [apply uses_archive|intros _].
  apply uses_bind; [apply uses_swap_replace, uses_wipe|intros _].
  apply uses_bind; [apply uses_swap_replace, uses_copy_tree|intros _].
  apply uses_restore.
Qed.

End Blocks.

(** ** C3: the preservation set *)

Lemma fixed_not_vendor (entry : string) :
  String.prefix VENDOR_PREFIX entry = true ->
  ~ In ("usr/lib/" ++ entry)%string FIXED_PATHS.
Proof.
  intros Hp [H|[H|[H|[]]]].
  - apply (append_inj_l "usr/lib/" "modules" entry) in H. subst. discriminate.
  - simpl in H. discriminate.
  - apply (append_inj_l "usr/lib/" "firmware" entry) in H. subst. discriminate.
Qed.

Lemma spec_preservation_set_In (root : node) (p : string) :
  In p (spec_preservation_set root) <->
  (In p FIXED_PATHS /\ path_exists root p = true) \/
  (exists entry, In entry (usr_lib_entries root) /\
     String.prefix VENDOR_PREFIX entry = true /\ p = ("usr/lib/" ++ entry)%string).
Proof.
  unfold spec_preservation_set. rewrite in_app_iff, filter_In, in_map_iff.
  split; (intros [H|[e H]]; [left; exact H|right; exists e]).
  - rewrite filter_In in H. intuition auto.
  - rewrite filter_In. intuition auto.
Qed.

(** C3 (as amended).  For every well-formed mounted donor root in which
    [usr/lib] is a directory, the resolver returns exactly the fixed paths
    that exist (modules, src, firmware, in that order) followed by
    [usr/lib/<entry>] for every entry directly under [usr/lib] whose name
    starts with the vendor prefix; the list has no duplicates, every path in
    it exists, and each rule contributes independently of the others. *)
Theorem C3_preservation_set_exact (E : env) (root : node) :
  wf_node root = true ->
  path_isdir root "usr/lib" = true ->
  resolves_exactly E root /\
  (forall p, In p (spec_preservation_set root) <->
     (In p FIXED_PATHS /\ path_exists root p = true) \/
     (exists entry, In entry (usr_lib_entries root) /\
        String.prefix VENDOR_PREFIX entry = true /\ p = ("usr/lib/" ++ entry)%string)).
Proof.
  intros Hwf Hdir. split; [|apply spec_preservation_set_In].
  unfold path_isdir in Hdir.
  destruct (resolve_path root "usr/lib") as [[d|ms|es]|] eqn:Hl; try discriminate.
  assert (Hes : wf_node (Dir es) = true) by (eapply wf_walk; eauto).
  destruct (wf_dir_names es Hes) as [Hnd Hval].
  assert (Hentries : usr_lib_entries root = names es)
    by (unfold usr_lib_entries; now rewrite Hl).
  split; [eapply preservation_set_dir; eauto|]. split.
  - unfold spec_preservation_set. apply NoDup_app.
    + apply NoDup_filter. unfold FIXED_PATHS.
      repeat constructor; simpl; intuition discriminate.
    + apply NoDup_map_append, NoDup_filter. now rewrite Hentries.
    + intros p Hp Hq. apply filter_In in Hp. apply in_map_iff in Hq.
      destruct Hq as [e [<- He]]. apply filter_In in He.
      apply (fixed_not_vendor e); tauto.
  - apply Forall_forall. intros p Hp. apply spec_preservation_set_In in Hp.
    destruct Hp as [[_ Hp]|[e [Hin [_ ->]]]]; [exact Hp|].
    rewrite Hentries in Hin.
    apply (usr_lib_entry_exists root es e Hl); [|exact Hin].
    rewrite Forall_forall in Hval. auto.
Qed.

Lemma C3_preservation_set_exact_witness :
  wf_node donor_root = true /\
  preservation_set (env_with (failing [])) donor_root
  = Ok ["usr/lib/modules"; "usr/src"; "usr/lib/firmware"; "usr/lib/raspberrypi-sys-mods"] /\
  resolves_exactly (env_with (failing [])) donor_root.
Proof.
  split; [vm_compute; reflexivity|]. split; [vm_compute; reflexivity|].
  destruct (C3_preservation_set_exact (env_with (failing [])) donor_root) as [H _];
    [vm_compute; reflexivity|vm_compute; reflexivity|exact H].
Defined.

(** C3 as stated fails on a donor root without [usr/lib]: the tree holds
    [usr/src], so the set of section 4.3 is [usr/src], but the resolver
    raises instead of returning it. *)
Lemma C3_fails_without_usr_lib :
  wf_node src_only_root = true /\
  spec_preservation_set src_only_root = ["usr/src"] /\
  preservation_set (env_with (failing [])) src_only_root
  = Raise (fresh (FileNotFoundError "/tmp/mnt_root_b/usr/lib")) /\
  ~ resolves_exactly (env_with (failing [])) src_only_root.
Proof.
  split; [vm_compute; reflexivity|]. split; [vm_compute; reflexivity|].
  split; [vm_compute; reflexivity|].
  intros [H _]. vm_compute in H. discriminate H.
Qed.

(** ** Which operations touch which part of the world *)

Lemma log_fields (a : action) (x : world) :
  rootfs (log a x) = rootfs x /\ staging (log a x) = staging x /\
  azl_tree (log a x) = azl_tree x /\ loop_attached (log a x) = loop_attached x /\
  binds (log a x) = binds x.
Proof. repeat split. Qed.

Ltac effect_cases a :=
  destruct a; simpl; try contradiction; intros;
  repeat match goal with
         | |- context [match ?x with _ => _ end] => destruct x; simpl
         end; try reflexivity.

Lemma effect_rootfs_mounter (E : env) (a : action) (x : world) :
  mounter_action a -> rootfs (effect E a x) = rootfs x.
Proof. effect_cases a. Qed.

Lemma effect_rootfs_session (E : env) (a : action) (x : world) :
  session_action a -> rootfs (effect E a x) = rootfs x.
Proof. effect_cases a. Qed.

Lemma effect_staging_mounter (E : env) (a : action) (x : world) :
  mounter_action a -> staging (effect E a x) = staging x.
Proof. effect_cases a. Qed.

Lemma effect_staging_session (E : env) (a : action) (x : world) :
  session_action a -> staging (effect E a x) = staging x.
Proof. effect_cases a. Qed.

Lemma effect_staging_swap (E : env) (a : action) (x : world) :
  swap_action a -> staging (effect E a x) = staging x.
Proof. effect_cases a. Qed.

Lemma effect_azl_tree_block (E : env) (a : action) (x : world) :
  block_action a -> azl_tree (effect E a x) = azl_tree x.
Proof. effect_cases a. Qed.

Lemma effect_loop_attached (E : env) (a : action) (x : world) :
  a <> LosetupAttach -> a <> LosetupDetach ->
  loop_attached (effect E a x) = loop_attached x.
Proof.
  destruct a; simpl; intros; try congruence;
    repeat match goal with
           | |- context [match ?x with _ => _ end] => destruct x; simpl
           end; reflexivity.
Qed.

Lemma in_mounter (l : list action) (a : action) :
  In a l -> incl l (ATTACH_AND_CHECK ++ MOUNTS ++ Sleep :: RELEASE) -> mounter_action a.
Proof.
  intros Ha Hl. apply Hl in Ha. simpl in Ha.
  repeat (destruct Ha as [<-|Ha]; [exact I|]). destruct Ha.
Qed.

Lemma first_failed_app_some (E : env) (l1 l2 : list action) (c : action) :
  first_failed E l1 = Some c -> first_failed E (l1 ++ l2) = Some c.
Proof.
  unfold first_failed. induction l1 as [|a l IH]; simpl; [discriminate|].
  destruct (succeeds E a); simpl; auto.
Qed.

Lemma first_failed_cons_ok (E : env) (a : action) (l : list action) :
  status E a = 0%Z -> first_failed E (a :: l) = first_failed E l.
Proof.
  intros H. unfold first_failed. simpl.
  now rewrite (proj2 (succeeds_true E a) H).
Qed.

(** ** C1: release of the loop device *)

Lemma attach_block_loop (E : env) (w : world) :
  status E LosetupAttach = 0%Z ->
  loop_attached (snd (run_block E ATTACH_AND_CHECK w)) = true.
Proof.
  intros H. unfold ATTACH_AND_CHECK. cbn [run_block].
  rewrite (proj2 (succeeds_true E LosetupAttach) H).
  destruct (succeeds E (Fsck Boot)); [|reflexivity].
  destruct (succeeds E (Fsck Root)); [|reflexivity].
  destruct (succeeds E (Mkdtemp Boot)); [|reflexivity].
  destruct (succeeds E (Mkdtemp Root)); reflexivity.
Qed.

(** C1 (the code at the failing stage).  When a filesystem check or the
    creation of a mount point fails after the loop device was attached,
    [combine_images] returns with the exception of that operation, the loop
    device is still attached and no detach was ever issued: these stages lie
    between the attach and the [try] whose [finally] releases. *)
Theorem C1_failed_check_leaks_loop_device
    (E : env) (raspbian azurelinux : string) (w w1 : world) (c : action) :
  provisioning_session E raspbian azurelinux w = (Ok tt, w1) ->
  status E LosetupAttach = 0%Z ->
  first_failed E ATTACH_AND_CHECK = Some c ->
  exists w',
    combine_images E raspbian azurelinux w
    = (Raise (fresh (raises E raspbian azurelinux c)), w') /\
    loop_attached w' = true /\
    trace w' = (trace w1 ++ until_failure E ATTACH_AND_CHECK)%list /\
    ~ In LosetupDetach (until_failure E ATTACH_AND_CHECK).
Proof.
  intros Hs Ha Hc.
  rewrite (combine_after_session _ _ _ _ _ Hs), block_device_stage_block.
  pose proof (run_block_failed E ATTACH_AND_CHECK w1) as Hf.
  pose proof (run_block_trace E ATTACH_AND_CHECK w1) as Ht.
  pose proof (attach_block_loop E w1 Ha) as Hl.
  destruct (run_block E ATTACH_AND_CHECK w1) as [o w']. cbn [fst snd] in Hf, Ht, Hl.
  rewrite Hc in Hf. subst o. exists w'. repeat split; auto.
  intros Hin. apply until_failure_incl in Hin. simpl in Hin.
  repeat (destruct Hin as [Hin|Hin]; [discriminate|]). destruct Hin.
Qed.

Lemma C1_failed_check_leaks_loop_device_witness :
  exists w',
    combine_images (env_with (failing [(Fsck Boot, 4%Z)])) "raspios.img" "azurelinux_extracted"
      (start donor_root None)
    = (Raise (fresh (raises (env_with (failing [(Fsck Boot, 4%Z)]))
                       "raspios.img" "azurelinux_extracted" (Fsck Boot))), w') /\
    loop_attached w' = true /\
    raises (env_with (failing [(Fsck Boot, 4%Z)])) "raspios.img" "azurelinux_extracted"
      (Fsck Boot)
    = CalledProcessError ["sudo"; "dosfsck"; "-a"; "/dev/loop0p1"] 4.
Proof.
  destruct (C1_failed_check_leaks_loop_device
              (env_with (failing [(Fsck Boot, 4%Z)])) "raspios.img" "azurelinux_extracted"
              (start donor_root None)
              (snd (provisioning_session (env_with (failing [(Fsck Boot, 4%Z)]))
                      "raspios.img" "azurelinux_extracted" (start donor_root None)))
              (Fsck Boot))
    as [w' [H1 [H2 _]]];
    [vm_compute; reflexivity|vm_compute; reflexivity|vm_compute; reflexivity|].
  exists w'. split; [exact H1|]. split; [exact H2|vm_compute; reflexivity].
Defined.

(** ** C4: the integrity check *)

(** C4 (the code at the failing input).  A filesystem check that exits
    with status 1 - the status by which both checkers report that they
    found errors and corrected them - makes [check=True] raise: the
    pipeline aborts with that [CalledProcessError] and no mount is ever
    attempted. *)
Theorem C4_repaired_check_aborts
    (E : env) (raspbian azurelinux : string) (w w1 : world) (p : part) :
  provisioning_session E raspbian azurelinux w = (Ok tt, w1) ->
  status E LosetupAttach = 0%Z ->
  first_failed E [Fsck Boot; Fsck Root] = Some (Fsck p) ->
  status E (Fsck p) = FSCK_ERRORS_CORRECTED ->
  exists w' l,
    combine_images E raspbian azurelinux w
    = (Raise (fresh (CalledProcessError (argv E raspbian azurelinux (Fsck p))
                       FSCK_ERRORS_CORRECTED)), w') /\
    trace w' = (trace w1 ++ l)%list /\
    (forall q, ~ In (Mount q) l) /\
    mounted w' = mounted w1.
Proof.
  intros Hs Ha Hc Hrc.
  assert (Hff : first_failed E ATTACH_AND_CHECK = Some (Fsck p)).
  { unfold ATTACH_AND_CHECK. rewrite (first_failed_cons_ok E _ _ Ha).
    apply (first_failed_app_some E [Fsck Boot; Fsck Root]
             [Mkdtemp Boot; Mkdtemp Root] _ Hc). }
  rewrite (combine_after_session _ _ _ _ _ Hs), block_device_stage_block.
  pose proof (run_block_failed E ATTACH_AND_CHECK w1) as Hf.
  pose proof (run_block_trace E ATTACH_AND_CHECK w1) as Ht.
  assert (Hm : mounted (snd (run_block E ATTACH_AND_CHECK w1)) = mounted w1).
  { apply (run_block_frame E mounted); [|reflexivity].
    intros a x Hin. simpl in Hin.
    repeat (destruct Hin as [<-|Hin]; [reflexivity|]). destruct Hin. }
  destruct (run_block E ATTACH_AND_CHECK w1) as [o w']. cbn [fst snd] in Hf, Ht, Hm.
  rewrite Hff in Hf. subst o.
  exists w', (until_failure E ATTACH_AND_CHECK). unfold raises. rewrite Hrc.
  repeat split; auto.
  intros q Hin. apply until_failure_incl in Hin. simpl in Hin.
  repeat (destruct Hin as [Hin|Hin]; [discriminate|]). destruct Hin.
Qed.

Lemma C4_repaired_check_aborts_witness :
  exists w',
    combine_images (env_with (failing [(Fsck Root, 1%Z)])) "raspios.img" "azurelinux_extracted"
      (start donor_root None)
    = (Raise (fresh (CalledProcessError
                       (argv (env_with (failing [(Fsck Root, 1%Z)]))
                          "raspios.img" "azurelinux_extracted" (Fsck Root))
                       FSCK_ERRORS_CORRECTED)), w') /\
    argv (env_with (failing [(Fsck Root, 1%Z)])) "raspios.img" "azurelinux_extracted"
      (Fsck Root)
    = ["sudo"; "fsck.ext4"; "-y"; "/dev/loop0p2"].
Proof.
  destruct (C4_repaired_check_aborts
              (env_with (failing [(Fsck Root, 1%Z)])) "raspios.img" "azurelinux_extracted"
              (start donor_root None)
              (snd (provisioning_session (env_with (failing [(Fsck Root, 1%Z)]))
                      "raspios.img" "azurelinux_extracted" (start donor_root None)))
              Root)
    as [w' [l [H1 _]]];
    [vm_compute; reflexivity|vm_compute; reflexivity|vm_compute; reflexivity
    |vm_compute; reflexivity|].
  exists w'. split; [exact H1|vm_compute; reflexivity].
Defined.

(** ** Exceptions through [try ... finally] *)

Lemma last_cons {A : Type} (l : list A) : forall x d, last (x :: l) d = last l x.
Proof.
  induction l as [|y l IH]; intros x d; [reflexivity|].
  change (last (x :: y :: l) d) with (last (y :: l) d).
  now rewrite !IH.
Qed.

Lemma last_app_cons {A : Type} (l1 l2 : list A) (x d : A) :
  last (l1 ++ x :: l2) d = last l2 x.
Proof.
  revert d. induction l1 as [|y l1 IH]; intros d; simpl app.
  - apply last_cons.
  - rewrite last_cons. apply IH.
Qed.

Lemma root_cause_with_context (e' e : exn) :
  root_cause (with_context e' e) = root_cause e.
Proof. unfold root_cause, with_context. simpl. apply last_app_cons. Qed.

Lemma root_cause_fresh (k : exn_kind) : root_cause (fresh k) = k.
Proof. reflexivity. Qed.

(** A [try] whose body raises: the finaliser runs, and the whole raises an
    exception whose root cause is the one of the body. *)
Lemma try_finally_raises {A : Type} (body : M A) (fin : M unit) (w w1 : world) (e : exn) :
  body w = (Raise e, w1) ->
  exists e' rf w2,
    fin w1 = (rf, w2) /\
    try_finally body fin w = (Raise e', w2) /\
    root_cause e' = root_cause e /\
    (rf = Ok tt -> e' = e).
Proof.
  intros Hb. unfold try_finally. rewrite Hb.
  destruct (fin w1) as [[[]|e'] w2].
  - exists e, (Ok tt), w2. auto.
  - exists (with_context e' e), (Raise e'), w2.
    repeat split; [apply root_cause_with_context|discriminate].
Qed.

Lemma try_finally_raises_with {A : Type} (body : M A) (fin : M unit)
    (w w1 : world) (e : exn) (rf : result unit) (w2 : world) :
  body w = (Raise e, w1) -> fin w1 = (rf, w2) ->
  try_finally body fin w
  = (Raise (match rf with
            | Ok _ => e
            | Raise e' => with_context e' e
            end), w2).
Proof.
  intros Hb Hf. unfold try_finally. rewrite Hb, Hf. destruct rf as [[]|e']; reflexivity.
Qed.

Lemma try_finally_world {A : Type} (body : M A) (fin : M unit)
    (w : world) (r : result A) (w' : world) :
  try_finally body fin w = (r, w') ->
  exists rb wb rf, body w = (rb, wb) /\ fin wb = (rf, w').
Proof.
  unfold try_finally. destruct (body w) as [rb wb].
  destruct (fin wb) as [rf wf] eqn:Hf. intros Hrun.
  exists rb, wb, rf. split; [reflexivity|].
  destruct rb, rf as [[]|]; now injection Hrun as _ <-.
Qed.

(** ** The block device stage, piece by piece *)

Section Stage.

Variable E : env.
Variables raspbian azurelinux : string.

Lemma release_spec (w1 : world) :
  exists rf w2,
    release E raspbian azurelinux w1 = (rf, w2) /\
    rootfs w2 = rootfs w1 /\ staging w2 = staging w1 /\ azl_tree w2 = azl_tree w1 /\
    trace w2 = (trace w1 ++ Sleep :: until_failure E RELEASE)%list.
Proof.
  rewrite release_block.
  pose proof (run_block_trace E RELEASE (log Sleep w1)) as Ht.
  pose proof (run_block_frame E rootfs RELEASE) as Hr.
  pose proof (run_block_frame E staging RELEASE) as Hs.
  pose proof (run_block_frame E azl_tree RELEASE) as Hz.
  specialize (Hr ltac:(intros a x Ha; apply effect_rootfs_mounter;
                       simpl in Ha; intuition (subst; exact I))
                ltac:(reflexivity) (log Sleep w1)).
  specialize (Hs ltac:(intros a x Ha; apply effect_staging_mounter;
                       simpl in Ha; intuition (subst; exact I))
                ltac:(reflexivity) (log Sleep w1)).
  specialize (Hz ltac:(intros a x Ha; apply effect_azl_tree_block;
                       simpl in Ha; intuition (subst; exact I))
                ltac:(reflexivity) (log Sleep w1)).
  destruct (run_block E RELEASE (log Sleep w1)) as [o w2].
  cbn [fst snd] in Ht, Hr, Hs, Hz.
  exists (fst (block_result E raspbian azurelinux (o, w2))), w2.
  split; [destruct o; reflexivity|].
  repeat split; auto.
  rewrite Ht. simpl trace. now rewrite <- app_assoc.
Qed.

Lemma release_ok (w1 : world) :
  first_failed E RELEASE = None ->
  fst (release E raspbian azurelinux w1) = Ok tt.
Proof.
  intros H. rewrite release_block.
  pose proof (run_block_failed E RELEASE (log Sleep w1)) as Hf.
  destruct (run_block E RELEASE (log Sleep w1)) as [o w2]. cbn [fst] in Hf.
  rewrite H in Hf. now subst o.
Qed.

(** What the release raises: the failure of its first failing command. *)
Lemma release_result (w1 : world) :
  fst (release E raspbian azurelinux w1)
  = match first_failed E RELEASE with
    | None => Ok tt
    | Some c => Raise (fresh (raises E raspbian azurelinux c))
    end.
Proof.
  rewrite release_block.
  pose proof (run_block_failed E RELEASE (log Sleep w1)) as Hf.
  destruct (run_block E RELEASE (log Sleep w1)) as [o w2]. cbn [fst] in Hf.
  subst o. destruct (first_failed E RELEASE); reflexivity.
Qed.

Lemma attach_spec (w : world) :
  exists o w1,
    run_block E ATTACH_AND_CHECK w = (o, w1) /\ o = first_failed E ATTACH_AND_CHECK /\
    rootfs w1 = rootfs w /\ staging w1 = staging w /\ azl_tree w1 = azl_tree w /\
    trace w1 = (trace w ++ until_failure E ATTACH_AND_CHECK)%list.
Proof.
  pose proof (run_block_failed E ATTACH_AND_CHECK w) as Hf.
  pose proof (run_block_trace E ATTACH_AND_CHECK w) as Ht.
  pose proof (run_block_frame E rootfs ATTACH_AND_CHECK) as Hr.
  pose proof (run_block_frame E staging ATTACH_AND_CHECK) as Hs.
  pose proof (run_block_frame E azl_tree ATTACH_AND_CHECK) as Hz.
  specialize (Hr ltac:(intros a x Ha; apply effect_rootfs_mounter;
                       simpl in Ha; intuition (subst; exact I))
                ltac:(reflexivity) w).
  specialize (Hs ltac:(intros a x Ha; apply effect_staging_mounter;
                       simpl in Ha; intuition (subst; exact I))
                ltac:(reflexivity) w).
  specialize (Hz ltac:(intros a x Ha; apply effect_azl_tree_block;
                       simpl in Ha; intuition (subst; exact I))
                ltac:(reflexivity) w).
  destruct (run_block E ATTACH_AND_CHECK w) as [o w1].
  cbn [fst snd] in Hf, Ht, Hr, Hs, Hz.
  exists o, w1. repeat split; auto.
Qed.

Lemma mounts_spec (w : world) :
  exists o w1,
    run_block E MOUNTS w = (o, w1) /\ o = first_failed E MOUNTS /\
    rootfs w1 = rootfs w /\ staging w1 = staging w /\ azl_tree w1 = azl_tree w /\
    trace w1 = (trace w ++ until_failure E MOUNTS)%list.
Proof.
  pose proof (run_block_failed E MOUNTS w) as Hf.
  pose proof (run_block_trace E MOUNTS w) as Ht.
  pose proof (run_block_frame E rootfs MOUNTS) as Hr.
  pose proof (run_block_frame E staging MOUNTS) as Hs.
  pose proof (run_block_frame E azl_tree MOUNTS) as Hz.
  specialize (Hr ltac:(intros a x Ha; apply effect_rootfs_mounter;
                       simpl in Ha; intuition (subst; exact I))
                ltac:(reflexivity) w).
  specialize (Hs ltac:(intros a x Ha; apply effect_staging_mounter;
                       simpl in Ha; intuition (subst; exact I))
                ltac:(reflexivity) w).
  specialize (Hz ltac:(intros a x Ha; apply effect_azl_tree_block;
                       simpl in Ha; intuition (subst; exact I))
                ltac:(reflexivity) w).
  destruct (run_block E MOUNTS w) as [o w1].
  cbn [fst snd] in Hf, Ht, Hr, Hs, Hz.
  exists o, w1. repeat split; auto.
Qed.

(** The provisioning session leaves the donor image and the staging path
    alone, and logs session operations only. *)
Lemma session_frame (w : world) (r : result unit) (w1 : world) :
  provisioning_session E raspbian azurelinux w = (r, w1) ->
  rootfs w1 = rootfs w /\ staging w1 = staging w /\
  exists ls, trace w1 = (trace w ++ ls)%list /\ Forall session_action ls.
Proof.
  intros H. repeat split.
  - apply (uses_frame E session_action true
             (provisioning_session E raspbian azurelinux) rootfs w r w1); auto.
    + intros a x Ha. now apply effect_rootfs_session.
    + apply uses_provisioning_session.
  - apply (uses_frame E session_action true
             (provisioning_session E raspbian azurelinux) staging w r w1); auto.
    + intros a x Ha. now apply effect_staging_session.
    + apply uses_provisioning_session.
  - apply (uses_trace E session_action true
             (provisioning_session E raspbian azurelinux) w r w1); auto.
    apply uses_provisioning_session.
Qed.

(** The second [try] when the listing of [usr/lib] raises. *)
Lemma body_when_resolve_raises (w : world) (e0 : exn) :
  preservation_set E (rootfs w) = Raise e0 ->
  exists e w3,
    mount_and_replace E raspbian azurelinux w = (Raise e, w3) /\
    rootfs w3 = rootfs w /\
    trace w3 = (trace w ++ until_failure E MOUNTS)%list /\
    (first_failed E MOUNTS = None -> e = e0).
Proof.
  intros Hp. rewrite mount_and_replace_block.
  destruct (mounts_spec w) as [o [w1 [Hrb [Ho [Hr [_ [_ Ht]]]]]]].
  rewrite Hrb. destruct o as [c|].
  - eexists _, w1. repeat split; eauto. rewrite <- Ho. discriminate.
  - exists e0, w1. unfold replace_steps, bind, resolve_preservation_set.
    rewrite Hr, Hp. auto.
Qed.

End Stage.

(** ** C9: a donor root without usr/lib *)

(** C9.  When the mounted donor root has no [usr/lib] directory, the
    resolver does not return a set (not even the empty one): listing
    [usr/lib] raises [FileNotFoundError] (or [NotADirectoryError] when
    [usr/lib] is a file).  Every run of the pipeline on such an image ends
    in an exception, without any archive, wipe, copy or restore operation
    and with the donor root untouched; a run that gets as far as the
    resolver ends with the listing error as root cause.  Conversely, whenever
    the resolver returns a set, [usr/lib] is a directory of the root. *)
Theorem C9_missing_usr_lib_aborts
    (E : env) (raspbian azurelinux : string) (w : world) :
  path_isdir (rootfs w) "usr/lib" = false ->
  (exists k,
     preservation_set E (rootfs w) = Raise (fresh k) /\
     (k = FileNotFoundError (join (mount_point E Root) "usr/lib") \/
      k = NotADirectoryError (join (mount_point E Root) "usr/lib")) /\
     (forall w1,
        provisioning_session E raspbian azurelinux w = (Ok tt, w1) ->
        first_failed E (ATTACH_AND_CHECK ++ MOUNTS) = None ->
        exists e w',
          combine_images E raspbian azurelinux w = (Raise e, w') /\
          root_cause e = k)) /\
  (forall res w',
     combine_images E raspbian azurelinux w = (res, w') ->
     (exists e, res = Raise e) /\
     rootfs w' = rootfs w /\
     exists l, trace w' = (trace w ++ l)%list /\
               Forall (fun a => session_action a \/ mounter_action a) l) /\
  (forall root ds,
     preservation_set E root = Ok ds -> path_isdir root "usr/lib" = true).
Proof.
  intros Hdir.
  destruct (preservation_set_no_dir E (rootfs w) Hdir) as [k [Hk Hkind]].
  split; [|split].
  - exists k. repeat split; auto.
    intros w1 Hs Hff.
    apply first_failed_app_none in Hff. destruct Hff as [Hfa Hfm].
    destruct (session_frame E raspbian azurelinux w _ _ Hs) as [Hr1 _].
    rewrite (combine_after_session _ _ _ _ _ Hs), block_device_stage_block.
    destruct (attach_spec E w1) as [o [w2 [Hrb [Ho [Hr2 _]]]]].
    rewrite Hrb, Ho, Hfa.
    destruct (body_when_resolve_raises E raspbian azurelinux w2 (fresh k))
      as [e [w3 [Hb [_ [_ He]]]]]; [now rewrite Hr2, Hr1|].
    destruct (try_finally_raises _ (release E raspbian azurelinux) _ _ _ Hb)
      as [e' [rf [w4 [_ [Ht [Hrc _]]]]]].
    exists e', w4. split; [exact Ht|]. rewrite Hrc, (He Hfm). reflexivity.
  - intros res w' Hrun. unfold combine_images, bind in Hrun.
    destruct (provisioning_session E raspbian azurelinux w) as [[[]|e] w1] eqn:Hs;
      destruct (session_frame E raspbian azurelinux w _ _ Hs)
        as [Hr1 [_ [ls [Hts Hls]]]].
    + rewrite block_device_stage_block in Hrun.
      destruct (attach_spec E w1) as [o [w2 [Hrb [Ho [Hr2 [_ [_ Ht2]]]]]]].
      rewrite Hrb in Hrun.
      assert (Hpre : Forall (fun a => session_action a \/ mounter_action a)
                       (ls ++ until_failure E ATTACH_AND_CHECK)).
      { apply Forall_app. split.
        - eapply Forall_impl; [|exact Hls]. intros a Ha. now left.
        - apply Forall_forall. intros a Ha. right.
          apply until_failure_incl in Ha. simpl in Ha.
          repeat (destruct Ha as [<-|Ha]; [exact I|]). destruct Ha. }
      destruct o as [c|].
      * injection Hrun as <- <-. split; [eauto|]. split; [congruence|].
        exists (ls ++ until_failure E ATTACH_AND_CHECK)%list.
        split; [|exact Hpre]. now rewrite Ht2, Hts, app_assoc.
      * destruct (body_when_resolve_raises E raspbian azurelinux w2 (fresh k))
          as [e [w3 [Hb [Hr3 [Ht3 _]]]]]; [now rewrite Hr2, Hr1|].
        destruct (try_finally_raises _ (release E raspbian azurelinux) _ _ _ Hb)
          as [e' [rf [w4 [Hrel [Ht [_ _]]]]]].
        rewrite Ht in Hrun. injection Hrun as <- <-.
        destruct (release_spec E raspbian azurelinux w3)
          as [rf' [w4' [Hrel' [Hr4 [_ [_ Ht4]]]]]].
        rewrite Hrel in Hrel'. injection Hrel' as -> ->.
        split; [eauto|]. split; [congruence|].
        exists ((ls ++ until_failure E ATTACH_AND_CHECK)
                ++ until_failure E MOUNTS ++ Sleep :: until_failure E RELEASE)%list.
        split; [rewrite Ht4, Ht3, Ht2, Hts; now rewrite !app_assoc|].
        apply Forall_app. split; [exact Hpre|].
        apply Forall_forall. intros a Ha. right.
        apply in_app_or in Ha. destruct Ha as [Ha|[<-|Ha]]; [| exact I |];
          apply until_failure_incl in Ha; simpl in Ha;
          repeat (destruct Ha as [<-|Ha]; [exact I|]); destruct Ha.
    + injection Hrun as <- <-. split; [eauto|]. split; [exact Hr1|].
      exists ls. split; [exact Hts|].
      eapply Forall_impl; [|exact Hls]. intros a Ha. now left.
  - intros root ds Hok. destruct (path_isdir root "usr/lib") eqn:Hd; [reflexivity|].
    destruct (preservation_set_no_dir E root Hd) as [k' [Hk' _]]. congruence.
Qed.

Lemma C9_missing_usr_lib_aborts_witness :
  path_isdir (rootfs (start src_only_root None)) "usr/lib" = false /\
  fst (combine_images (env_with (failing [])) "raspios.img" "azurelinux_extracted"
         (start src_only_root None))
  = Raise (fresh (FileNotFoundError "/tmp/mnt_root_b/usr/lib")) /\
  rootfs (snd (combine_images (env_with (failing [])) "raspios.img" "azurelinux_extracted"
                 (start src_only_root None)))
  = rootfs (start src_only_root None).
Proof.
  split; [vm_compute; reflexivity|].
  destruct (C9_missing_usr_lib_aborts (env_with (failing []))
              "raspios.img" "azurelinux_extracted" (start src_only_root None))
    as [_ [H _]]; [vm_compute; reflexivity|].
  split; [vm_compute; reflexivity|].
  exact (proj1 (proj2
    (H (fst (combine_images (env_with (failing [])) "raspios.img" "azurelinux_extracted"
              (start src_only_root None)))
       (snd (combine_images (env_with (failing [])) "raspios.img" "azurelinux_extracted"
              (start src_only_root None)))
       ltac:(vm_compute; reflexivity)))).
Defined.

(** ** C7: a failed archive step *)

Ltac not_in_block Hi :=
  apply until_failure_incl in Hi; simpl in Hi;
  repeat (destruct Hi as [Hi|Hi]; [discriminate|]); destruct Hi.

Lemma archive_block (E : env) (raspbian azurelinux : string)
    (d : string) (ds : list string) (w : world) :
  archive E raspbian azurelinux (d :: ds) w
  = block_result E raspbian azurelinux
      (run_block E [TarCreate (d :: ds); MvArchive] w).
Proof.
  unfold archive, run, bind, block_result. simpl. unfold succeeds.
  destruct (Z.eqb (status E (TarCreate (d :: ds))) 0); [|reflexivity].
  destruct (Z.eqb (status E MvArchive) 0); reflexivity.
Qed.

Lemma assoc_set_entry_other {A : Type} (k name : string) (v : A) (l : list (string * A)) :
  name <> k -> assoc name (set_entry k v l) = assoc name l.
Proof.
  intros Hne. induction l as [|[k' x] l IH]; simpl.
  - destruct (String.eqb_spec k name); [congruence|reflexivity].
  - destruct (String.eqb_spec k' k) as [->|Hk]; simpl.
    + destruct (String.eqb_spec k name); [congruence|reflexivity].
    + destruct (String.eqb_spec k' name); [reflexivity|exact IH].
Qed.

Lemma assoc_set_entry_some {A : Type} (k name : string) (v : A) (l : list (string * A)) :
  is_some (assoc name l) = true -> is_some (assoc name (set_entry k v l)) = true.
Proof.
  induction l as [|[k' x] l IH]; simpl; [discriminate|].
  destruct (String.eqb_spec k' k) as [->|Hk]; simpl.
  - destruct (String.eqb_spec k name); auto.
  - destruct (String.eqb_spec k' name); auto.
Qed.

(** Creating the archive in the root deletes nothing there. *)
Lemma tar_keeps_entries (members : list string) (root : node) :
  (forall name n, child name root = Some n -> name <> BACKUP_TAR_NAME ->
     child name (set_child BACKUP_TAR_NAME (Tar (collect members root)) root) = Some n) /\
  (forall name, is_some (child name root) = true ->
     is_some (child name (set_child BACKUP_TAR_NAME (Tar (collect members root)) root))
     = true).
Proof.
  destruct root as [d|ms|es]; simpl; split; try discriminate; auto.
  - intros name n Hc Hne. rewrite assoc_set_entry_other; auto.
  - intros name. apply assoc_set_entry_some.
Qed.

(** C7 (as amended).  In every run that reaches the archive step with a
    non-empty preservation set and in which the archive step fails (creating
    the archive, or moving it out of the root mount), the wipe does not run:
    no [rm] on an entry of the mounted root is ever issued and every
    top-level entry of the mounted root is still there (with its content,
    the archive file itself apart).  The pipeline ends in an exception.
    When every release command succeeds, that exception is the failure of
    the archive command - a failure of the replacement stage
    ([ReplacementFailed] in the design document).  When a release command
    fails, the exception raised is the failure of that release command (of
    the release stage), and the failure of the archive command is kept only
    as its context: it is the root cause in both cases, but not always the
    error the caller gets. *)
Theorem C7_failed_archive_skips_wipe
    (E : env) (raspbian azurelinux : string) (w w1 : world)
    (dirs : list string) (c : action) :
  provisioning_session E raspbian azurelinux w = (Ok tt, w1) ->
  first_failed E (ATTACH_AND_CHECK ++ MOUNTS) = None ->
  preservation_set E (rootfs w) = Ok dirs ->
  dirs <> [] ->
  first_failed E [TarCreate dirs; MvArchive] = Some c ->
  exists e w' l,
    combine_images E raspbian azurelinux w = (Raise e, w') /\
    root_cause e = CalledProcessError (argv E raspbian azurelinux c) (status E c) /\
    match first_failed E RELEASE with
    | None =>
        e = fresh (CalledProcessError (argv E raspbian azurelinux c) (status E c)) /\
        reports E raspbian azurelinux e ReplacementFailed
    | Some c' =>
        e = mk_exn (raises E raspbian azurelinux c')
              [CalledProcessError (argv E raspbian azurelinux c) (status E c)] /\
        In c' RELEASE /\ status E c' <> 0%Z /\
        reports E raspbian azurelinux e ReleaseFailed
    end /\
    status E c <> 0%Z /\
    stage_error c = ReplacementFailed /\
    trace w' = (trace w1 ++ l)%list /\
    (forall entry, ~ In (RmRf entry) l /\ ~ In (RmF entry) l) /\
    (forall name n, child name (rootfs w) = Some n -> name <> BACKUP_TAR_NAME ->
       child name (rootfs w') = Some n) /\
    (forall name, is_some (child name (rootfs w)) = true ->
       is_some (child name (rootfs w')) = true).
Proof.
  intros Hs Hff Hp Hne Hc.
  apply first_failed_app_none in Hff. destruct Hff as [Hfa Hfm].
  destruct (session_frame E raspbian azurelinux w _ _ Hs) as [Hr1 _].
  rewrite (combine_after_session _ _ _ _ _ Hs), block_device_stage_block.
  destruct (attach_spec E w1) as [o [w2 [Hrb [Ho [Hr2 [_ [_ Ht2]]]]]]].
  rewrite Hrb, Ho, Hfa.
  destruct (mounts_spec E w2) as [o3 [w3 [Hrb3 [Ho3 [Hr3 [_ [_ Ht3]]]]]]].
  rewrite Hfm in Ho3. subst o3.
  destruct dirs as [|d ds]; [congruence|].
  pose proof (run_block_failed E [TarCreate (d :: ds); MvArchive] w3) as Hf4.
  pose proof (run_block_trace E [TarCreate (d :: ds); MvArchive] w3) as Ht4.
  assert (Hr4 : (forall name n, child name (rootfs w3) = Some n ->
                   name <> BACKUP_TAR_NAME ->
                   child name (rootfs (snd (run_block E [TarCreate (d :: ds); MvArchive] w3)))
                   = Some n) /\
                (forall name, is_some (child name (rootfs w3)) = true ->
                   is_some (child name
                     (rootfs (snd (run_block E [TarCreate (d :: ds); MvArchive] w3))))
                   = true)).
  { cbn [run_block]. apply first_failed_fails in Hc. destruct Hc as [Hin Hst].
    destruct (succeeds E (TarCreate (d :: ds))) eqn:Htar; [|cbn [snd]; auto].
    destruct (succeeds E MvArchive) eqn:Hmv.
    - apply succeeds_true in Htar, Hmv.
      destruct Hin as [<-|[<-|[]]]; contradiction.
    - exact (tar_keeps_entries (d :: ds) (rootfs w3)). }
  destruct (run_block E [TarCreate (d :: ds); MvArchive] w3) as [o4 w4] eqn:Hrb4.
  cbn [fst snd] in Hf4, Ht4, Hr4. rewrite Hc in Hf4. subst o4.
  assert (Hb : mount_and_replace E raspbian azurelinux w2
               = (Raise (fresh (raises E raspbian azurelinux c)), w4)).
  { rewrite mount_and_replace_block, Hrb3.
    unfold replace_steps, bind at 1, resolve_preservation_set.
    rewrite Hr3, Hr2, Hr1, Hp. unfold bind at 1.
    rewrite archive_block, Hrb4. reflexivity. }
  destruct (try_finally_raises _ (release E raspbian azurelinux) _ _ _ Hb)
    as [e' [rf [w5 [Hrel [Ht [Hrc Hsame]]]]]].
  destruct (release_spec E raspbian azurelinux w4)
    as [rf' [w5' [Hrel' [Hr5 [_ [_ Ht5]]]]]].
  rewrite Hrel in Hrel'. injection Hrel' as <- <-.
  pose proof (first_failed_fails E _ _ Hc) as [Hin Hst].
  assert (Hraise : raises E raspbian azurelinux c
                   = CalledProcessError (argv E raspbian azurelinux c) (status E c))
    by (destruct Hin as [<-|[<-|[]]]; reflexivity).
  exists e', w5,
    (until_failure E ATTACH_AND_CHECK ++ until_failure E MOUNTS
     ++ until_failure E [TarCreate (d :: ds); MvArchive]
     ++ Sleep :: until_failure E RELEASE)%list.
  split; [exact Ht|]. split; [now rewrite Hrc, root_cause_fresh|].
  split.
  { pose proof (try_finally_raises_with _ _ _ _ _ _ _ Hb Hrel) as Hexact.
    rewrite Hexact in Ht. injection Ht as <-.
    pose proof (release_result E raspbian azurelinux w4) as Hres.
    rewrite Hrel in Hres. cbn [fst] in Hres. subst rf.
    assert (Hstage : stage_error c = ReplacementFailed)
      by (destruct Hin as [<-|[<-|[]]]; reflexivity).
    destruct (first_failed E RELEASE) as [c'|] eqn:Hc'.
    - pose proof (first_failed_fails E _ _ Hc') as [Hin' Hst'].
      split; [now rewrite Hraise|]. split; [exact Hin'|]. split; [exact Hst'|].
      exists c'. split; [|split; [exact Hst'|reflexivity]].
      destruct Hin' as [<-|[<-|[<-|[<-|[<-|[]]]]]]; reflexivity.
    - split; [now rewrite Hraise|].
      exists c. split; [exact Hstage|]. split; [exact Hst|reflexivity]. }
  split; [exact Hst|].
  split; [destruct Hin as [<-|[<-|[]]]; reflexivity|].
  split; [rewrite Ht5, Ht4, Ht3, Ht2; now rewrite <- !app_assoc|].
  split.
  - intros entry. split; intros Hi.
    all: apply in_app_or in Hi; destruct Hi as [Hi|Hi]; [not_in_block Hi|].
    all: apply in_app_or in Hi; destruct Hi as [Hi|Hi]; [not_in_block Hi|].
    all: apply in_app_or in Hi; destruct Hi as [Hi|Hi]; [not_in_block Hi|].
    all: destruct Hi as [Hi|Hi]; [discriminate|not_in_block Hi].
  - rewrite Hr5. rewrite <- Hr1, <- Hr2, <- Hr3. exact Hr4.
Qed.

Lemma C7_failed_archive_skips_wipe_witness :
  exists e w',
    combine_images (env_with (failing [(MvArchive, 1%Z)])) "raspios.img" "azurelinux_extracted"
      (start donor_root None) = (Raise e, w') /\
    root_cause e
    = CalledProcessError
        (argv (env_with (failing [(MvArchive, 1%Z)])) "raspios.img" "azurelinux_extracted"
           MvArchive)
        (status (env_with (failing [(MvArchive, 1%Z)])) MvArchive) /\
    is_some (child "etc" (rootfs w')) = true /\
    is_some (child "usr" (rootfs w')) = true /\
    argv (env_with (failing [(MvArchive, 1%Z)])) "raspios.img" "azurelinux_extracted"
      MvArchive
    = ["sudo"; "mv"; "/tmp/mnt_root_b/raspbian_preserve.tar"; "/tmp/raspbian_preserve.tar"].
Proof.
  destruct (C7_failed_archive_skips_wipe
              (env_with (failing [(MvArchive, 1%Z)])) "raspios.img" "azurelinux_extracted"
              (start donor_root None)
              (snd (provisioning_session (env_with (failing [(MvArchive, 1%Z)]))
                      "raspios.img" "azurelinux_extracted" (start donor_root None)))
              ["usr/lib/modules"; "usr/src"; "usr/lib/firmware";
               "usr/lib/raspberrypi-sys-mods"]
              MvArchive)
    as [e [w' [l [H1 [H2 [_ [_ [_ [_ [_ [_ H3]]]]]]]]]]];
    [vm_compute; reflexivity|vm_compute; reflexivity|vm_compute; reflexivity
    |discriminate|vm_compute; reflexivity|].
  exists e, w'. split; [exact H1|]. split; [exact H2|].
  split; [apply H3; vm_compute; reflexivity|].
  split; [apply H3; vm_compute; reflexivity|vm_compute; reflexivity].
Defined.

(** C7 as stated fails for the error: when moving the archive fails and the
    unmount of boot then fails too, the exception the caller gets is the
    failure of [umount], a command of the release; the failure of [mv] is
    only its context.  (The wipe is skipped in this run as well.) *)
Lemma C7_release_failure_replaces_archive_failure :
  combine_images (env_with (failing [(MvArchive, 1%Z); (Umount Boot, 32%Z)]))
    "raspios.img" "azurelinux_extracted" (start donor_root None)
  = (Raise (mk_exn
              (CalledProcessError ["sudo"; "umount"; "/tmp/mnt_boot_a"] 32)
              [CalledProcessError
                 ["sudo"; "mv"; "/tmp/mnt_root_b/raspbian_preserve.tar";
                  "/tmp/raspbian_preserve.tar"] 1]),
     snd (combine_images (env_with (failing [(MvArchive, 1%Z); (Umount Boot, 32%Z)]))
            "raspios.img" "azurelinux_extracted" (start donor_root None))) /\
  ~ archive_failure_reported
      (env_with (failing [(MvArchive, 1%Z); (Umount Boot, 32%Z)]))
      "raspios.img" "azurelinux_extracted" (start donor_root None).
Proof.
  split; [vm_compute; reflexivity|].
  intros H.
  destruct (H MvArchive
              (Raise (mk_exn
                        (CalledProcessError ["sudo"; "umount"; "/tmp/mnt_boot_a"] 32)
                        [CalledProcessError
                           ["sudo"; "mv"; "/tmp/mnt_root_b/raspbian_preserve.tar";
                            "/tmp/raspbian_preserve.tar"] 1]))
              (snd (combine_images
                      (env_with (failing [(MvArchive, 1%Z); (Umount Boot, 32%Z)]))
                      "raspios.img" "azurelinux_extracted" (start donor_root None)))
              ltac:(vm_compute; reflexivity) (or_introl eq_refl))
    as [e [He [a [Hstage [_ Hr]]]]].
  - vm_compute. repeat (first [left; reflexivity | right]).
  - vm_compute. discriminate.
  - injection He as <-. cbn [raised] in Hr.
    destruct a; try discriminate Hstage; cbv in Hr; discriminate Hr.
Qed.

(** ** C6: an empty preservation set *)

Section EmptySet.

Variable E : env.
Variables raspbian azurelinux : string.

Lemma restore_noop (w : world) :
  staging w = None -> restore E raspbian azurelinux w = (Ok tt, w).
Proof. intros H. unfold restore, bind, gets. now rewrite H. Qed.

Lemma uses_swap :
  uses E swap_action false
    (wipe E raspbian azurelinux ;; copy_tree E raspbian azurelinux).
Proof. apply uses_bind; [apply uses_wipe|intros _; apply uses_copy_tree]. Qed.

(** With nothing staged, wipe, copy and restore amount to wipe and copy. *)
Lemma swap_then_restore (w : world) :
  staging w = None ->
  (wipe E raspbian azurelinux ;; copy_tree E raspbian azurelinux ;;
   restore E raspbian azurelinux) w
  = (wipe E raspbian azurelinux ;; copy_tree E raspbian azurelinux) w.
Proof.
  intros Hst. unfold bind at 1 3.
  destruct (wipe E raspbian azurelinux w) as [[[]|e] wa] eqn:Hw; [|reflexivity].
  unfold bind.
  destruct (copy_tree E raspbian azurelinux wa) as [[[]|e] wb] eqn:Hc; [|reflexivity].
  apply restore_noop.
  assert (Ha : staging wa = staging w).
  { exact (uses_frame E swap_action false (wipe E raspbian azurelinux)
             staging w (Ok tt) wa (effect_staging_swap E) (fun _ _ => eq_refl)
             ltac:(discriminate) (uses_wipe E raspbian azurelinux) Hw). }
  assert (Hb : staging wb = staging wa).
  { exact (uses_frame E swap_action false (copy_tree E raspbian azurelinux)
             staging wa (Ok tt) wb (effect_staging_swap E) (fun _ _ => eq_refl)
             ltac:(discriminate) (uses_copy_tree E raspbian azurelinux) Hc). }
  congruence.
Qed.

(** The steps after the mounts, for an empty set and nothing staged. *)
Lemma replace_steps_empty (w : world) :
  staging w = None -> preservation_set E (rootfs w) = Ok [] ->
  replace_steps E raspbian azurelinux w
  = (wipe E raspbian azurelinux ;; copy_tree E raspbian azurelinux) w.
Proof.
  intros Hst Hp. unfold replace_steps, bind at 1, resolve_preservation_set.
  rewrite Hp. unfold archive, bind at 1, ret. now apply swap_then_restore.
Qed.

Lemma body_empty (w : world) :
  staging w = None -> preservation_set E (rootfs w) = Ok [] ->
  mount_and_replace E raspbian azurelinux w = before_restore E raspbian azurelinux w.
Proof.
  intros Hst Hp.
  assert (Hbr : before_restore E raspbian azurelinux w
                = match run_block E MOUNTS w with
                  | (None, w1) =>
                      (dirs <- resolve_preservation_set E ;;
                       archive E raspbian azurelinux dirs ;;
                       wipe E raspbian azurelinux ;;
                       copy_tree E raspbian azurelinux) w1
                  | (Some c, w1) => (Raise (fresh (raises E raspbian azurelinux c)), w1)
                  end).
  { unfold before_restore, MOUNTS. unfold run at 1 2, bind at 1 2. simpl.
    unfold succeeds.
    destruct (Z.eqb (status E (Mount Boot)) 0); [|reflexivity].
    destruct (Z.eqb (status E (Mount Root)) 0); reflexivity. }
  rewrite Hbr, mount_and_replace_block.
  destruct (mounts_spec E w) as [o [w1 [Hrb [_ [Hr [Hs _]]]]]].
  rewrite Hrb. destruct o; [reflexivity|].
  rewrite replace_steps_empty; [|congruence|congruence].
  symmetry. unfold bind at 1, resolve_preservation_set. rewrite Hr, Hp.
  unfold archive, bind at 1, ret. reflexivity.
Qed.

Lemma body_empty_frame (w : world) (rb : result unit) (w3 : world) :
  staging w = None -> preservation_set E (rootfs w) = Ok [] ->
  mount_and_replace E raspbian azurelinux w = (rb, w3) ->
  staging w3 = None /\
  exists l, trace w3 = (trace w ++ l)%list /\
            Forall (fun a => mounter_action a \/ swap_action a) l.
Proof.
  intros Hst Hp. rewrite mount_and_replace_block.
  destruct (mounts_spec E w) as [o [w1 [Hrb [_ [Hr [Hs [_ Ht]]]]]]].
  rewrite Hrb.
  assert (Hm : Forall (fun a => mounter_action a \/ swap_action a)
                 (until_failure E MOUNTS)).
  { apply Forall_forall. intros a Ha. left. apply until_failure_incl in Ha.
    simpl in Ha. repeat (destruct Ha as [<-|Ha]; [exact I|]). destruct Ha. }
  destruct o.
  - intros [= _ <-]. split; [congruence|]. eauto.
  - rewrite replace_steps_empty; [|congruence|congruence]. intros Hrun. split.
    + rewrite <- Hst, <- Hs.
      exact (uses_frame E swap_action false
               (wipe E raspbian azurelinux ;; copy_tree E raspbian azurelinux)
               staging w1 rb w3 (effect_staging_swap E) (fun _ _ => eq_refl)
               ltac:(discriminate) uses_swap Hrun).
    + destruct (uses_trace E swap_action false
                  (wipe E raspbian azurelinux ;; copy_tree E raspbian azurelinux)
                  w1 rb w3 uses_swap Hrun)
        as [l [Hl Hf]].
      exists (until_failure E MOUNTS ++ l)%list.
      split; [now rewrite Hl, Ht, app_assoc|].
      apply Forall_app. split; [exact Hm|].
      eapply Forall_impl; [|exact Hf]. intros a Ha. now right.
Qed.

End EmptySet.

Lemma index_of_none (a : action) (l : list action) :
  (forall b, In b l -> action_eqb b a = false) -> index_of a l = None.
Proof.
  induction l as [|b l IH]; intros H; simpl; [reflexivity|].
  rewrite (H b (or_introl eq_refl)). rewrite IH; [reflexivity|].
  intros c Hc. apply H. now right.
Qed.

(** C6 (as amended).  In every run in which the resolved preservation set
    is empty and no file exists at the external staging path when the run
    starts: no archive is created, moved, extracted or deleted, nothing is
    staged at the end, and the restore step is a no-op - the world after the
    whole [try] body is the world right after the copy, so the freshly
    copied tree is left as it is. *)
Theorem C6_empty_set_no_archive_no_restore
    (E : env) (raspbian azurelinux : string) (w : world) :
  staging w = None ->
  preservation_set E (rootfs w) = Ok [] ->
  (forall res w',
     combine_images E raspbian azurelinux w = (res, w') ->
     staging w' = None /\
     exists l, trace w' = (trace w ++ l)%list /\
       (forall members, occurs (TarCreate members) l = false) /\
       occurs MvArchive l = false /\
       occurs TarExtract l = false /\
       occurs RmArchive l = false) /\
  (forall w3,
     before_restore E raspbian azurelinux w = (Ok tt, w3) ->
     restore E raspbian azurelinux w3 = (Ok tt, w3) /\
     mount_and_replace E raspbian azurelinux w = (Ok tt, w3)).
Proof.
  intros Hst Hp. split.
  - intros res w' Hrun.
    assert (Hgoal : staging w' = None /\
              exists l, trace w' = (trace w ++ l)%list /\
                Forall (fun a => session_action a \/ mounter_action a \/ swap_action a) l).
    { unfold combine_images, bind in Hrun.
      destruct (provisioning_session E raspbian azurelinux w) as [[[]|e] w1] eqn:Hs;
        destruct (session_frame E raspbian azurelinux w _ _ Hs)
          as [Hr1 [Hs1 [ls [Hts Hls]]]].
      - rewrite block_device_stage_block in Hrun.
        destruct (attach_spec E w1) as [o [w2 [Hrb [Ho [Hr2 [Hs2 [_ Ht2]]]]]]].
        rewrite Hrb in Hrun.
        assert (Hpre : Forall (fun a => session_action a \/ mounter_action a \/ swap_action a)
                         (ls ++ until_failure E ATTACH_AND_CHECK)).
        { apply Forall_app. split.
          - eapply Forall_impl; [|exact Hls]. intros a Ha. now left.
          - apply Forall_forall. intros a Ha. right. left.
            apply until_failure_incl in Ha. simpl in Ha.
            repeat (destruct Ha as [<-|Ha]; [exact I|]). destruct Ha. }
        destruct o as [c|].
        + injection Hrun as <- <-. split; [congruence|].
          exists (ls ++ until_failure E ATTACH_AND_CHECK)%list.
          split; [now rewrite Ht2, Hts, app_assoc|exact Hpre].
        + unfold try_finally in Hrun.
          destruct (mount_and_replace E raspbian azurelinux w2) as [rb w3] eqn:Hb.
          destruct (body_empty_frame E raspbian azurelinux w2 rb w3)
            as [Hs3 [lb [Ht3 Hlb]]]; [congruence|congruence|exact Hb|].
          destruct (release_spec E raspbian azurelinux w3)
            as [rf [w4 [Hrel [_ [Hs4 [_ Ht4]]]]]].
          rewrite Hrel in Hrun.
          assert (Hw : w' = w4) by (destruct rb, rf as [[]|]; now injection Hrun).
          subst w'. split; [congruence|].
          exists ((ls ++ until_failure E ATTACH_AND_CHECK) ++ lb
                  ++ Sleep :: until_failure E RELEASE)%list.
          split; [rewrite Ht4, Ht3, Ht2, Hts; now rewrite !app_assoc|].
          apply Forall_app. split; [exact Hpre|].
          apply Forall_app. split.
          * eapply Forall_impl; [|exact Hlb]. intros a Ha. now right.
          * apply Forall_forall. intros a [<-|Ha]; right; left; [exact I|].
            apply until_failure_incl in Ha. simpl in Ha.
            repeat (destruct Ha as [<-|Ha]; [exact I|]). destruct Ha.
      - injection Hrun as <- <-. split; [congruence|].
        exists ls. split; [exact Hts|].
        eapply Forall_impl; [|exact Hls]. intros a Ha. now left. }
    destruct Hgoal as [Hs' [l [Hl Hf]]]. split; [exact Hs'|].
    exists l. split; [exact Hl|].
    rewrite Forall_forall in Hf.
    repeat split; try intros members; unfold occurs; rewrite index_of_none;
      try reflexivity;
      intros b Hb; specialize (Hf b Hb);
      destruct b; simpl in Hf |- *; try reflexivity; intuition.
  - intros w3 Hbr. rewrite (body_empty E raspbian azurelinux w Hst Hp), Hbr.
    split; [|reflexivity].
    apply restore_noop.
    destruct (body_empty_frame E raspbian azurelinux w (Ok tt) w3 Hst Hp) as [H _];
      [|exact H].
    now rewrite (body_empty E raspbian azurelinux w Hst Hp).
Qed.

Lemma C6_empty_set_no_archive_no_restore_witness :
  staging (start bare_root None) = None /\
  preservation_set (env_with (failing [])) (rootfs (start bare_root None)) = Ok [] /\
  fst (combine_images (env_with (failing [])) "raspios.img" "azurelinux_extracted"
         (start bare_root None)) = Ok tt /\
  staging (snd (combine_images (env_with (failing [])) "raspios.img" "azurelinux_extracted"
                  (start bare_root None))) = None.
Proof.
  destruct (C6_empty_set_no_archive_no_restore (env_with (failing []))
              "raspios.img" "azurelinux_extracted" (start bare_root None))
    as [H _]; [vm_compute; reflexivity|vm_compute; reflexivity|].
  split; [vm_compute; reflexivity|]. split; [vm_compute; reflexivity|].
  split; [vm_compute; reflexivity|].
  exact (proj1
    (H (fst (combine_images (env_with (failing [])) "raspios.img" "azurelinux_extracted"
              (start bare_root None)))
       (snd (combine_images (env_with (failing [])) "raspios.img" "azurelinux_extracted"
              (start bare_root None)))
       ltac:(vm_compute; reflexivity))).
Defined.

(** C6 as stated fails when an archive is already staged: with an empty
    preservation set and a stale archive at the staging path, the restore
    step finds the file and extracts it over the freshly copied tree. *)
Lemma C6_stale_archive_is_restored :
  preservation_set (env_with (failing [])) (rootfs (start bare_root (Some stale_archive)))
  = Ok [] /\
  occurs TarExtract
    (trace (snd (combine_images (env_with (failing [])) "raspios.img" "azurelinux_extracted"
                   (start bare_root (Some stale_archive))))) = true /\
  resolve_path
    (rootfs (snd (combine_images (env_with (failing [])) "raspios.img" "azurelinux_extracted"
                    (start bare_root (Some stale_archive))))) "etc/shadow"
  = Some (File "stale") /\
  resolve_path replacement_tree "etc/shadow" = None /\
  ~ empty_set_skips_restore (env_with (failing [])) "raspios.img" "azurelinux_extracted"
      (start bare_root (Some stale_archive)).
Proof.
  split; [vm_compute; reflexivity|]. split; [vm_compute; reflexivity|].
  split; [vm_compute; reflexivity|]. split; [vm_compute; reflexivity|].
  intros H.
  assert (Hp : preservation_set (env_with (failing []))
                 (rootfs (start bare_root (Some stale_archive))) = Ok [])
    by (vm_compute; reflexivity).
  destruct (H Hp _ _ (surjective_pairing _)) as [_ H2].
  vm_compute in H2. discriminate H2.
Qed.

(** ** Order of operations in the log *)

Lemma part_eqb_eq (p q : part) : part_eqb p q = true -> p = q.
Proof. destruct p, q; simpl; congruence. Qed.

Lemma list_eqb_eq (l1 : list string) : forall l2, list_eqb l1 l2 = true -> l1 = l2.
Proof.
  induction l1 as [|x l1 IH]; intros [|y l2]; simpl; try discriminate; [reflexivity|].
  rewrite andb_true_iff. intros [Hx Hl]. apply String.eqb_eq in Hx.
  f_equal; auto.
Qed.

Lemma list_eqb_refl (l : list string) : list_eqb l l = true.
Proof. induction l as [|x l IH]; simpl; [reflexivity|]. now rewrite String.eqb_refl. Qed.

Lemma action_eqb_eq (a b : action) : action_eqb a b = true -> a = b.
Proof.
  destruct a, b; simpl; try discriminate; intros H; try reflexivity; f_equal;
    first [now apply String.eqb_eq | now apply list_eqb_eq | now apply part_eqb_eq].
Qed.

Lemma action_eqb_refl (a : action) : action_eqb a a = true.
Proof.
  destruct a; simpl; try reflexivity;
    first [apply String.eqb_refl | apply list_eqb_refl
          | match goal with p : part |- _ => destruct p; reflexivity end].
Qed.

Lemma index_of_notin (a : action) (l : list action) :
  ~ In a l -> index_of a l = None.
Proof.
  intros H. apply index_of_none. intros b Hb.
  destruct (action_eqb b a) eqn:Heq; [|reflexivity].
  apply action_eqb_eq in Heq. subst. contradiction.
Qed.

Lemma index_of_in (a : action) (l : list action) :
  In a l -> exists i, index_of a l = Some i.
Proof.
  induction l as [|b l IH]; simpl; [intros []|].
  intros [->|H].
  - rewrite action_eqb_refl. eauto.
  - destruct (action_eqb b a); [eauto|].
    destruct (IH H) as [i ->]. eauto.
Qed.

Lemma index_of_some_in (a : action) (l : list action) (i : nat) :
  index_of a l = Some i -> In a l.
Proof.
  revert i. induction l as [|b l IH]; simpl; [discriminate|]. intros i.
  destruct (action_eqb b a) eqn:Heq.
  - intros _. left. now apply action_eqb_eq.
  - destruct (index_of a l) as [j|]; [|discriminate]. intros _. right. eauto.
Qed.

Lemma index_of_app (a : action) (l1 l2 : list action) :
  index_of a (l1 ++ l2)
  = match index_of a l1 with
    | Some i => Some i
    | None => option_map (Nat.add (length l1)) (index_of a l2)
    end.
Proof.
  induction l1 as [|b l1 IH]; simpl.
  - destruct (index_of a l2); reflexivity.
  - destruct (action_eqb b a); [reflexivity|]. rewrite IH.
    destruct (index_of a l1); [reflexivity|].
    destruct (index_of a l2); reflexivity.
Qed.

(** [a] sits right after a prefix that contains neither [a] nor [b], and
    [b] is in the list: then [a] comes first. *)
Lemma before_intro (a b : action) (l1 l2 : list action) :
  ~ In a l1 -> ~ In b l1 -> a <> b -> In b (l1 ++ a :: l2) ->
  before a b (l1 ++ a :: l2) = true.
Proof.
  intros Ha Hb Hne Hin. unfold before. rewrite !index_of_app.
  rewrite (index_of_notin a l1 Ha), (index_of_notin b l1 Hb).
  apply in_app_or in Hin. destruct Hin as [Hin|[Hin|Hin]]; try contradiction.
  simpl. rewrite action_eqb_refl.
  destruct (action_eqb a b) eqn:Heq; [apply action_eqb_eq in Heq; contradiction|].
  destruct (index_of_in b l2 Hin) as [j ->]. simpl.
  apply Nat.ltb_lt. lia.
Qed.

Lemma before_asym (a b : action) (l : list action) :
  before a b l = true -> before b a l = false.
Proof.
  unfold before. destruct (index_of a l) as [i|], (index_of b l) as [j|];
    try discriminate.
  rewrite Nat.ltb_lt, Nat.ltb_ge. lia.
Qed.

Lemma before_notin (a b : action) (l : list action) :
  ~ In a l -> before a b l = false.
Proof. intros H. unfold before. now rewrite (index_of_notin a l H). Qed.

Lemma until_failure_cons (E : env) (a : action) (l : list action) :
  until_failure E (a :: l) = a :: (if succeeds E a then until_failure E l else []).
Proof. reflexivity. Qed.

(** What the block device stage adds to the log. *)
Lemma stage_trace (E : env) (raspbian azurelinux : string)
    (w : world) (res : result unit) (w' : world) :
  block_device_stage E raspbian azurelinux w = (res, w') ->
  exists rest,
    Forall replace_action rest /\
    trace w'
    = (trace w ++ until_failure E ATTACH_AND_CHECK
       ++ match first_failed E ATTACH_AND_CHECK with
          | Some _ => []
          | None => until_failure E MOUNTS ++ rest ++ Sleep :: until_failure E RELEASE
          end)%list.
Proof.
  rewrite block_device_stage_block.
  destruct (attach_spec E w) as [o [w2 [Hrb [Ho [_ [_ [_ Ht2]]]]]]].
  rewrite Hrb, Ho. destruct (first_failed E ATTACH_AND_CHECK) as [c|].
  - intros [= _ <-]. exists []. split; [constructor|]. now rewrite Ht2, app_nil_r.
  - intros Hrun. unfold try_finally in Hrun.
    destruct (mount_and_replace E raspbian azurelinux w2) as [rb w3] eqn:Hb.
    destruct (release_spec E raspbian azurelinux w3) as [rf [w4 [Hrel [_ [_ [_ Ht4]]]]]].
    rewrite Hrel in Hrun.
    assert (Hw : w' = w4) by (destruct rb, rf as [[]|]; now injection Hrun).
    subst w'. clear Hrun.
    rewrite mount_and_replace_block in Hb.
    destruct (mounts_spec E w2) as [o3 [w5 [Hrb3 [_ [_ [_ [_ Ht3]]]]]]].
    rewrite Hrb3 in Hb. destruct o3 as [c|].
    + injection Hb as _ <-. exists []. split; [constructor|].
      rewrite Ht4, Ht3, Ht2. simpl. now rewrite <- !app_assoc.
    + destruct (uses_trace E replace_action false _ w5 rb w3
                  (uses_replace_steps E raspbian azurelinux) Hb) as [rest [Hl Hf]].
      exists rest. split; [exact Hf|].
      rewrite Ht4, Hl, Ht3, Ht2. now rewrite <- !app_assoc.
Qed.

(** When the [try] was entered and every release command succeeds, the
    stage returns with the loop device detached, nothing mounted and both
    mount-point directories removed, whatever happened in the body. *)
Lemma released_after_try (E : env) (raspbian azurelinux : string)
    (w : world) (res : result unit) (w' : world) :
  first_failed E ATTACH_AND_CHECK = None ->
  first_failed E RELEASE = None ->
  block_device_stage E raspbian azurelinux w = (res, w') ->
  loop_attached w' = false /\
  (forall p, ~ In p (mounted w')) /\
  (forall p, ~ In p (mount_dirs w')).
Proof.
  intros Ha Hr. rewrite block_device_stage_block.
  pose proof (run_block_failed E ATTACH_AND_CHECK w) as Hf.
  destruct (run_block E ATTACH_AND_CHECK w) as [o w2]. cbn [fst] in Hf.
  rewrite Ha in Hf. subst o. intros Hrun.
  apply try_finally_world in Hrun. destruct Hrun as [rb [wb [rf [_ Hrel]]]].
  rewrite release_block in Hrel.
  assert (Hw : w' = snd (run_block E RELEASE (log Sleep wb))).
  { destruct (run_block E RELEASE (log Sleep wb)) as [[c|] wf];
      now injection Hrel as _ <-. }
  subst w'. clear Hrel. revert Hr. unfold first_failed, RELEASE. simpl.
  destruct (succeeds E (Umount Boot)); [|discriminate].
  destruct (succeeds E (Umount Root)); [|discriminate].
  destruct (succeeds E LosetupDetach); [|discriminate].
  destruct (succeeds E (Rmtree Boot)); [|discriminate].
  destruct (succeeds E (Rmtree Root)); [|discriminate].
  intros _. simpl. split; [reflexivity|].
  split; intros p Hin;
    repeat (apply filter_In in Hin; destruct Hin as [Hin ?]);
    destruct p; discriminate.
Qed.

(** When attach, both checks and both mount-point creations succeed, the
    stage goes on to mount: the mount of boot is the next operation. *)
Lemma clean_checks_proceed_to_mount (E : env) (raspbian azurelinux : string)
    (w : world) (res : result unit) (w' : world) :
  first_failed E ATTACH_AND_CHECK = None ->
  block_device_stage E raspbian azurelinux w = (res, w') ->
  exists l, trace w' = (trace w ++ ATTACH_AND_CHECK ++ Mount Boot :: l)%list.
Proof.
  intros Ha Hrun.
  destruct (stage_trace E raspbian azurelinux w res w' Hrun) as [rest [_ Ht]].
  rewrite Ha, (until_failure_all E _ Ha) in Ht.
  unfold MOUNTS in Ht. simpl until_failure in Ht.
  eexists. rewrite Ht. simpl. reflexivity.
Qed.

(** ** C5: order of the unmounts *)

(** C5 (as amended).  In every pipeline run boot is mounted before root,
    and the unmounts are issued in that same order, not in the reverse one:
    whenever root's unmount is issued, boot's unmount was issued before it.
    The unmount of boot is issued in every run that entered the mount stage,
    whatever fails afterwards, and when it succeeds root's unmount is issued
    after it; when the unmount of boot fails, root's unmount is not issued
    at all. *)
Theorem C5_unmount_in_mount_order
    (E : env) (raspbian azurelinux : string) (w : world)
    (res : result unit) (w' : world) :
  combine_images E raspbian azurelinux w = (res, w') ->
  exists l,
    trace w' = (trace w ++ l)%list /\
    (In (Mount Root) l -> before (Mount Boot) (Mount Root) l = true) /\
    (In (Umount Root) l -> before (Umount Boot) (Umount Root) l = true) /\
    (In (Mount Boot) l -> before (Mount Boot) (Umount Boot) l = true) /\
    before (Umount Root) (Umount Boot) l = false /\
    (In (Mount Boot) l -> status E (Umount Boot) = 0%Z ->
     before (Umount Boot) (Umount Root) l = true) /\
    (status E (Umount Boot) <> 0%Z -> ~ In (Umount Root) l).
Proof.
  intros Hrun.
  assert (Hshape : exists P rest,
            (forall a, is_mount_or_umount a = true -> ~ In a P) /\
            Forall replace_action rest /\
            (trace w' = (trace w ++ P)%list \/
             trace w'
             = (trace w ++ P ++ until_failure E MOUNTS ++ rest
                ++ Sleep :: until_failure E RELEASE)%list)).
  { unfold combine_images, bind in Hrun.
    destruct (provisioning_session E raspbian azurelinux w) as [[[]|e] w1] eqn:Hs;
      destruct (session_frame E raspbian azurelinux w _ _ Hs)
        as [_ [_ [ls [Hts Hls]]]].
    - destruct (stage_trace E raspbian azurelinux w1 res w' Hrun) as [rest [Hf Ht]].
      exists (ls ++ until_failure E ATTACH_AND_CHECK)%list, rest.
      split; [|split; [exact Hf|]].
      + intros a Ha Hin. apply in_app_or in Hin. destruct Hin as [Hin|Hin].
        * rewrite Forall_forall in Hls. specialize (Hls a Hin).
          destruct a; simpl in *; try discriminate; contradiction.
        * apply until_failure_incl in Hin. simpl in Hin.
          repeat (destruct Hin as [<-|Hin]; [discriminate|]). destruct Hin.
      + rewrite Ht, Hts.
        destruct (first_failed E ATTACH_AND_CHECK); [left|right];
          now rewrite <- !app_assoc, ?app_nil_r.
    - injection Hrun as _ <-. exists ls, []. split; [|split; [constructor|now left]].
      intros a Ha Hin. rewrite Forall_forall in Hls. specialize (Hls a Hin).
      destruct a; simpl in *; try discriminate; contradiction. }
  destruct Hshape as [P [rest [HP [Hrest [Ht|Ht]]]]].
  - exists P. split; [exact Ht|].
    split; [intros Hin; exfalso; revert Hin; now apply HP|].
    split; [intros Hin; exfalso; revert Hin; now apply HP|].
    split; [intros Hin; exfalso; revert Hin; now apply HP|].
    split; [apply before_notin; now apply HP|].
    split; [intros Hin; exfalso; revert Hin; now apply HP|].
    intros _. now apply HP.
  - assert (Hrest' : forall a, is_mount_or_umount a = true -> ~ In a rest).
    { intros a Ha Hin. rewrite Forall_forall in Hrest. specialize (Hrest a Hin).
      destruct a; simpl in *; try discriminate; contradiction. }
    unfold MOUNTS, RELEASE in Ht. rewrite !until_failure_cons in Ht.
    set (M' := if succeeds E (Mount Boot)
               then Mount Root :: (if succeeds E (Mount Root) then until_failure E [] else [])
               else []) in Ht.
    set (R' := if succeeds E (Umount Boot)
               then Umount Root :: _ else []) in Ht.
    assert (HM' : forall a, In a M' -> a = Mount Root).
    { intros a. unfold M'. destruct (succeeds E (Mount Boot)); [|intros []].
      intros [<-|Hin]; [reflexivity|].
      destruct (succeeds E (Mount Root)); destruct Hin. }
    set (l2 := (M' ++ rest ++ Sleep :: Umount Boot :: R')%list).
    set (P2 := (P ++ Mount Boot :: M' ++ rest ++ [Sleep])%list).
    assert (Hl1 : (P ++ (Mount Boot :: M') ++ rest ++ Sleep :: Umount Boot :: R')%list
                  = (P ++ Mount Boot :: l2)%list) by reflexivity.
    assert (Hl2 : (P ++ (Mount Boot :: M') ++ rest ++ Sleep :: Umount Boot :: R')%list
                  = (P2 ++ Umount Boot :: R')%list).
    { unfold P2. simpl. rewrite <- !app_assoc. simpl. rewrite <- !app_assoc.
      reflexivity. }
    assert (HP2 : forall p, ~ In (Umount p) P2).
    { intros p Hin. unfold P2 in Hin.
      apply in_app_or in Hin. destruct Hin as [Hin|[Hin|Hin]];
        [now apply (HP (Umount p))|discriminate|].
      apply in_app_or in Hin. destruct Hin as [Hin|Hin];
        [apply HM' in Hin; discriminate|].
      apply in_app_or in Hin. destruct Hin as [Hin|[Hin|[]]];
        [now apply (Hrest' (Umount p))|discriminate]. }
    assert (Hb : In (Umount Root) (P2 ++ Umount Boot :: R')%list ->
                 before (Umount Boot) (Umount Root) (P2 ++ Umount Boot :: R')%list = true).
    { intros Hin. apply before_intro; auto; discriminate. }
    eexists. split; [exact Ht|]. split; [|split; [|split; [|split; [|split]]]].
    + rewrite Hl1. intros Hin. apply before_intro; auto; try discriminate;
        now apply HP.
    + rewrite Hl2. exact Hb.
    + rewrite Hl1. intros _. apply before_intro; try discriminate;
        try (now apply HP).
      apply in_or_app. right. right. unfold l2.
      apply in_or_app. right. apply in_or_app. right. right. now left.
    + rewrite Hl2.
      destruct (index_of (Umount Root) (P2 ++ Umount Boot :: R')%list) as [i|] eqn:Hi.
      * apply before_asym, Hb. eapply index_of_some_in; eauto.
      * unfold before. now rewrite Hi.
    + rewrite Hl2. intros _ Hz. apply Hb.
      apply in_or_app. right. right. unfold R'.
      rewrite (proj2 (succeeds_true E (Umount Boot)) Hz). now left.
    + rewrite Hl2. intros Hnz Hin.
      apply in_app_or in Hin. destruct Hin as [Hin|[Hin|Hin]];
        [now apply (HP2 Root)|discriminate|].
      unfold R' in Hin. rewrite (proj2 (succeeds_false E (Umount Boot)) Hnz) in Hin.
      destruct Hin.
Qed.

Lemma C5_unmount_in_mount_order_witness :
  exists l,
    trace (snd (combine_images (env_with (failing [(CpA "usr", 1%Z)]))
                  "raspios.img" "azurelinux_extracted" (start donor_root None)))
    = (trace (start donor_root None) ++ l)%list /\
    before (Mount Boot) (Mount Root) l = true /\
    before (Umount Boot) (Umount Root) l = true /\
    before (Mount Boot) (Umount Boot) l = true /\
    before (CpA "usr") (Umount Boot) l = true.
Proof.
  destruct (C5_unmount_in_mount_order
              (env_with (failing [(CpA "usr", 1%Z)])) "raspios.img" "azurelinux_extracted"
              (start donor_root None)
              (fst (combine_images (env_with (failing [(CpA "usr", 1%Z)]))
                      "raspios.img" "azurelinux_extracted" (start donor_root None)))
              (snd (combine_images (env_with (failing [(CpA "usr", 1%Z)]))
                      "raspios.img" "azurelinux_extracted" (start donor_root None)))
              ltac:(vm_compute; reflexivity))
    as [l [Hl [Ha [Hb [Hc _]]]]].
  exists l. split; [exact Hl|].
  assert (Hin : In (Mount Root) l /\ In (Umount Root) l /\ In (Mount Boot) l
                /\ before (CpA "usr") (Umount Boot) l = true).
  { vm_compute in Hl. rewrite <- Hl.
    split; [eapply index_of_some_in; vm_compute; reflexivity|].
    split; [eapply index_of_some_in; vm_compute; reflexivity|].
    split; [eapply index_of_some_in; vm_compute; reflexivity|].
    vm_compute. reflexivity. }
  destruct Hin as [H1 [H2 [H3 H4]]]. auto.
Defined.

(** C5 as stated fails on the run in which everything succeeds: boot is
    mounted before root, and boot is also unmounted before root. *)
Lemma C5_unmounts_not_reversed :
  before (Mount Boot) (Mount Root)
    (trace (snd (combine_images (env_with (failing [])) "raspios.img" "azurelinux_extracted"
                   (start donor_root None)))) = true /\
  before (Umount Boot) (Umount Root)
    (trace (snd (combine_images (env_with (failing [])) "raspios.img" "azurelinux_extracted"
                   (start donor_root None)))) = true /\
  ~ unmounts_in_reverse_order
      (trace (snd (combine_images (env_with (failing [])) "raspios.img" "azurelinux_extracted"
                     (start donor_root None)))).
Proof.
  split; [vm_compute; reflexivity|]. split; [vm_compute; reflexivity|].
  intros H.
  assert (Hm : before (Mount Boot) (Mount Root)
    (trace (snd (combine_images (env_with (failing [])) "raspios.img" "azurelinux_extracted"
                   (start donor_root None)))) = true) by (vm_compute; reflexivity).
  apply H in Hm. vm_compute in Hm. discriminate Hm.
Qed.

(** ** The provisioning session *)

Lemma assoc_remove_entry {A : Type} (name : string) (l : list (string * A)) :
  assoc name (remove_entry name l) = None.
Proof.
  induction l as [|[k v] l IH]; simpl; [reflexivity|].
  destruct (String.eqb_spec k name) as [->|Hne]; simpl; [exact IH|].
  destruct (String.eqb_spec k name); [contradiction|exact IH].
Qed.

Lemma assoc_update_entries (name : string) (f : node -> node) (l : list (string * node)) :
  assoc name (update_entries name f l) = option_map f (assoc name l).
Proof.
  induction l as [|[k v] l IH]; simpl; [reflexivity|].
  destruct (String.eqb k name); [reflexivity|exact IH].
Qed.

Lemma walk_remove_at (p : list string) : forall t,
  p <> [] -> walk p (remove_at p t) = None.
Proof.
  induction p as [|c p IH]; intros t Hne; [congruence|].
  destruct p as [|c' p].
  - simpl. destruct t as [d|ms|es]; simpl; try reflexivity.
    now rewrite assoc_remove_entry.
  - change (remove_at (c :: c' :: p) t)
      with (match t with
            | Dir es => Dir (update_entries c (remove_at (c' :: p)) es)
            | _ => t
            end).
    destruct t as [d|ms|es]; try reflexivity.
    change (walk (c :: c' :: p) (Dir (update_entries c (remove_at (c' :: p)) es)))
      with (match assoc c (update_entries c (remove_at (c' :: p)) es) with
            | Some m => walk (c' :: p) m
            | None => None
            end).
    rewrite assoc_update_entries. destruct (assoc c es) as [m|]; [|reflexivity].
    simpl option_map. apply IH. discriminate.
Qed.

Lemma resolv_conf_gone (t : node) :
  path_exists (remove_at (path_of "etc/resolv.conf") t) "etc/resolv.conf" = false.
Proof.
  unfold path_exists, resolve_path. rewrite walk_remove_at; [reflexivity|].
  discriminate.
Qed.

Section Session.

Variable E : env.
Variables raspbian azurelinux : string.

Lemma session_after_setup (w w1 : world) :
  session_setup E raspbian azurelinux w = (Ok tt, w1) ->
  provisioning_session E raspbian azurelinux w
  = try_finally (session_body E raspbian azurelinux)
      (session_release E raspbian azurelinux) w1.
Proof. intros H. unfold provisioning_session, bind. now rewrite H. Qed.

Lemma session_release_binds (wb : world) :
  first_failed E SESSION_RELEASE = None ->
  bindings_released (snd (run_block E SESSION_RELEASE wb)).
Proof.
  unfold first_failed, SESSION_RELEASE. simpl.
  destruct (succeeds E RmResolv); [|discriminate].
  destruct (succeeds E (UmountBind "dev")); [|discriminate].
  destruct (succeeds E (UmountBind "proc")); [|discriminate].
  destruct (succeeds E (UmountBind "sys")); [|discriminate].
  intros _ fs Hfs Hin. simpl in Hin.
  repeat (apply filter_In in Hin; destruct Hin as [Hin ?]).
  destruct Hfs as [<-|[<-|[<-|[]]]]; discriminate.
Qed.

Lemma session_release_tree (wb : world) :
  status E RmResolv = 0%Z ->
  azl_tree (snd (run_block E SESSION_RELEASE wb))
  = remove_at (path_of "etc/resolv.conf") (azl_tree wb).
Proof.
  intros H. unfold SESSION_RELEASE. cbn [run_block].
  rewrite (proj2 (succeeds_true E RmResolv) H).
  destruct (succeeds E (UmountBind "dev")); [|reflexivity].
  destruct (succeeds E (UmountBind "proc")); [|reflexivity].
  destruct (succeeds E (UmountBind "sys")); reflexivity.
Qed.

End Session.

(** ** C2: release of the pseudo-filesystem bindings *)

(** C2 (as amended).  When a command of the guarded body of the session
    (index refresh, package install, password set) fails, the release phase
    runs.  If every release command succeeds, the three bindings are
    released and the exception the caller gets is the failure of the body
    command.  If a release command fails, its [CalledProcessError] is what
    the caller gets; the failure of the body command is not lost, it is the
    context (and root cause) of that exception. *)
Theorem C2_guarded_failure_release_and_report
    (E : env) (raspbian azurelinux : string) (w w1 : world) (c : action) :
  session_setup E raspbian azurelinux w = (Ok tt, w1) ->
  first_failed E (SESSION_BODY E) = Some c ->
  exists e w',
    provisioning_session E raspbian azurelinux w = (Raise e, w') /\
    root_cause e = CalledProcessError (argv E raspbian azurelinux c) (status E c) /\
    match first_failed E SESSION_RELEASE with
    | None =>
        e = fresh (CalledProcessError (argv E raspbian azurelinux c) (status E c)) /\
        bindings_released w'
    | Some c' =>
        e = mk_exn (CalledProcessError (argv E raspbian azurelinux c') (status E c'))
              [CalledProcessError (argv E raspbian azurelinux c) (status E c)]
    end.
Proof.
  intros Hs Hc.
  rewrite (session_after_setup E raspbian azurelinux w w1 Hs).
  unfold try_finally. rewrite session_body_block.
  pose proof (run_block_failed E (SESSION_BODY E) w1) as Hf.
  destruct (run_block E (SESSION_BODY E) w1) as [o wb]. cbn [fst] in Hf.
  rewrite Hc in Hf. subst o. cbn [block_result].
  assert (Hraise : raises E raspbian azurelinux c
                   = CalledProcessError (argv E raspbian azurelinux c) (status E c)).
  { apply first_failed_fails in Hc. destruct Hc as [Hin _].
    destruct Hin as [<-|[<-|[<-|[]]]]; reflexivity. }
  rewrite Hraise, session_release_block.
  pose proof (run_block_failed E SESSION_RELEASE wb) as Hf'.
  pose proof (session_release_binds E wb) as Hb.
  destruct (run_block E SESSION_RELEASE wb) as [o' w']. cbn [fst snd] in Hf', Hb.
  subst o'. destruct (first_failed E SESSION_RELEASE) as [c'|] eqn:Hc'.
  - cbn [block_result].
    assert (Hraise' : raises E raspbian azurelinux c'
                      = CalledProcessError (argv E raspbian azurelinux c') (status E c')).
    { apply first_failed_fails in Hc'. destruct Hc' as [Hin _].
      destruct Hin as [<-|[<-|[<-|[<-|[]]]]]; reflexivity. }
    rewrite Hraise'. eexists _, w'. split; [reflexivity|]. split; reflexivity.
  - cbn [block_result]. eexists _, w'. split; [reflexivity|].
    split; [reflexivity|]. split; [reflexivity|]. now apply Hb.
Qed.

Lemma C2_guarded_failure_release_and_report_witness :
  exists w',
    provisioning_session (env_with (failing [(Chroot TDNF_INSTALL, 1%Z)]))
      "raspios.img" "azurelinux_extracted" (start donor_root None)
    = (Raise (fresh (CalledProcessError
                       (argv (env_with (failing [(Chroot TDNF_INSTALL, 1%Z)]))
                          "raspios.img" "azurelinux_extracted" (Chroot TDNF_INSTALL))
                       (status (env_with (failing [(Chroot TDNF_INSTALL, 1%Z)]))
                          (Chroot TDNF_INSTALL)))), w') /\
    bindings_released w'.
Proof.
  destruct (C2_guarded_failure_release_and_report
              (env_with (failing [(Chroot TDNF_INSTALL, 1%Z)]))
              "raspios.img" "azurelinux_extracted" (start donor_root None)
              (snd (session_setup (env_with (failing [(Chroot TDNF_INSTALL, 1%Z)]))
                      "raspios.img" "azurelinux_extracted" (start donor_root None)))
              (Chroot TDNF_INSTALL))
    as [e [w' [H1 [_ H2]]]]; [vm_compute; reflexivity|vm_compute; reflexivity|].
  assert (Hr : first_failed (env_with (failing [(Chroot TDNF_INSTALL, 1%Z)])) SESSION_RELEASE
               = None) by (vm_compute; reflexivity).
  rewrite Hr in H2. destruct H2 as [He H2]. subst e.
  exists w'. split; [exact H1|exact H2].
Defined.

(** C2 as stated fails in two ways.  A failing release command replaces
    the original failure (which is kept only as context) and leaves the
    bindings in place; and a failure before the [try] (here the second bind)
    releases nothing at all. *)
Lemma C2_release_failure_replaces_original :
  (provisioning_session
     (env_with (failing [(Chroot TDNF_UPDATE, 1%Z); (UmountBind "dev", 32%Z)]))
     "raspios.img" "azurelinux_extracted" (start donor_root None)
   = (Raise (mk_exn
               (CalledProcessError ["sudo"; "umount"; "azurelinux_extracted/dev"] 32)
               [CalledProcessError
                  ["sudo"; "chroot"; "azurelinux_extracted"; "tdnf"; "-y"; "update"] 1]),
      snd (provisioning_session
             (env_with (failing [(Chroot TDNF_UPDATE, 1%Z); (UmountBind "dev", 32%Z)]))
             "raspios.img" "azurelinux_extracted" (start donor_root None))) /\
   binds (snd (provisioning_session
                 (env_with (failing [(Chroot TDNF_UPDATE, 1%Z); (UmountBind "dev", 32%Z)]))
                 "raspios.img" "azurelinux_extracted" (start donor_root None)))
   = ["dev"; "proc"; "sys"]) /\
  ~ session_reports_original
      (env_with (failing [(Chroot TDNF_UPDATE, 1%Z); (UmountBind "dev", 32%Z)]))
      "raspios.img" "azurelinux_extracted" (start donor_root None) /\
  (provisioning_session (env_with (failing [(MountBind "proc", 32%Z)]))
     "raspios.img" "azurelinux_extracted" (start donor_root None)
   = (Raise (fresh (CalledProcessError
                      ["sudo"; "mount"; "--bind"; "/proc"; "azurelinux_extracted/proc"] 32)),
      snd (provisioning_session (env_with (failing [(MountBind "proc", 32%Z)]))
             "raspios.img" "azurelinux_extracted" (start donor_root None))) /\
   binds (snd (provisioning_session (env_with (failing [(MountBind "proc", 32%Z)]))
                 "raspios.img" "azurelinux_extracted" (start donor_root None)))
   = ["dev"]) /\
  ~ session_reports_original (env_with (failing [(MountBind "proc", 32%Z)]))
      "raspios.img" "azurelinux_extracted" (start donor_root None).
Proof.
  split; [split; vm_compute; reflexivity|].
  split.
  { intros H.
    destruct (H (mk_exn
                   (CalledProcessError ["sudo"; "umount"; "azurelinux_extracted/dev"] 32)
                   [CalledProcessError
                      ["sudo"; "chroot"; "azurelinux_extracted"; "tdnf"; "-y"; "update"] 1])
                (snd (provisioning_session
                        (env_with (failing [(Chroot TDNF_UPDATE, 1%Z);
                                            (UmountBind "dev", 32%Z)]))
                        "raspios.img" "azurelinux_extracted" (start donor_root None)))
                (Chroot TDNF_UPDATE))
      as [_ He]; [vm_compute; reflexivity|vm_compute; reflexivity|].
    vm_compute in He. discriminate He. }
  split; [split; vm_compute; reflexivity|].
  intros H.
  destruct (H (fresh (CalledProcessError
                        ["sudo"; "mount"; "--bind"; "/proc"; "azurelinux_extracted/proc"] 32))
              (snd (provisioning_session (env_with (failing [(MountBind "proc", 32%Z)]))
                      "raspios.img" "azurelinux_extracted" (start donor_root None)))
              (MountBind "proc"))
    as [Hb _]; [vm_compute; reflexivity|vm_compute; reflexivity|].
  apply (Hb "dev"); [now left|].
  assert (Hbinds : binds (snd (provisioning_session
                                 (env_with (failing [(MountBind "proc", 32%Z)]))
                                 "raspios.img" "azurelinux_extracted"
                                 (start donor_root None))) = ["dev"])
    by (vm_compute; reflexivity).
  rewrite Hbinds. now left.
Qed.

(** ** C10: the copied resolv.conf *)

(** C10 (as amended).  Once the session has got past its set-up, whenever
    it ends - normally or by an exception of a body command - and the
    removal command itself succeeded, [etc/resolv.conf] is absent from the
    replacement tree.  A session that ends normally has removed it, and the
    later stages leave the replacement tree alone: the tree copied into the
    image never contains it. *)
Theorem C10_resolv_conf_removed
    (E : env) (raspbian azurelinux : string) (w w1 : world) :
  session_setup E raspbian azurelinux w = (Ok tt, w1) ->
  (status E RmResolv = 0%Z ->
   forall res w',
     provisioning_session E raspbian azurelinux w = (res, w') ->
     path_exists (azl_tree w') "etc/resolv.conf" = false) /\
  (forall w2,
     provisioning_session E raspbian azurelinux w = (Ok tt, w2) ->
     path_exists (azl_tree w2) "etc/resolv.conf" = false /\
     forall res w',
       combine_images E raspbian azurelinux w = (res, w') ->
       azl_tree w' = azl_tree w2).
Proof.
  intros Hs.
  assert (H1 : status E RmResolv = 0%Z ->
               forall res w',
                 provisioning_session E raspbian azurelinux w = (res, w') ->
                 path_exists (azl_tree w') "etc/resolv.conf" = false).
  { intros Hrm res w' Hrun.
    rewrite (session_after_setup E raspbian azurelinux w w1 Hs) in Hrun.
    apply try_finally_world in Hrun. destruct Hrun as [rb [wb [rf [_ Hrel]]]].
    rewrite session_release_block in Hrel.
    pose proof (session_release_tree E wb Hrm) as Ht.
    destruct (run_block E SESSION_RELEASE wb) as [o wf]. cbn [snd] in Ht.
    assert (Hw : w' = wf) by (destruct o; now injection Hrel).
    subst wf. rewrite Ht. apply resolv_conf_gone. }
  split; [exact H1|].
  intros w2 Hrun. split.
  - apply (H1) with (res := Ok tt); [|exact Hrun].
    rewrite (session_after_setup E raspbian azurelinux w w1 Hs) in Hrun.
    unfold try_finally in Hrun.
    destruct (session_body E raspbian azurelinux w1) as [[[]|e] wb].
    + rewrite session_release_block in Hrun.
      pose proof (run_block_failed E SESSION_RELEASE wb) as Hf.
      destruct (run_block E SESSION_RELEASE wb) as [[c|] wf]; [discriminate|].
      cbn [fst] in Hf. unfold first_failed, SESSION_RELEASE in Hf. simpl in Hf.
      destruct (succeeds E RmResolv) eqn:Hsuc; [|discriminate].
      now apply succeeds_true.
    + destruct (session_release E raspbian azurelinux wb) as [[[]|e'] wf]; discriminate.
  - intros res w' Hci.
    rewrite (combine_after_session _ _ _ _ _ Hrun) in Hci.
    apply (uses_frame E block_action false
             (block_device_stage E raspbian azurelinux) azl_tree w2 res w'); auto.
    + intros a x Ha. now apply effect_azl_tree_block.
    + discriminate.
    + apply uses_block_device_stage.
Qed.

Lemma C10_resolv_conf_removed_witness :
  fst (provisioning_session (env_with (failing [(Chroot TDNF_UPDATE, 1%Z)]))
         "raspios.img" "azurelinux_extracted" (start donor_root None))
  = Raise (fresh (CalledProcessError
                    ["sudo"; "chroot"; "azurelinux_extracted"; "tdnf"; "-y"; "update"] 1)) /\
  path_exists
    (azl_tree (snd (provisioning_session (env_with (failing [(Chroot TDNF_UPDATE, 1%Z)]))
                      "raspios.img" "azurelinux_extracted" (start donor_root None))))
    "etc/resolv.conf" = false.
Proof.
  destruct (C10_resolv_conf_removed
              (env_with (failing [(Chroot TDNF_UPDATE, 1%Z)]))
              "raspios.img" "azurelinux_extracted" (start donor_root None)
              (snd (session_setup (env_with (failing [(Chroot TDNF_UPDATE, 1%Z)]))
                      "raspios.img" "azurelinux_extracted" (start donor_root None))))
    as [H _]; [vm_compute; reflexivity|].
  split; [vm_compute; reflexivity|].
  apply (H ltac:(vm_compute; reflexivity)
           (fst (provisioning_session (env_with (failing [(Chroot TDNF_UPDATE, 1%Z)]))
                  "raspios.img" "azurelinux_extracted" (start donor_root None)))
           (snd (provisioning_session (env_with (failing [(Chroot TDNF_UPDATE, 1%Z)]))
                  "raspios.img" "azurelinux_extracted" (start donor_root None)))
           ltac:(vm_compute; reflexivity)).
Defined.

(** C10 as stated fails when the removal command itself fails: the session
    ends by the [CalledProcessError] of [rm], and the copy of the host's
    resolver configuration is still in the replacement tree. *)
Lemma C10_failed_removal_leaves_resolv_conf :
  fst (provisioning_session (env_with (failing [(RmResolv, 1%Z)]))
         "raspios.img" "azurelinux_extracted" (start donor_root None))
  = Raise (fresh (CalledProcessError
                    ["sudo"; "rm"; "-f"; "azurelinux_extracted/etc/resolv.conf"] 1)) /\
  resolve_path
    (azl_tree (snd (provisioning_session (env_with (failing [(RmResolv, 1%Z)]))
                      "raspios.img" "azurelinux_extracted" (start donor_root None))))
    "etc/resolv.conf"
  = Some (File ("nameserver 192.0.2.1" ++ nl)) /\
  ~ resolv_conf_always_removed (env_with (failing [(RmResolv, 1%Z)]))
      "raspios.img" "azurelinux_extracted" (start donor_root None).
Proof.
  split; [vm_compute; reflexivity|]. split; [vm_compute; reflexivity|].
  intros H.
  assert (Hres : fst (provisioning_session (env_with (failing [(RmResolv, 1%Z)]))
                        "raspios.img" "azurelinux_extracted" (start donor_root None))
                 = Raise (fresh (CalledProcessError
                     ["sudo"; "rm"; "-f"; "azurelinux_extracted/etc/resolv.conf"] 1)))
    by (vm_compute; reflexivity).
  assert (Hx : path_exists
                 (azl_tree (snd (provisioning_session (env_with (failing [(RmResolv, 1%Z)]))
                                   "raspios.img" "azurelinux_extracted"
                                   (start donor_root None))))
                 "etc/resolv.conf" = false).
  { apply (H _ _ (surjective_pairing _)). right. rewrite Hres.
    unfold fresh. eauto. }
  vm_compute in Hx. discriminate Hx.
Qed.

(** ** The root password: salt and rounds handed to the hash function *)

Lemma to_bytes_big_length (len : nat) : forall n, length (to_bytes_big len n) = len.
Proof.
  induction len as [|k IH]; intros n; simpl; [reflexivity|].
  rewrite length_app, IH. simpl. lia.
Qed.

Lemma hex_length (bs : list N) : String.length (hex bs) = 2 * length bs.
Proof. induction bs as [|b bs IH]; simpl; [reflexivity|]. rewrite IH. lia. Qed.

(** The salt is the 16 hexadecimal digits of 8 bytes. *)
Lemma password_salt_length (E : env) : String.length (password_salt E) = 16.
Proof. unfold password_salt. now rewrite hex_length, to_bytes_big_length. Qed.

(** What [usermod] receives is the value of the library's hash function
    at that salt, 5000 rounds and the fixed password. *)
Lemma usermod_hash_argument (E : env) :
  USERMOD E = ["usermod"; "-p"; sha512_crypt E (password_salt E) 5000%N "azl"; "root"].
Proof. reflexivity. Qed.

(* ------------------------------------------------------------------------- *)
(** * Further properties of [combine_images] *)

Lemma bind_ok_inv {A B : Type} (m : M A) (f : A -> M B) (w : world) (b : B) (w' : world) :
  bind m f w = (Ok b, w') ->
  exists a w1, m w = (Ok a, w1) /\ f a w1 = (Ok b, w').
Proof.
  unfold bind. destruct (m w) as [[a|e] w1]; [eauto|discriminate].
Qed.

Lemma run_ok_inv (E : env) (raspbian azurelinux : string) (a : action) (w w' : world) :
  run E raspbian azurelinux a w = (Ok tt, w') ->
  status E a = 0%Z /\ w' = effect E a (log a w).
Proof.
  unfold run. destruct (Z.eqb_spec (status E a) 0); [|discriminate].
  intros [= <-]. auto.
Qed.

Lemma effect_binds_block (E : env) (a : action) (x : world) :
  block_action a -> binds (effect E a x) = binds x.
Proof. effect_cases a. Qed.

Lemma effect_loop_session (E : env) (a : action) (x : world) :
  session_action a -> loop_attached (effect E a x) = loop_attached x.
Proof. effect_cases a. Qed.

(** ** Release on the paths the [try] covers *)

(** X1.  Once the second [try] has been entered (attach, both checks and
    both mount-point creations succeeded) and the release commands succeed,
    [combine_images] returns - normally or with the exception of the body -
    with the loop device detached, nothing mounted and both mount-point
    directories removed. *)
Theorem X1_release_after_try
    (E : env) (raspbian azurelinux : string) (w w1 : world)
    (res : result unit) (w' : world) :
  provisioning_session E raspbian azurelinux w = (Ok tt, w1) ->
  first_failed E ATTACH_AND_CHECK = None ->
  first_failed E RELEASE = None ->
  combine_images E raspbian azurelinux w = (res, w') ->
  loop_attached w' = false /\
  (forall p, ~ In p (mounted w')) /\
  (forall p, ~ In p (mount_dirs w')).
Proof.
  intros Hs Ha Hr Hrun. rewrite (combine_after_session _ _ _ _ _ Hs) in Hrun.
  exact (released_after_try E raspbian azurelinux w1 res w' Ha Hr Hrun).
Qed.

Lemma X1_release_after_try_witness :
  fst (combine_images (env_with (failing [(RmRf "usr", 1%Z)])) "raspios.img"
         "azurelinux_extracted" (start donor_root None))
  = Raise (fresh (CalledProcessError ["sudo"; "rm"; "-rf"; "/tmp/mnt_root_b/usr"] 1)) /\
  loop_attached
    (snd (combine_images (env_with (failing [(RmRf "usr", 1%Z)])) "raspios.img"
            "azurelinux_extracted" (start donor_root None))) = false.
Proof.
  split; [vm_compute; reflexivity|].
  apply (X1_release_after_try (env_with (failing [(RmRf "usr", 1%Z)])) "raspios.img"
           "azurelinux_extracted" (start donor_root None)
           (snd (provisioning_session (env_with (failing [(RmRf "usr", 1%Z)]))
                   "raspios.img" "azurelinux_extracted" (start donor_root None)))
           (fst (combine_images (env_with (failing [(RmRf "usr", 1%Z)])) "raspios.img"
                   "azurelinux_extracted" (start donor_root None)))
           (snd (combine_images (env_with (failing [(RmRf "usr", 1%Z)])) "raspios.img"
                   "azurelinux_extracted" (start donor_root None))));
    vm_compute; reflexivity.
Defined.

(** X2.  When the provisioning session raises, [combine_images] raises the
    same exception at once: no operation on the donor image is issued, the
    loop device state, the donor root and the staging path are as before. *)
Theorem X2_failed_session_leaves_image
    (E : env) (raspbian azurelinux : string) (w : world) (e : exn) (w1 : world) :
  provisioning_session E raspbian azurelinux w = (Raise e, w1) ->
  combine_images E raspbian azurelinux w = (Raise e, w1) /\
  rootfs w1 = rootfs w /\ staging w1 = staging w /\
  loop_attached w1 = loop_attached w /\ mounted w1 = mounted w /\
  exists l, trace w1 = (trace w ++ l)%list /\ Forall session_action l.
Proof.
  intros Hs.
  destruct (session_frame E raspbian azurelinux w _ _ Hs) as [Hr [Hst Ht]].
  split; [unfold combine_images, bind; now rewrite Hs|].
  split; [exact Hr|]. split; [exact Hst|]. split; [|split; [|exact Ht]].
  - apply (uses_frame E session_action true
             (provisioning_session E raspbian azurelinux) loop_attached w (Raise e) w1);
      auto.
    + intros a x Ha. now apply effect_loop_session.
    + apply uses_provisioning_session.
  - apply (uses_frame E session_action true
             (provisioning_session E raspbian azurelinux) mounted w (Raise e) w1);
      auto.
    + intros a x Ha. destruct a; simpl in *; try contradiction;
        repeat match goal with
               | |- context [match ?y with _ => _ end] => destruct y; simpl
               end; reflexivity.
    + apply uses_provisioning_session.
Qed.

Lemma X2_failed_session_leaves_image_witness :
  fst (combine_images (env_with (failing [(Chroot TDNF_INSTALL, 1%Z)])) "raspios.img"
         "azurelinux_extracted" (start donor_root None))
  = fst (provisioning_session (env_with (failing [(Chroot TDNF_INSTALL, 1%Z)]))
           "raspios.img" "azurelinux_extracted" (start donor_root None)) /\
  rootfs (snd (provisioning_session (env_with (failing [(Chroot TDNF_INSTALL, 1%Z)]))
                 "raspios.img" "azurelinux_extracted" (start donor_root None)))
  = rootfs (start donor_root None).
Proof.
  destruct (X2_failed_session_leaves_image
              (env_with (failing [(Chroot TDNF_INSTALL, 1%Z)])) "raspios.img"
              "azurelinux_extracted" (start donor_root None)
              (fresh (CalledProcessError
                        (["sudo"; "chroot"; "azurelinux_extracted"] ++ TDNF_INSTALL) 1))
              (snd (provisioning_session (env_with (failing [(Chroot TDNF_INSTALL, 1%Z)]))
                      "raspios.img" "azurelinux_extracted" (start donor_root None))))
    as [H1 [H2 _]]; [vm_compute; reflexivity|].
  split; [vm_compute; reflexivity|exact H2].
Defined.

(** ** The wipe loop *)

Lemma path_of_valid (e : string) : valid_name e = true -> path_of e = [e].
Proof.
  unfold valid_name. rewrite !andb_true_iff, !negb_true_iff.
  intros [[[He Hd] _] Hs].
  unfold path_of. rewrite (components_no_slash e Hs). simpl.
  now rewrite He, Hd.
Qed.

Lemma assoc_remove_entry_other {A : Type} (k name : string) (l : list (string * A)) :
  name <> k -> assoc name (remove_entry k l) = assoc name l.
Proof.
  intros Hne. induction l as [|[k' v] l IH]; simpl; [reflexivity|].
  destruct (String.eqb_spec k' k) as [->|Hk]; simpl.
  - destruct (String.eqb_spec k name); [congruence|exact IH].
  - destruct (String.eqb_spec k' name); [reflexivity|exact IH].
Qed.

Lemma assoc_in_nodup {A : Type} (l : list (string * A)) (k : string) (v : A) :
  NoDup (map fst l) -> In (k, v) l -> assoc k l = Some v.
Proof.
  induction l as [|[k' v'] l IH]; simpl; [intros _ []|].
  intros Hnd [H|H].
  - injection H as -> ->. now rewrite String.eqb_refl.
  - inversion Hnd as [|x xs Hx Hxs]; subst.
    destruct (String.eqb_spec k' k) as [->|Hne]; [|auto].
    exfalso. apply Hx. apply in_map_iff. exists (k, v). auto.
Qed.

Lemma wipe_commands_boot (n : node) (l : list (string * node)) :
  wipe_commands (("boot", n) :: l) = wipe_commands l.
Proof. reflexivity. Qed.

Lemma wipe_commands_other (name : string) (n : node) (l : list (string * node)) :
  name <> "boot" ->
  wipe_commands ((name, n) :: l) = rm_command (name, n) :: wipe_commands l.
Proof.
  intros H. unfold wipe_commands. simpl.
  destruct (String.eqb_spec name "boot"); [contradiction|reflexivity].
Qed.

Section Loops.

Variable E : env.
Variables raspbian azurelinux : string.

Lemma wipe_loop (l : list (string * node)) : forall cur w r w',
  rootfs w = Dir cur ->
  NoDup (names l) ->
  Forall (fun e => valid_name e = true) (names l) ->
  (forall p, In p l -> assoc (fst p) cur = Some (snd p)) ->
  for_each (names l) (wipe_entry E raspbian azurelinux) w = (r, w') ->
  exists cur',
    rootfs w' = Dir cur' /\
    trace w' = (trace w ++ until_failure E (wipe_commands l))%list /\
    (forall name, name = "boot" \/ ~ In name (names l) ->
       assoc name cur' = assoc name cur) /\
    (r = Ok tt -> forall name, In name (names l) -> name <> "boot" ->
       assoc name cur' = None) /\
    (r = Ok tt <-> first_failed E (wipe_commands l) = None).
Proof.
  induction l as [|[name n] l IH]; intros cur w r w' Hroot Hnd Hval Hl Hrun.
  - injection Hrun as <- <-. exists cur. split; [exact Hroot|].
    split; [simpl; now rewrite app_nil_r|]. split; [auto|].
    split; [intros _ name []|]. split; reflexivity.
  - inversion Hnd as [|x xs Hx Hxs]; subst.
    inversion Hval as [|y ys Hy Hys]; subst.
    assert (Hl' : forall p, In p l -> assoc (fst p) cur = Some (snd p))
      by (intros p Hp; apply Hl; now right).
    change (names ((name, n) :: l)) with (name :: names l) in *.
    cbn [for_each] in Hrun. unfold bind at 1 in Hrun.
    unfold wipe_entry at 1 in Hrun.
    destruct (String.eqb_spec name "boot") as [->|Hnb].
    + cbn [ret] in Hrun. rewrite wipe_commands_boot.
      destruct (IH cur w r w' Hroot Hxs Hys Hl' Hrun) as [cur' [H1 [H2 [H3 [H4 H5]]]]].
      exists cur'. split; [exact H1|]. split; [exact H2|]. split; [|split; [|exact H5]].
      * intros k [Hk|Hk]; apply H3; [now left|].
        right. intros Hin. apply Hk. now right.
      * intros Hok k [Hk|Hk] Hkb; [congruence|]. now apply H4.
    + assert (Hisdir : path_isdir (rootfs w) name = is_dir (Some n)).
      { unfold path_isdir, resolve_path. rewrite (path_of_valid name Hy), Hroot.
        simpl. specialize (Hl (name, n) (or_introl eq_refl)). simpl in Hl.
        now rewrite Hl. }
      unfold bind at 1, gets in Hrun. rewrite Hisdir in Hrun.
      assert (Hcmd : (if is_dir (Some n) then run E raspbian azurelinux (RmRf name)
                      else run E raspbian azurelinux (RmF name))
                     = run E raspbian azurelinux (rm_command (name, n)))
        by (destruct n; reflexivity).
      rewrite Hcmd in Hrun. rewrite (wipe_commands_other name n l Hnb).
      rewrite until_failure_cons. unfold first_failed. cbn [find].
      set (a := rm_command (name, n)) in *.
      assert (Heff : rootfs (effect E a (log a w)) = Dir (remove_entry name cur)).
      { unfold a, rm_command. destruct n; simpl;
          rewrite (path_of_valid name Hy), Hroot; reflexivity. }
      unfold run in Hrun. unfold succeeds.
      destruct (Z.eqb (status E a) 0).
      * assert (Hl1 : forall p, In p l ->
                  assoc (fst p) (remove_entry name cur) = Some (snd p)).
        { intros p Hp. rewrite assoc_remove_entry_other; [now apply Hl'|].
          intros Heq. apply Hx. rewrite <- Heq. apply in_map. exact Hp. }
        destruct (IH _ _ r w' Heff Hxs Hys Hl1 Hrun) as [cur' [H1 [H2 [H3 [H4 H5]]]]].
        exists cur'. split; [exact H1|]. split.
        { rewrite H2, trace_effect. simpl. now rewrite <- app_assoc. }
        split; [|split; [|exact H5]].
        { intros k Hk.
          assert (Hkn : k <> name).
          { destruct Hk as [->|Hk]; [congruence|]. intros ->. apply Hk. now left. }
          rewrite H3; [now apply assoc_remove_entry_other|].
          destruct Hk as [Hk|Hk]; [now left|]. right. intros Hin. apply Hk. now right. }
        { intros Hok k [Hk|Hk] Hkb.
          - subst k. rewrite H3; [apply assoc_remove_entry|now right].
          - now apply H4. }
      * injection Hrun as <- <-. exists cur. split; [exact Hroot|].
        split; [reflexivity|]. split; [auto|]. split; [discriminate|].
        split; discriminate.
Qed.

Lemma wipe_as_loop (w : world) (es : list (string * node)) :
  rootfs w = Dir es ->
  wipe E raspbian azurelinux w
  = for_each (names es) (wipe_entry E raspbian azurelinux) w.
Proof.
  intros H. unfold wipe, bind at 1, listdir_m, listdir. rewrite H. reflexivity.
Qed.

End Loops.

(** X3.  The wipe never touches [boot]: on a well-formed mounted root,
    however the wipe ends, the [boot] entry is what it was; and when the
    wipe returns normally, [boot] is the only entry left. *)
Theorem X3_wipe_keeps_only_boot
    (E : env) (raspbian azurelinux : string) (w : world)
    (es : list (string * node)) (res : result unit) (w' : world) :
  rootfs w = Dir es ->
  wf_node (Dir es) = true ->
  wipe E raspbian azurelinux w = (res, w') ->
  child "boot" (rootfs w') = child "boot" (rootfs w) /\
  (res = Ok tt -> forall name, name <> "boot" -> child name (rootfs w') = None).
Proof.
  intros Hroot Hwf Hrun. rewrite (wipe_as_loop E raspbian azurelinux w es Hroot) in Hrun.
  destruct (wf_dir_names es Hwf) as [Hnd Hval].
  destruct (wipe_loop E raspbian azurelinux es es w res w' Hroot Hnd Hval) as
    [cur' [H1 [_ [H3 [H4 _]]]]]; [|exact Hrun|].
  { intros [k v] Hp. now apply assoc_in_nodup. }
  rewrite H1, Hroot. simpl. split; [apply H3; now left|].
  intros Hok name Hne.
  destruct (in_dec string_dec name (names es)) as [Hin|Hnin]; [now apply H4|].
  rewrite H3; [|now right].
  destruct (assoc name es) as [v|] eqn:Ha; [|reflexivity].
  exfalso. apply Hnin. apply assoc_some_in in Ha.
  apply in_map_iff. exists (name, v). auto.
Qed.

Lemma X3_wipe_keeps_only_boot_witness :
  child "boot"
    (rootfs (snd (wipe (env_with (failing [])) "raspios.img" "azurelinux_extracted"
                    (start donor_root None))))
  = Some (Dir [("kernel.img", File "k")]) /\
  child "usr"
    (rootfs (snd (wipe (env_with (failing [])) "raspios.img" "azurelinux_extracted"
                    (start donor_root None)))) = None.
Proof.
  destruct (X3_wipe_keeps_only_boot (env_with (failing [])) "raspios.img"
              "azurelinux_extracted" (start donor_root None)
              [("boot", Dir [("kernel.img", File "k")]);
               ("etc", Dir [("passwd", File "root")]);
               ("usr", Dir [("lib", Dir [("modules", Dir [("y.ko", File "y")]);
                                         ("firmware", Dir []);
                                         ("raspberrypi-sys-mods", Dir []);
                                         ("os-release", File "raspbian")]);
                            ("src", Dir [])])]
              (Ok tt)
              (snd (wipe (env_with (failing [])) "raspios.img" "azurelinux_extracted"
                      (start donor_root None))))
    as [H1 H2]; [reflexivity|vm_compute; reflexivity|vm_compute; reflexivity|].
  split; [exact H1|]. apply H2; [reflexivity|discriminate].
Defined.

(** X4.  On a well-formed mounted root the wipe issues one removal per
    top-level entry other than [boot], in listing order - [rm -rf] for a
    directory, [rm -f] for anything else - and stops at the first removal
    that fails; no removal ever names [boot]. *)
Theorem X4_wipe_commands
    (E : env) (raspbian azurelinux : string) (w : world)
    (es : list (string * node)) (res : result unit) (w' : world) :
  rootfs w = Dir es ->
  wf_node (Dir es) = true ->
  wipe E raspbian azurelinux w = (res, w') ->
  trace w' = (trace w ++ until_failure E (wipe_commands es))%list /\
  ~ In (RmRf "boot") (until_failure E (wipe_commands es)) /\
  ~ In (RmF "boot") (until_failure E (wipe_commands es)) /\
  (res = Ok tt <-> first_failed E (wipe_commands es) = None).
Proof.
  intros Hroot Hwf Hrun. rewrite (wipe_as_loop E raspbian azurelinux w es Hroot) in Hrun.
  destruct (wf_dir_names es Hwf) as [Hnd Hval].
  destruct (wipe_loop E raspbian azurelinux es es w res w' Hroot Hnd Hval) as
    [cur' [_ [H2 [_ [_ H5]]]]]; [|exact Hrun|].
  { intros [k v] Hp. now apply assoc_in_nodup. }
  split; [exact H2|].
  assert (Hboot : forall a, In a (wipe_commands es) -> a <> RmRf "boot" /\ a <> RmF "boot").
  { intros a Ha. unfold wipe_commands in Ha. apply in_map_iff in Ha.
    destruct Ha as [[k v] [<- Hp]]. apply filter_In in Hp. destruct Hp as [_ Hk].
    simpl in Hk. apply negb_true_iff in Hk. apply String.eqb_neq in Hk.
    unfold rm_command. simpl. destruct v; split; congruence. }
  split; [intros Hin; apply until_failure_incl in Hin; now apply Hboot in Hin|].
  split; [intros Hin; apply until_failure_incl in Hin; now apply Hboot in Hin|].
  exact H5.
Qed.

Lemma X4_wipe_commands_witness :
  trace (snd (wipe (env_with (failing [(RmRf "etc", 1%Z)])) "raspios.img"
                "azurelinux_extracted" (start mixed_root None)))
  = [RmF "swapfile"; RmRf "etc"].
Proof.
  destruct (X4_wipe_commands (env_with (failing [(RmRf "etc", 1%Z)])) "raspios.img"
              "azurelinux_extracted" (start mixed_root None)
              [("boot", Dir [("kernel.img", File "k")]); ("swapfile", File "s");
               ("etc", Dir [("passwd", File "root")]);
               ("usr", Dir [("lib", Dir [])])]
              (fst (wipe (env_with (failing [(RmRf "etc", 1%Z)])) "raspios.img"
                      "azurelinux_extracted" (start mixed_root None)))
              (snd (wipe (env_with (failing [(RmRf "etc", 1%Z)])) "raspios.img"
                      "azurelinux_extracted" (start mixed_root None))))
    as [H _]; [reflexivity|vm_compute; reflexivity|vm_compute; reflexivity|].
  rewrite H. vm_compute. reflexivity.
Defined.

(** ** The copy loop *)

Lemma assoc_set_entry_same {A : Type} (k : string) (v : A) (l : list (string * A)) :
  assoc k (set_entry k v l) = Some v.
Proof.
  induction l as [|[k' x] l IH]; simpl.
  - now rewrite String.eqb_refl.
  - destruct (String.eqb_spec k' k) as [->|Hne]; simpl.
    + now rewrite String.eqb_refl.
    + destruct (String.eqb_spec k' k); [contradiction|exact IH].
Qed.

Lemma cp_into_dir (name : string) (src : node) (rs : list (string * node)) :
  cp_into name src (Dir rs) = Dir (set_entry name (copied name src (assoc name rs)) rs).
Proof.
  unfold cp_into, copied. simpl.
  destruct (assoc name rs) as [[d|ms|ds]|]; reflexivity.
Qed.

Section CopyLoop.

Variable E : env.
Variables raspbian azurelinux : string.
Variable es : list (string * node).

Lemma copy_loop (l : list (string * node)) : forall rs w r w',
  azl_tree w = Dir es -> rootfs w = Dir rs ->
  NoDup (names l) ->
  Forall (fun e => valid_name e = true) (names l) ->
  (forall p, In p l -> assoc (fst p) es = Some (snd p)) ->
  for_each (names l) (copy_entry E raspbian azurelinux) w = (r, w') ->
  exists rs',
    rootfs w' = Dir rs' /\ azl_tree w' = Dir es /\
    trace w' = (trace w ++ until_failure E (copy_commands l))%list /\
    (r = Ok tt <-> first_failed E (copy_commands l) = None) /\
    (forall name, ~ In name (names l) -> assoc name rs' = assoc name rs) /\
    (r = Ok tt -> forall p, In p l ->
       assoc (fst p) rs' = Some (copied (fst p) (snd p) (assoc (fst p) rs))).
Proof.
  induction l as [|[name n] l IH]; intros rs w r w' Hazl Hroot Hnd Hval Hl Hrun.
  - injection Hrun as <- <-. exists rs. split; [exact Hroot|]. split; [exact Hazl|].
    split; [simpl; now rewrite app_nil_r|]. split; [split; reflexivity|].
    split; [auto|]. intros _ p [].
  - inversion Hnd as [|x xs Hx Hxs]; subst.
    inversion Hval as [|y ys Hy Hys]; subst.
    assert (Hl' : forall p, In p l -> assoc (fst p) es = Some (snd p))
      by (intros p Hp; apply Hl; now right).
    assert (Hn : assoc name es = Some n) by (apply (Hl (name, n)); now left).
    change (names ((name, n) :: l)) with (name :: names l) in *.
    cbn [for_each] in Hrun. unfold bind at 1 in Hrun.
    unfold copy_entry at 1 in Hrun. unfold bind at 1, gets in Hrun.
    assert (Hres : resolve_path (Dir es) name = Some n).
    { unfold resolve_path. rewrite (path_of_valid name Hy). simpl. now rewrite Hn. }
    assert (Hisdir : path_isdir (azl_tree w) name = is_dir (Some n))
      by (unfold path_isdir; now rewrite Hazl, Hres).
    rewrite Hisdir in Hrun.
    assert (Hcmd : (if is_dir (Some n) then run E raspbian azurelinux (CpA name)
                    else run E raspbian azurelinux (Cp name))
                   = run E raspbian azurelinux (cp_command (name, n)))
      by (destruct n; reflexivity).
    rewrite Hcmd in Hrun. unfold copy_commands. cbn [map]. fold (copy_commands l).
    rewrite until_failure_cons. unfold first_failed. cbn [find].
    fold (first_failed E (copy_commands l)).
    set (a := cp_command (name, n)) in *.
    assert (Heff : rootfs (effect E a (log a w))
                   = Dir (set_entry name (copied name n (assoc name rs)) rs) /\
                   azl_tree (effect E a (log a w)) = Dir es).
    { unfold a, cp_command. destruct n; simpl; rewrite Hazl, Hres, Hroot, cp_into_dir;
        auto. }
    destruct Heff as [Heff Hazl1].
    unfold run in Hrun. unfold succeeds.
    destruct (Z.eqb (status E a) 0).
    + destruct (IH _ _ r w' Hazl1 Heff Hxs Hys Hl' Hrun)
        as [rs' [H1 [H2 [H3 [H4 [H5 H6]]]]]].
      exists rs'. split; [exact H1|]. split; [exact H2|]. split.
      { rewrite H3, trace_effect. simpl. now rewrite <- app_assoc. }
      split; [exact H4|]. split.
      { intros k Hk. rewrite H5; [|intros Hin; apply Hk; now right].
        apply assoc_set_entry_other. intros ->. apply Hk. now left. }
      { intros Hok p [Hp|Hp].
        - subst p. cbn [fst snd]. rewrite H5; [|exact Hx]. apply assoc_set_entry_same.
        - rewrite (H6 Hok p Hp). rewrite assoc_set_entry_other; [reflexivity|].
          intros Heq. apply Hx. rewrite <- Heq. now apply in_map. }
    + injection Hrun as <- <-. exists rs. split; [exact Hroot|]. split; [exact Hazl|].
      split; [reflexivity|]. split; [split; discriminate|]. split; [auto|discriminate].
Qed.

Lemma copy_as_loop (w : world) :
  azl_tree w = Dir es ->
  copy_tree E raspbian azurelinux w
  = for_each (names es) (copy_entry E raspbian azurelinux) w.
Proof.
  intros H. unfold copy_tree, bind at 1, listdir_m, listdir. rewrite H. reflexivity.
Qed.

End CopyLoop.

(** X5.  For a well-formed replacement tree the copy issues one copy per
    top-level entry, in listing order - [cp -a] for a directory, plain [cp]
    for anything else - and stops at the first copy that fails; it returns
    normally exactly when none fails, and it leaves the replacement tree as
    it is. *)
Theorem X5_copy_commands
    (E : env) (raspbian azurelinux : string) (w : world)
    (es rs : list (string * node)) (res : result unit) (w' : world) :
  azl_tree w = Dir es -> wf_node (Dir es) = true ->
  rootfs w = Dir rs ->
  copy_tree E raspbian azurelinux w = (res, w') ->
  trace w' = (trace w ++ until_failure E (copy_commands es))%list /\
  (res = Ok tt <-> first_failed E (copy_commands es) = None) /\
  azl_tree w' = azl_tree w.
Proof.
  intros Hazl Hwf Hroot Hrun.
  rewrite (copy_as_loop E raspbian azurelinux es w Hazl) in Hrun.
  destruct (wf_dir_names es Hwf) as [Hnd Hval].
  destruct (copy_loop E raspbian azurelinux es es rs w res w' Hazl Hroot Hnd Hval)
    as [rs' [_ [H2 [H3 [H4 _]]]]]; [|exact Hrun|].
  { intros [k v] Hp. now apply assoc_in_nodup. }
  split; [exact H3|]. split; [exact H4|]. congruence.
Qed.

Lemma X5_copy_commands_witness :
  trace (snd (copy_tree (env_with (failing [(Cp "README", 1%Z)])) "raspios.img"
                "azurelinux_extracted"
                (mk_world tree_with_boot [] false [] [] mixed_root None [])))
  = [CpA "boot"; CpA "etc"; Cp "README"] /\
  fst (copy_tree (env_with (failing [(Cp "README", 1%Z)])) "raspios.img"
         "azurelinux_extracted"
         (mk_world tree_with_boot [] false [] [] mixed_root None []))
  <> Ok tt.
Proof.
  destruct (X5_copy_commands (env_with (failing [(Cp "README", 1%Z)])) "raspios.img"
              "azurelinux_extracted"
              (mk_world tree_with_boot [] false [] [] mixed_root None [])
              [("boot", Dir [("grub.cfg", File "g")]);
               ("etc", Dir [("os-release", File "azl")]); ("README", File "r")]
              [("boot", Dir [("kernel.img", File "k")]); ("swapfile", File "s");
               ("etc", Dir [("passwd", File "root")]); ("usr", Dir [("lib", Dir [])])]
              (fst (copy_tree (env_with (failing [(Cp "README", 1%Z)])) "raspios.img"
                      "azurelinux_extracted"
                      (mk_world tree_with_boot [] false [] [] mixed_root None [])))
              (snd (copy_tree (env_with (failing [(Cp "README", 1%Z)])) "raspios.img"
                      "azurelinux_extracted"
                      (mk_world tree_with_boot [] false [] [] mixed_root None []))))
    as [H1 [H2 _]];
    [reflexivity|vm_compute; reflexivity|reflexivity|vm_compute; reflexivity|].
  split; [rewrite H1; vm_compute; reflexivity|].
  intros Hok. apply H2 in Hok. vm_compute in Hok. discriminate Hok.
Defined.

Lemma set_entry_absent {A : Type} (k : string) (v : A) (l : list (string * A)) :
  assoc k l = None -> set_entry k v l = (l ++ [(k, v)])%list.
Proof.
  induction l as [|[k' x] l IH]; simpl; [reflexivity|].
  destruct (String.eqb k' k); [discriminate|]. intros H. now rewrite IH.
Qed.

Lemma assoc_snoc_other {A : Type} (k name : string) (v : A) (l : list (string * A)) :
  name <> k -> assoc name (l ++ [(k, v)])%list = assoc name l.
Proof.
  intros Hne. induction l as [|[k' x] l IH]; simpl.
  - destruct (String.eqb_spec k name); [congruence|reflexivity].
  - destruct (String.eqb k' name); [reflexivity|exact IH].
Qed.

(** Copying a directory with distinct names onto entries that are not there
    adds its entries as they are. *)
Lemma overlay_entries_fresh (ns : list (string * node)) : forall acc,
  NoDup (names ns) ->
  (forall name, In name (names ns) -> assoc name acc = None) ->
  (fix go (l : list (string * node)) (acc : list (string * node)) :=
     match l with
     | [] => acc
     | (name, n) :: l' =>
         go l' (set_entry name
                  (match assoc name acc with
                   | Some o => overlay n o
                   | None => n
                   end) acc)
     end) ns acc = (acc ++ ns)%list.
Proof.
  induction ns as [|[name n] ns IH]; intros acc Hnd Hfresh.
  - now rewrite app_nil_r.
  - unfold names in Hnd. simpl in Hnd. inversion Hnd as [|x l Hnotin Hnd']. subst x l.
    rewrite (Hfresh name) by now left.
    rewrite set_entry_absent by (apply Hfresh; now left).
    rewrite IH.
    + now rewrite <- app_assoc.
    + exact Hnd'.
    + intros name' Hin. rewrite assoc_snoc_other.
      * apply Hfresh. now right.
      * intros ->. contradiction.
Qed.

Lemma overlay_onto_empty (n : node) : wf_node n = true -> overlay n (Dir []) = n.
Proof.
  destruct n as [d|ms|ns]; try reflexivity.
  intros Hwf. destruct (wf_dir_names ns Hwf) as [Hnd _].
  simpl. f_equal. now apply (overlay_entries_fresh ns []).
Qed.

Lemma wf_entry (es : list (string * node)) (name : string) (n : node) :
  wf_node (Dir es) = true -> In (name, n) es -> wf_node n = true.
Proof.
  simpl. rewrite !andb_true_iff. intros [_ Hall] Hin.
  rewrite forallb_forall in Hall. exact (Hall (name, n) Hin).
Qed.

(** X6.  After a copy that returns normally, a top-level entry of the
    replacement tree whose name is not a directory of the mounted root is in
    the root with the very same content.  An entry whose name is a directory
    the root already has - [boot], which the wipe keeps - is not merged into
    it: the copy lands inside that directory, under its own name.  There it
    has the very content of the entry when the directory had nothing of that
    name, and is laid over what the directory had under that name otherwise;
    the directory's other entries stay as they are. *)
Theorem X6_copy_placement
    (E : env) (raspbian azurelinux : string) (w : world)
    (es rs : list (string * node)) (w' : world) :
  azl_tree w = Dir es -> wf_node (Dir es) = true ->
  rootfs w = Dir rs ->
  copy_tree E raspbian azurelinux w = (Ok tt, w') ->
  forall name n, In (name, n) es ->
    (is_dir (child name (rootfs w)) = false -> child name (rootfs w') = Some n) /\
    (forall ds, child name (rootfs w) = Some (Dir ds) ->
       walk [name; name] (rootfs w')
       = Some (match assoc name ds with
               | Some old => overlay n old
               | None => n
               end) /\
       forall c, c <> name -> walk [name; c] (rootfs w') = assoc c ds).
Proof.
  intros Hazl Hwf Hroot Hrun name n Hin.
  rewrite (copy_as_loop E raspbian azurelinux es w Hazl) in Hrun.
  destruct (wf_dir_names es Hwf) as [Hnd Hval].
  destruct (copy_loop E raspbian azurelinux es es rs w (Ok tt) w' Hazl Hroot Hnd Hval)
    as [rs' [H1 [_ [_ [_ [_ H6]]]]]]; [|exact Hrun|].
  { intros [k v] Hp. now apply assoc_in_nodup. }
  specialize (H6 eq_refl (name, n) Hin). cbn [fst snd] in H6.
  rewrite H1, Hroot. simpl. rewrite H6. split.
  - intros Hd. unfold copied.
    destruct (assoc name rs) as [[d|ms|ds]|]; try reflexivity. discriminate Hd.
  - intros ds Hds. rewrite Hds. unfold copied. cbn [graft].
    cbn [child]. rewrite assoc_set_entry_same. split.
    + destruct (assoc name ds) as [old|]; [reflexivity|].
      now rewrite (overlay_onto_empty n (wf_entry es name n Hwf Hin)).
    + intros c Hc. rewrite assoc_set_entry_other; [|exact Hc].
      destruct (assoc c ds); reflexivity.
Qed.

Lemma X6_copy_placement_witness :
  child "README"
    (rootfs (snd (copy_tree (env_with (failing [])) "raspios.img" "azurelinux_extracted"
                    (mk_world tree_with_boot [] false [] []
                       (Dir [("boot", Dir [("kernel.img", File "k")])]) None []))))
  = Some (File "r") /\
  walk ["boot"; "boot"]
    (rootfs (snd (copy_tree (env_with (failing [])) "raspios.img" "azurelinux_extracted"
                    (mk_world tree_with_boot [] false [] []
                       (Dir [("boot", Dir [("kernel.img", File "k")])]) None []))))
  = Some (Dir [("grub.cfg", File "g")]) /\
  walk ["boot"; "kernel.img"]
    (rootfs (snd (copy_tree (env_with (failing [])) "raspios.img" "azurelinux_extracted"
                    (mk_world tree_with_boot [] false [] []
                       (Dir [("boot", Dir [("kernel.img", File "k")])]) None []))))
  = Some (File "k").
Proof.
  pose proof (X6_copy_placement (env_with (failing [])) "raspios.img"
                "azurelinux_extracted"
                (mk_world tree_with_boot [] false [] []
                   (Dir [("boot", Dir [("kernel.img", File "k")])]) None [])
                [("boot", Dir [("grub.cfg", File "g")]);
                 ("etc", Dir [("os-release", File "azl")]); ("README", File "r")]
                [("boot", Dir [("kernel.img", File "k")])]
                (snd (copy_tree (env_with (failing [])) "raspios.img"
                        "azurelinux_extracted"
                        (mk_world tree_with_boot [] false [] []
                           (Dir [("boot", Dir [("kernel.img", File "k")])]) None [])))
                eq_refl ltac:(vm_compute; reflexivity) eq_refl
                ltac:(vm_compute; reflexivity)) as H.
  split.
  - apply (H "README" (File "r")); [simpl; tauto|reflexivity].
  - destruct (H "boot" (Dir [("grub.cfg", File "g")])) as [_ H2]; [simpl; tauto|].
    destruct (H2 [("kernel.img", File "k")] eq_refl) as [H4 H3].
    split; [exact H4|].
    rewrite (H3 "kernel.img"); [reflexivity|discriminate].
Defined.

(** ** Files written by the session set-up *)

Lemma set_entry_idem {A : Type} (k : string) (v : A) (l : list (string * A)) :
  set_entry k v (set_entry k v l) = set_entry k v l.
Proof.
  induction l as [|[k' x] l IH]; simpl.
  - now rewrite String.eqb_refl.
  - destruct (String.eqb_spec k' k) as [->|Hne]; simpl.
    + now rewrite String.eqb_refl.
    + destruct (String.eqb_spec k' k); [contradiction|now rewrite IH].
Qed.

Lemma put_at_lookup (p : list string) (n : node) : forall t t',
  put_at p n t = Some t' -> walk p t' = Some n.
Proof.
  induction p as [|c p IH]; intros t t'; [discriminate|].
  destruct t as [d|ms|es]; try discriminate.
  destruct p as [|c' p].
  - simpl. intros [= <-]. simpl. now rewrite assoc_set_entry_same.
  - change (put_at (c :: c' :: p) n (Dir es))
      with (match assoc c es with
            | Some m =>
                match put_at (c' :: p) n m with
                | Some m' => Some (Dir (set_entry c m' es))
                | None => None
                end
            | None => None
            end).
    destruct (assoc c es) as [m|]; [|discriminate].
    destruct (put_at (c' :: p) n m) as [m'|] eqn:Hm; [|discriminate].
    intros [= <-].
    change (walk (c :: c' :: p) (Dir (set_entry c m' es)))
      with (match assoc c (set_entry c m' es) with
            | Some x => walk (c' :: p) x
            | None => None
            end).
    rewrite assoc_set_entry_same. eapply IH; eauto.
Qed.

Lemma put_at_idem (p : list string) (n : node) : forall t t',
  put_at p n t = Some t' -> put_at p n t' = Some t'.
Proof.
  induction p as [|c p IH]; intros t t'; [discriminate|].
  destruct t as [d|ms|es]; try discriminate.
  destruct p as [|c' p].
  - simpl. intros [= <-]. simpl. now rewrite set_entry_idem.
  - change (put_at (c :: c' :: p) n (Dir es))
      with (match assoc c es with
            | Some m =>
                match put_at (c' :: p) n m with
                | Some m' => Some (Dir (set_entry c m' es))
                | None => None
                end
            | None => None
            end).
    destruct (assoc c es) as [m|]; [|discriminate].
    destruct (put_at (c' :: p) n m) as [m'|] eqn:Hm; [|discriminate].
    intros [= <-].
    change (put_at (c :: c' :: p) n (Dir (set_entry c m' es)))
      with (match assoc c (set_entry c m' es) with
            | Some x =>
                match put_at (c' :: p) n x with
                | Some x' => Some (Dir (set_entry c x' (set_entry c m' es)))
                | None => None
                end
            | None => None
            end).
    rewrite assoc_set_entry_same, (IH _ _ Hm), set_entry_idem. reflexivity.
Qed.

(** Writing one file of a directory leaves its siblings alone. *)
Lemma put_at_sibling (c x y : string) (n : node) (t t' : node) :
  put_at [c; x] n t = Some t' -> y <> x -> walk [c; y] t' = walk [c; y] t.
Proof.
  destruct t as [d|ms|es]; try discriminate. simpl.
  destruct (assoc c es) as [m|] eqn:Hc; [|discriminate].
  destruct m as [d|ms|ds]; try discriminate.
  intros [= <-] Hne. simpl. rewrite assoc_set_entry_same. simpl.
  rewrite assoc_set_entry_other; [|exact Hne]. reflexivity.
Qed.

Lemma write_text_ok_inv (azurelinux rel data : string) (w w' : world) :
  write_text azurelinux rel data w = (Ok tt, w') ->
  exists t', put_at (path_of rel) (File data) (azl_tree w) = Some t' /\
             w' = set_azl_tree t' w.
Proof.
  unfold write_text. destruct (path_isdir (azl_tree w) rel); [discriminate|].
  destruct (put_at (path_of rel) (File data) (azl_tree w)) as [t'|]; [|discriminate].
  intros [= <-]. eauto.
Qed.

(** X7.  Writing a file into the replacement tree twice is the same as
    writing it once: when [write_text] has returned normally, the file holds
    exactly the text written, and writing the same text again returns
    normally and changes nothing (the generation of [etc/fstab] and
    [etc/hostname] is idempotent). *)
Theorem X7_write_text_idempotent
    (azurelinux rel data : string) (w w' : world) :
  write_text azurelinux rel data w = (Ok tt, w') ->
  resolve_path (azl_tree w') rel = Some (File data) /\
  write_text azurelinux rel data w' = (Ok tt, w').
Proof.
  intros Hrun. apply write_text_ok_inv in Hrun. destruct Hrun as [t' [Hput ->]].
  assert (Hl : resolve_path t' rel = Some (File data))
    by (unfold resolve_path; eapply put_at_lookup; eauto).
  split; [exact Hl|].
  unfold write_text, path_isdir. cbn [azl_tree set_azl_tree]. rewrite Hl.
  cbn [is_dir]. rewrite (put_at_idem _ _ _ _ Hput). reflexivity.
Qed.

Lemma X7_write_text_idempotent_witness :
  resolve_path
    (azl_tree (snd (write_text "azurelinux_extracted" "etc/fstab" FSTAB
                      (start donor_root None)))) "etc/fstab"
  = Some (File FSTAB) /\
  write_text "azurelinux_extracted" "etc/fstab" FSTAB
    (snd (write_text "azurelinux_extracted" "etc/fstab" FSTAB (start donor_root None)))
  = (Ok tt,
     snd (write_text "azurelinux_extracted" "etc/fstab" FSTAB (start donor_root None))).
Proof.
  apply (X7_write_text_idempotent "azurelinux_extracted" "etc/fstab" FSTAB
           (start donor_root None)).
  vm_compute. reflexivity.
Defined.

(** X8.  After a set-up that returned normally, [etc/fstab] holds the
    three fixed lines and [etc/hostname] the fixed name: the later write of
    the hostname does not disturb the fstab written before it. *)
Theorem X8_setup_writes_fstab_and_hostname
    (E : env) (raspbian azurelinux : string) (w w1 : world) :
  session_setup E raspbian azurelinux w = (Ok tt, w1) ->
  resolve_path (azl_tree w1) "etc/fstab" = Some (File FSTAB) /\
  resolve_path (azl_tree w1) "etc/hostname" = Some (File HOSTNAME).
Proof.
  intros Hrun. unfold session_setup in Hrun.
  apply bind_ok_inv in Hrun. destruct Hrun as [[] [wa [_ Hrun]]].
  apply bind_ok_inv in Hrun. destruct Hrun as [[] [wb [_ Hrun]]].
  apply bind_ok_inv in Hrun. destruct Hrun as [[] [wc [Hf Hh]]].
  apply write_text_ok_inv in Hf. destruct Hf as [tf [Hf ->]].
  apply write_text_ok_inv in Hh. destruct Hh as [th [Hh ->]].
  cbn [azl_tree set_azl_tree] in *.
  change (path_of "etc/fstab") with ["etc"; "fstab"] in Hf.
  change (path_of "etc/hostname") with ["etc"; "hostname"] in Hh.
  unfold resolve_path.
  change (path_of "etc/fstab") with ["etc"; "fstab"].
  change (path_of "etc/hostname") with ["etc"; "hostname"].
  split; [|eapply put_at_lookup; eauto].
  rewrite (put_at_sibling "etc" "hostname" "fstab" _ _ _ Hh); [|discriminate].
  eapply put_at_lookup; eauto.
Qed.

Lemma X8_setup_writes_fstab_and_hostname_witness :
  resolve_path
    (azl_tree (snd (session_setup (env_with (failing [])) "raspios.img"
                      "azurelinux_extracted" (start donor_root None)))) "etc/fstab"
  = Some (File FSTAB).
Proof.
  apply (X8_setup_writes_fstab_and_hostname (env_with (failing [])) "raspios.img"
           "azurelinux_extracted" (start donor_root None)).
  vm_compute. reflexivity.
Defined.

(** ** Normal return *)

Lemma try_finally_ok_inv {A : Type} (body : M A) (fin : M unit)
    (w : world) (a : A) (w' : world) :
  try_finally body fin w = (Ok a, w') ->
  exists wb, body w = (Ok a, wb) /\ fin wb = (Ok tt, w').
Proof.
  unfold try_finally. destruct (body w) as [[x|e] wb].
  - destruct (fin wb) as [[[]|e'] wf] eqn:Hf; [|discriminate].
    intros [= <- <-]. exists wb. auto.
  - destruct (fin wb) as [[[]|e'] wf]; discriminate.
Qed.

Lemma block_result_ok_inv (E : env) (raspbian azurelinux : string)
    (l : list action) (w w' : world) :
  block_result E raspbian azurelinux (run_block E l w) = (Ok tt, w') ->
  first_failed E l = None /\ w' = snd (run_block E l w).
Proof.
  pose proof (run_block_failed E l w) as Hf.
  destruct (run_block E l w) as [[c|] wf]; [discriminate|].
  cbn [fst] in Hf. intros [= <-]. auto.
Qed.

Lemma session_ok_inv (E : env) (raspbian azurelinux : string) (w w' : world) :
  provisioning_session E raspbian azurelinux w = (Ok tt, w') ->
  first_failed E SESSION_RELEASE = None /\
  exists wb, w' = snd (run_block E SESSION_RELEASE wb).
Proof.
  intros Hrun. unfold provisioning_session in Hrun.
  apply bind_ok_inv in Hrun. destruct Hrun as [[] [w1 [_ Hrun]]].
  apply try_finally_ok_inv in Hrun. destruct Hrun as [wb [_ Hrel]].
  rewrite session_release_block in Hrel.
  apply block_result_ok_inv in Hrel. destruct Hrel as [Hf ->]. eauto.
Qed.

Lemma session_return_clean (E : env) (raspbian azurelinux : string) (w w' : world) :
  provisioning_session E raspbian azurelinux w = (Ok tt, w') ->
  bindings_released w' /\
  path_exists (azl_tree w') "etc/resolv.conf" = false.
Proof.
  intros Hrun. apply session_ok_inv in Hrun. destruct Hrun as [Hf [wb ->]].
  split; [now apply session_release_binds|].
  rewrite session_release_tree; [apply resolv_conf_gone|].
  unfold first_failed, SESSION_RELEASE in Hf. simpl in Hf.
  destruct (succeeds E RmResolv) eqn:Hs; [now apply succeeds_true|discriminate].
Qed.

(** X9.  Every normal return of the provisioning session leaves none of
    [dev], [proc] and [sys] bound into the replacement tree and no
    [etc/resolv.conf] in it. *)
Theorem X9_session_return_is_clean
    (E : env) (raspbian azurelinux : string) (w w' : world) :
  provisioning_session E raspbian azurelinux w = (Ok tt, w') ->
  bindings_released w' /\
  path_exists (azl_tree w') "etc/resolv.conf" = false.
Proof.
  intros Hrun. apply session_ok_inv in Hrun. destruct Hrun as [Hf [wb ->]].
  split; [now apply session_release_binds|].
  rewrite session_release_tree; [apply resolv_conf_gone|].
  unfold first_failed, SESSION_RELEASE in Hf. simpl in Hf.
  destruct (succeeds E RmResolv) eqn:Hs; [now apply succeeds_true|discriminate].
Qed.

Lemma X9_session_return_is_clean_witness :
  binds (snd (provisioning_session (env_with (failing [])) "raspios.img"
                "azurelinux_extracted" (start donor_root None))) = [] /\
  bindings_released
    (snd (provisioning_session (env_with (failing [])) "raspios.img"
            "azurelinux_extracted" (start donor_root None))).
Proof.
  split; [vm_compute; reflexivity|].
  apply (X9_session_return_is_clean (env_with (failing [])) "raspios.img"
           "azurelinux_extracted" (start donor_root None)).
  vm_compute. reflexivity.
Defined.

Lemma restore_ok_staging (E : env) (raspbian azurelinux : string) (w w' : world) :
  restore E raspbian azurelinux w = (Ok tt, w') -> staging w' = None.
Proof.
  unfold restore, bind at 1, gets. destruct (staging w) as [t|] eqn:Hs; cbn [is_some].
  - intros Hrun. apply bind_ok_inv in Hrun. destruct Hrun as [[] [w1 [_ Hrm]]].
    apply run_ok_inv in Hrm. destruct Hrm as [_ ->]. reflexivity.
  - intros [= <-]. exact Hs.
Qed.

Lemma body_ok_staging (E : env) (raspbian azurelinux : string) (w w' : world) :
  mount_and_replace E raspbian azurelinux w = (Ok tt, w') -> staging w' = None.
Proof.
  intros Hrun. unfold mount_and_replace in Hrun.
  apply bind_ok_inv in Hrun. destruct Hrun as [[] [w1 [_ Hrun]]].
  apply bind_ok_inv in Hrun. destruct Hrun as [[] [w2 [_ Hrun]]].
  apply bind_ok_inv in Hrun. destruct Hrun as [dirs [w3 [_ Hrun]]].
  apply bind_ok_inv in Hrun. destruct Hrun as [[] [w4 [_ Hrun]]].
  apply bind_ok_inv in Hrun. destruct Hrun as [[] [w5 [_ Hrun]]].
  apply bind_ok_inv in Hrun. destruct Hrun as [[] [w6 [_ Hrun]]].
  eapply restore_ok_staging; eauto.
Qed.

(** X10.  Every normal return of [combine_images] leaves nothing behind:
    the loop device is detached, nothing is mounted, both mount-point
    directories are removed, no archive is left at the staging path, none of
    [dev], [proc], [sys] is bound and the replacement tree has no
    [etc/resolv.conf]. *)
Theorem X10_normal_return_leaves_nothing
    (E : env) (raspbian azurelinux : string) (w w' : world) :
  combine_images E raspbian azurelinux w = (Ok tt, w') ->
  loop_attached w' = false /\
  (forall p, ~ In p (mounted w')) /\
  (forall p, ~ In p (mount_dirs w')) /\
  staging w' = None /\
  bindings_released w' /\
  path_exists (azl_tree w') "etc/resolv.conf" = false.
Proof.
  intros Hrun. unfold combine_images in Hrun.
  apply bind_ok_inv in Hrun. destruct Hrun as [[] [w1 [Hs Hb]]].
  destruct (session_return_clean E raspbian azurelinux w w1 Hs) as [Hbind Hres].
  assert (Hattach : first_failed E ATTACH_AND_CHECK = None).
  { rewrite block_device_stage_block in Hb.
    pose proof (run_block_failed E ATTACH_AND_CHECK w1) as Hf.
    destruct (run_block E ATTACH_AND_CHECK w1) as [[c|] w2]; [discriminate|].
    exact (eq_sym Hf). }
  assert (Hbody : exists w2 wb,
             mount_and_replace E raspbian azurelinux w2 = (Ok tt, wb) /\
             release E raspbian azurelinux wb = (Ok tt, w')).
  { rewrite block_device_stage_block in Hb.
    destruct (run_block E ATTACH_AND_CHECK w1) as [[c|] w2]; [discriminate|].
    apply try_finally_ok_inv in Hb. destruct Hb as [wb [H1 H2]]. eauto. }
  destruct Hbody as [w2 [wb [Hbody Hrel]]].
  assert (Hrelease : first_failed E RELEASE = None).
  { rewrite release_block in Hrel. now apply block_result_ok_inv in Hrel. }
  destruct (released_after_try E raspbian azurelinux w1 (Ok tt) w' Hattach Hrelease Hb)
    as [Hl [Hm Hd]].
  split; [exact Hl|]. split; [exact Hm|]. split; [exact Hd|]. split.
  - destruct (release_spec E raspbian azurelinux wb) as [rf [w4 [Hrel' [_ [Hst _]]]]].
    rewrite Hrel in Hrel'. injection Hrel' as _ <-.
    rewrite Hst. eapply body_ok_staging; eauto.
  - assert (Hbinds : binds w' = binds w1).
    { exact (uses_frame E block_action false
               (block_device_stage E raspbian azurelinux) binds w1 (Ok tt) w'
               (effect_binds_block E) (fun _ _ => eq_refl) ltac:(discriminate)
               (uses_block_device_stage E raspbian azurelinux) Hb). }
    assert (Htree : azl_tree w' = azl_tree w1).
    { exact (uses_frame E block_action false
               (block_device_stage E raspbian azurelinux) azl_tree w1 (Ok tt) w'
               (effect_azl_tree_block E) (fun _ _ => eq_refl) ltac:(discriminate)
               (uses_block_device_stage E raspbian azurelinux) Hb). }
    split; [|now rewrite Htree].
    intros fs Hfs. rewrite Hbinds. now apply Hbind.
Qed.

Lemma X10_normal_return_leaves_nothing_witness :
  fst (combine_images (env_with (failing [])) "raspios.img" "azurelinux_extracted"
         (start donor_root None)) = Ok tt /\
  staging (snd (combine_images (env_with (failing [])) "raspios.img"
                  "azurelinux_extracted" (start donor_root None))) = None /\
  loop_attached (snd (combine_images (env_with (failing [])) "raspios.img"
                        "azurelinux_extracted" (start donor_root None))) = false.
Proof.
  destruct (X10_normal_return_leaves_nothing (env_with (failing [])) "raspios.img"
              "azurelinux_extracted" (start donor_root None)
              (snd (combine_images (env_with (failing [])) "raspios.img"
                      "azurelinux_extracted" (start donor_root None))))
    as [H1 [_ [_ [H2 _]]]]; [vm_compute; reflexivity|].
  split; [vm_compute; reflexivity|]. split; [exact H2|exact H1].
Defined.

(** ** The staged archive *)

Lemma preservation_set_root_dir (E : env) (root : node) (ds : list string) :
  preservation_set E root = Ok ds -> exists es, root = Dir es.
Proof.
  destruct root as [d|ms|es]; [| |eauto];
    unfold preservation_set, listdir, resolve_path; simpl; discriminate.
Qed.

Lemma effect_tar_extract_staging (E : env) (x : world) :
  staging (effect E TarExtract x) = staging x.
Proof. simpl. destruct (staging x) as [[d|ms|es]|] eqn:H; simpl; congruence. Qed.

Section Staged.

Variable E : env.
Variables raspbian azurelinux : string.

Lemma archive_stages (w : world) (es : list (string * node)) (d : string) (ds : list string) :
  rootfs w = Dir es ->
  first_failed E [TarCreate (d :: ds); MvArchive] = None ->
  exists w4,
    archive E raspbian azurelinux (d :: ds) w = (Ok tt, w4) /\
    staging w4 = Some (Tar (collect (d :: ds) (rootfs w))).
Proof.
  intros Hroot Hf. rewrite archive_block.
  unfold first_failed in Hf. simpl in Hf. cbn [run_block].
  destruct (succeeds E (TarCreate (d :: ds))); [|discriminate].
  destruct (succeeds E MvArchive); [|discriminate].
  eexists. split; [reflexivity|].
  simpl. rewrite Hroot. simpl. rewrite assoc_set_entry_same. reflexivity.
Qed.

Lemma swap_restore_raise_keeps_staging (w : world) (t : node) (e : exn) (wb : world) :
  staging w = Some t ->
  (wipe E raspbian azurelinux ;; copy_tree E raspbian azurelinux ;;
   restore E raspbian azurelinux) w = (Raise e, wb) ->
  staging wb = Some t.
Proof.
  intros Hst. unfold bind at 1.
  destruct (wipe E raspbian azurelinux w) as [[[]|e1] wa] eqn:Hw;
    pose proof (uses_frame E swap_action false (wipe E raspbian azurelinux)
                  staging w _ wa (effect_staging_swap E) (fun _ _ => eq_refl)
                  ltac:(discriminate) (uses_wipe E raspbian azurelinux) Hw) as Ha.
  2: { intros [= _ <-]. congruence. }
  unfold bind at 1.
  destruct (copy_tree E raspbian azurelinux wa) as [[[]|e2] wc] eqn:Hc;
    pose proof (uses_frame E swap_action false (copy_tree E raspbian azurelinux)
                  staging wa _ wc (effect_staging_swap E) (fun _ _ => eq_refl)
                  ltac:(discriminate) (uses_copy_tree E raspbian azurelinux) Hc) as Hb.
  2: { intros [= _ <-]. congruence. }
  assert (Hsc : staging wc = Some t) by congruence.
  unfold restore, bind at 1, gets. rewrite Hsc. cbn [is_some].
  unfold bind, run.
  destruct (Z.eqb (status E TarExtract) 0).
  - destruct (Z.eqb (status E RmArchive) 0); [discriminate|].
    intros [= _ <-].
    change (staging (effect E TarExtract (log TarExtract wc)) = Some t).
    rewrite effect_tar_extract_staging. exact Hsc.
  - intros [= _ <-]. exact Hsc.
Qed.

End Staged.

(** X11.  When the archive was created and moved to the staging path and
    the pipeline then fails (in the wipe, the copy or the restore) while the
    release commands succeed, [combine_images] returns with the archive
    still at the staging path: nothing removes it on the way out. *)
Theorem X11_failure_leaves_archive_staged
    (E : env) (raspbian azurelinux : string) (w w1 : world)
    (dirs : list string) (e : exn) (w' : world) :
  provisioning_session E raspbian azurelinux w = (Ok tt, w1) ->
  first_failed E (ATTACH_AND_CHECK ++ MOUNTS ++ [TarCreate dirs; MvArchive]) = None ->
  preservation_set E (rootfs w) = Ok dirs ->
  dirs <> [] ->
  first_failed E RELEASE = None ->
  combine_images E raspbian azurelinux w = (Raise e, w') ->
  staging w' = Some (Tar (collect dirs (rootfs w))).
Proof.
  intros Hs Hff Hp Hne Hrelok Hrun.
  apply first_failed_app_none in Hff. destruct Hff as [Hfa Hff].
  apply first_failed_app_none in Hff. destruct Hff as [Hfm Hft].
  destruct (preservation_set_root_dir E _ _ Hp) as [es Hes].
  destruct (session_frame E raspbian azurelinux w _ _ Hs) as [Hr1 _].
  rewrite (combine_after_session _ _ _ _ _ Hs), block_device_stage_block in Hrun.
  destruct (attach_spec E w1) as [o [w2 [Hrb [Ho [Hr2 _]]]]].
  rewrite Hrb, Ho, Hfa in Hrun.
  destruct (try_finally_world _ _ _ _ _ Hrun) as [rb [wb [rf [Hbody Hrel]]]].
  destruct (release_spec E raspbian azurelinux wb) as [rf' [w4 [Hrel' [_ [Hst _]]]]].
  rewrite Hrel in Hrel'. injection Hrel' as _ <-. rewrite Hst.
  pose proof (release_ok E raspbian azurelinux wb Hrelok) as Hrf.
  rewrite Hrel in Hrf. cbn [fst] in Hrf. subst rf.
  destruct rb as [[]|eb].
  { unfold try_finally in Hrun. rewrite Hbody, Hrel in Hrun. discriminate. }
  rewrite mount_and_replace_block in Hbody.
  destruct (mounts_spec E w2) as [o3 [w3 [Hrb3 [Ho3 [Hr3 _]]]]].
  rewrite Hrb3, Ho3, Hfm in Hbody.
  unfold replace_steps, bind at 1, resolve_preservation_set in Hbody.
  rewrite Hr3, Hr2, Hr1, Hp in Hbody. unfold bind at 1 in Hbody.
  destruct dirs as [|d ds]; [congruence|].
  destruct (archive_stages E raspbian azurelinux w3 es d ds) as [w5 [Harch Hst5]];
    [congruence|exact Hft|].
  rewrite Harch in Hbody.
  rewrite (swap_restore_raise_keeps_staging E raspbian azurelinux w5 _ eb wb Hst5 Hbody).
  now rewrite Hr3, Hr2, Hr1.
Qed.

Lemma X11_failure_leaves_archive_staged_witness :
  staging (snd (combine_images (env_with (failing [(CpA "etc", 1%Z)])) "raspios.img"
                  "azurelinux_extracted" (start donor_root None)))
  = Some (Tar (collect ["usr/lib/modules"; "usr/src"; "usr/lib/firmware";
                        "usr/lib/raspberrypi-sys-mods"] donor_root)).
Proof.
  apply (X11_failure_leaves_archive_staged
           (env_with (failing [(CpA "etc", 1%Z)])) "raspios.img"
           "azurelinux_extracted" (start donor_root None)
           (snd (provisioning_session (env_with (failing [(CpA "etc", 1%Z)]))
                   "raspios.img" "azurelinux_extracted" (start donor_root None)))
           ["usr/lib/modules"; "usr/src"; "usr/lib/firmware";
            "usr/lib/raspberrypi-sys-mods"]
           (fresh (CalledProcessError
                     ["sudo"; "cp"; "-a"; "azurelinux_extracted/etc"; "/tmp/mnt_root_b/etc"]
                     1)));
    try (vm_compute; reflexivity).
  discriminate.
Defined.

(** ** The salt of the root password *)

Lemma hex_digit_value (d : N) :
  (d < 16)%N -> hex_value (hex_digit d) = d /\ is_hex_digit (hex_digit d) = true.
Proof.
  intros H. destruct d as [|p]; [split; reflexivity|].
  do 4 (destruct p as [p|p|]; try (split; reflexivity)); exfalso; lia.
Qed.

Lemma unhex_hex (bs : list N) :
  Forall (fun b => (b < 256)%N) bs -> unhex (hex bs) = bs.
Proof.
  induction 1 as [|b bs Hb Hbs IH]; [reflexivity|].
  cbn [hex unhex]. rewrite IH.
  assert (H1 : (b / 16 < 16)%N) by (apply N.Div0.div_lt_upper_bound; lia).
  assert (H2 : (b mod 16 < 16)%N) by (apply N.mod_lt; lia).
  rewrite (proj1 (hex_digit_value _ H1)), (proj1 (hex_digit_value _ H2)).
  f_equal. rewrite (N.div_mod b 16) at 3; lia.
Qed.

Lemma hex_digits (bs : list N) :
  Forall (fun b => (b < 256)%N) bs ->
  forallb is_hex_digit (list_ascii_of_string (hex bs)) = true.
Proof.
  induction 1 as [|b bs Hb Hbs IH]; [reflexivity|].
  cbn [hex list_ascii_of_string forallb]. rewrite IH.
  assert (H1 : (b / 16 < 16)%N) by (apply N.Div0.div_lt_upper_bound; lia).
  assert (H2 : (b mod 16 < 16)%N) by (apply N.mod_lt; lia).
  now rewrite (proj2 (hex_digit_value _ H1)), (proj2 (hex_digit_value _ H2)).
Qed.

Lemma to_bytes_big_bytes (len : nat) : forall n,
  Forall (fun b => (b < 256)%N) (to_bytes_big len n).
Proof.
  induction len as [|k IH]; intros n; simpl; [constructor|].
  apply Forall_app. split; [apply IH|].
  constructor; [apply N.mod_lt; lia|constructor].
Qed.

Lemma from_bytes_big_snoc (l : list N) (b : N) :
  from_bytes_big (l ++ [b]) = (256 * from_bytes_big l + b)%N.
Proof. unfold from_bytes_big. now rewrite fold_left_app. Qed.

Lemma from_to_bytes_big (len : nat) : forall n,
  from_bytes_big (to_bytes_big len n) = (n mod 256 ^ N.of_nat len)%N.
Proof.
  induction len as [|k IH]; intros n.
  - simpl. now rewrite N.mod_1_r.
  - cbn [to_bytes_big]. rewrite from_bytes_big_snoc, IH.
    rewrite Nat2N.inj_succ, N.pow_succ_r', N.Div0.mod_mul_r. lia.
Qed.

(** X12.  The salt handed to the hash function is 16 lower-case
    hexadecimal digits, and it carries all 64 random bits: decoding it
    ([bytes.fromhex], then [int.from_bytes(..., 'big')]) gives back the
    number drawn, so two different draws never give the same salt. *)
Theorem X12_salt_carries_the_random_bits (E : env) :
  String.length (password_salt E) = 16 /\
  forallb is_hex_digit (list_ascii_of_string (password_salt E)) = true /\
  from_bytes_big (unhex (password_salt E)) = (random_source E mod 2 ^ 64)%N /\
  (forall E', password_salt E = password_salt E' ->
     (random_source E mod 2 ^ 64)%N = (random_source E' mod 2 ^ 64)%N).
Proof.
  assert (Hdec : forall F, from_bytes_big (unhex (password_salt F))
                           = (random_source F mod 2 ^ 64)%N).
  { intros F. unfold password_salt.
    rewrite unhex_hex by apply to_bytes_big_bytes.
    rewrite from_to_bytes_big.
    change (256 ^ N.of_nat 8)%N with (2 ^ 64)%N.
    now rewrite N.Div0.mod_mod. }
  split; [apply password_salt_length|].
  split; [unfold password_salt; apply hex_digits, to_bytes_big_bytes|].
  split; [apply Hdec|].
  intros E' Heq. rewrite <- (Hdec E), <- (Hdec E'). now rewrite Heq.
Qed.

Lemma X12_salt_carries_the_random_bits_witness :
  password_salt (env_with (failing [])) = "0123456789abcdef" /\
  from_bytes_big (unhex (password_salt (env_with (failing [])))) = 81985529216486895%N.
Proof.
  split; [vm_compute; reflexivity|].
  rewrite (proj1 (proj2 (proj2 (X12_salt_carries_the_random_bits (env_with (failing [])))))).
  vm_compute. reflexivity.
Defined.

(* ------------------------------------------------------------------------- *)
(** * The rest of the script: [download_file], [cleanup], [main] *)

Lemma htriple_bind {A B : Type} (P : host -> Prop) (m : H A) (f : A -> H B)
  (Q : A -> host -> Prop) (Q' : B -> host -> Prop) (R : host_exn -> host -> Prop) :
  htriple P m Q R -> (forall a, htriple (Q a) (f a) Q' R) ->
  htriple P (hbind m f) Q' R.
Proof.
  intros Hm Hf h r h' HP. unfold hbind.
  destruct (m h) as [[a|e] h1] eqn:Hmh.
  - intros Hfa. exact (Hf a h1 r h' (Hm h (HOk a) h1 HP Hmh) Hfa).
  - intros [= <- <-]. exact (Hm h (HRaise e) h1 HP Hmh).
Qed.

Lemma htriple_exists (P : host -> Prop) (x : string) (R : host_exn -> host -> Prop) :
  htriple P (hexists x) (fun b h => P h /\ exists_in (cwd h) x = b) R.
Proof.
  intros h r h' HP [= <- <-]. split; [exact HP|reflexivity].
Qed.

Lemma walk_one (x : string) (c : node) : walk [x] c = child x c.
Proof.
  simpl. destruct (child x c); reflexivity.
Qed.

Lemma valid_name_not_empty (x : string) : valid_name x = true -> x <> ""%string.
Proof.
  unfold valid_name. rewrite !andb_true_iff, !negb_true_iff.
  intros [[[He _] _] _]. now apply String.eqb_neq.
Qed.

Lemma exists_in_name (x : string) (c : node) :
  valid_name x = true -> exists_in c x = is_some (child x c).
Proof.
  intros Hv. unfold exists_in, path_exists, resolve_path.
  rewrite (path_of_valid x Hv), walk_one.
  apply valid_name_not_empty, String.eqb_neq in Hv. now rewrite Hv.
Qed.

Lemma resolve_name (x : string) (c : node) :
  valid_name x = true -> resolve_path c x = child x c.
Proof. intros Hv. unfold resolve_path. now rewrite (path_of_valid x Hv), walk_one. Qed.

Lemma write_file_name (x : string) (n c : node) :
  valid_name x = true -> write_file x n c = set_child x n c.
Proof.
  intros Hv. unfold write_file. rewrite (path_of_valid x Hv).
  destruct c; reflexivity.
Qed.

Lemma remove_at_name (x : string) (c : node) :
  valid_name x = true -> remove_at (path_of x) c = remove_child x c.
Proof. intros Hv. now rewrite (path_of_valid x Hv). Qed.

Lemma child_remove_same (x : string) (c : node) : child x (remove_child x c) = None.
Proof. destruct c; simpl; try reflexivity. apply assoc_remove_entry. Qed.

Lemma child_remove_other (x y : string) (c : node) :
  x <> y -> child x (remove_child y c) = child x c.
Proof. intros Hne. destruct c; simpl; try reflexivity. now apply assoc_remove_entry_other. Qed.

Lemma child_set_other (x y : string) (n c : node) :
  x <> y -> child x (set_child y n c) = child x c.
Proof. intros Hne. destruct c; simpl; try reflexivity. now apply assoc_set_entry_other. Qed.

Lemma child_set_dir (x y : string) (n m c : node) :
  child y c = Some m -> child x (set_child x n c) = Some n.
Proof.
  destruct c; simpl; try discriminate. intros _. apply assoc_set_entry_same.
Qed.

Lemma child_graft_other (x y : string) (n c : node) :
  x <> y -> child x (graft [y] n c) = child x c.
Proof.
  intros Hne. destruct c; simpl.
  - destruct (String.eqb_spec y x); [congruence|reflexivity].
  - destruct (String.eqb_spec y x); [congruence|reflexivity].
  - now apply assoc_set_entry_other.
Qed.

Lemma valid_img : valid_name RASPBIAN_IMG = true.
Proof. reflexivity. Qed.

Lemma valid_xz : valid_name RASPBIAN_XZ = true.
Proof. reflexivity. Qed.

Lemma valid_azl : valid_name AZL_IMAGE = true.
Proof. reflexivity. Qed.

Lemma valid_ext : valid_name EXTRACT_TO = true.
Proof. reflexivity. Qed.

Lemma valid_zst : valid_name (AZL_IMAGE ++ ".zst") = true.
Proof. reflexivity. Qed.

Lemma image_name : str_replace ".xz" "" RASPBIAN_XZ = RASPBIAN_IMG.
Proof. vm_compute. reflexivity. Qed.

(** An operation changes only the names it touches. *)
Ltac untouched H :=
  let E := fresh "E" in intro E; apply H; rewrite E; simpl; auto.

Lemma heffect_child (HE : host_env) (a : host_action) (x : string) (h : host) :
  ~ In x (touches a) -> child x (cwd (heffect HE a h)) = child x (cwd h).
Proof.
  intros Hx. destruct a; try reflexivity.
  - unfold heffect. cbn [cwd set_cwd]. rewrite (remove_at_name _ _ valid_ext).
    apply child_remove_other. untouched Hx.
  - unfold heffect. cbn [cwd set_cwd]. rewrite (path_of_valid _ valid_ext).
    apply child_graft_other. untouched Hx.
  - unfold heffect. rewrite (resolve_name _ _ valid_xz).
    destruct (child RASPBIAN_XZ (cwd h)) as [[d|ms|es]|]; try reflexivity.
    cbn [cwd set_cwd]. rewrite (write_file_name _ _ _ valid_img).
    apply child_set_other. untouched Hx.
  - unfold heffect. rewrite (resolve_name _ _ valid_img).
    destruct (child RASPBIAN_IMG (cwd h)) as [n|]; try reflexivity.
    cbn [cwd set_cwd]. rewrite (write_file_name _ _ _ valid_azl), (remove_at_name _ _ valid_img).
    rewrite child_set_other by untouched Hx. apply child_remove_other. untouched Hx.
  - unfold heffect. cbn [cwd set_cwd]. rewrite (remove_at_name _ _ valid_ext).
    apply child_remove_other. untouched Hx.
  - unfold heffect. cbn [cwd set_cwd]. rewrite (remove_at_name _ _ valid_img).
    apply child_remove_other. untouched Hx.
  - unfold heffect. rewrite (resolve_name _ _ valid_azl).
    destruct (child AZL_IMAGE (cwd h)) as [[d|ms|es]|]; try reflexivity.
    cbn [cwd set_cwd]. rewrite (write_file_name _ _ _ valid_zst).
    apply child_set_other. untouched Hx.
Qed.

Lemma heffect_trace (HE : host_env) (a : host_action) (h : host) :
  host_trace (heffect HE a h) = host_trace h.
Proof.
  destruct a; try reflexivity; unfold heffect.
  - now destruct (resolve_path (cwd h) RASPBIAN_XZ) as [[d|ms|es]|].
  - now destruct (resolve_path (cwd h) RASPBIAN_IMG) as [n|].
  - now destruct (resolve_path (cwd h) AZL_IMAGE) as [[d|ms|es]|].
Qed.

Lemma hbind_inv {A B : Type} (m : H A) (f : A -> H B) (h : host) (r : hresult B) (h' : host) :
  hbind m f h = (r, h') ->
  (exists a h1, m h = (HOk a, h1) /\ f a h1 = (r, h')) \/
  (exists e, m h = (HRaise e, h') /\ r = HRaise e).
Proof.
  unfold hbind. destruct (m h) as [[a|e] h1].
  - intros Hf. left. now exists a, h1.
  - intros [= <- <-]. right. now exists e.
Qed.

Lemma hrun_inv (HE : host_env) (a : host_action) (h : host) (r : hresult unit) (h' : host) :
  hrun HE a h = (r, h') ->
  (r = HOk tt /\ host_status HE a = 0%Z /\ h' = heffect HE a (hlog a h)) \/
  (r = HRaise (FromHost (HCalledProcessError (hargv HE a) (host_status HE a)))
   /\ host_status HE a <> 0%Z /\ h' = hlog a h).
Proof.
  unfold hrun. destruct (Z.eqb_spec (host_status HE a) 0) as [Hz|Hz]; intros [= <- <-]; auto.
Qed.

Lemma hcall_inv (HE : host_env) (a : host_action) (h : host) (r : hresult unit) (h' : host) :
  hcall HE a h = (r, h') ->
  (r = HOk tt /\ host_status HE a = 0%Z /\ h' = heffect HE a (hlog a h)) \/
  (r = HRaise (FromHost (HOSError a)) /\ host_status HE a <> 0%Z /\ h' = hlog a h).
Proof.
  unfold hcall. destruct (Z.eqb_spec (host_status HE a) 0) as [Hz|Hz]; intros [= <- <-]; auto.
Qed.

(** What [hrun] and [hcall] do to the files and to the log. *)
Lemma hrun_frame (HE : host_env) (a : host_action) (h : host) (r : hresult unit) (h' : host) :
  hrun HE a h = (r, h') ->
  host_trace h' = (host_trace h ++ [a])%list /\
  (forall x, ~ In x (touches a) -> child x (cwd h') = child x (cwd h)).
Proof.
  intros Hr. destruct (hrun_inv HE a h r h' Hr) as [[_ [_ ->]]|[_ [_ ->]]].
  - rewrite heffect_trace. split; [reflexivity|].
    intros x Hx. now rewrite heffect_child.
  - split; reflexivity.
Qed.

Lemma hcall_frame (HE : host_env) (a : host_action) (h : host) (r : hresult unit) (h' : host) :
  hcall HE a h = (r, h') ->
  host_trace h' = (host_trace h ++ [a])%list /\
  (forall x, ~ In x (touches a) -> child x (cwd h') = child x (cwd h)).
Proof.
  intros Hr. destruct (hcall_inv HE a h r h' Hr) as [[_ [_ ->]]|[_ [_ ->]]].
  - rewrite heffect_trace. split; [reflexivity|].
    intros x Hx. now rewrite heffect_child.
  - split; reflexivity.
Qed.

Lemma is_some_child_none (x : string) (c : node) :
  is_some (child x c) = false -> child x c = None.
Proof. now destruct (child x c). Qed.

(** The rename (lines 182-185). *)
Lemma rename_image_spec (HE : host_env) (h : host) (r : hresult unit) (h' : host) :
  rename_image HE h = (r, h') ->
  (forall x, x <> RASPBIAN_IMG -> x <> AZL_IMAGE -> child x (cwd h') = child x (cwd h)) /\
  (child AZL_IMAGE (cwd h) <> None \/ child RASPBIAN_IMG (cwd h) = None ->
   h' = h /\ r = HOk tt) /\
  (forall n, child AZL_IMAGE (cwd h) = None -> child RASPBIAN_IMG (cwd h) = Some n ->
     host_trace h' = (host_trace h ++ [MoveImage])%list /\
     (host_status HE MoveImage = 0%Z ->
      r = HOk tt /\ child AZL_IMAGE (cwd h') = Some n /\ child RASPBIAN_IMG (cwd h') = None) /\
     (host_status HE MoveImage <> 0%Z ->
      r = HRaise (FromHost (HOSError MoveImage)) /\ cwd h' = cwd h)).
Proof.
  unfold rename_image, hbind, hexists.
  rewrite (exists_in_name _ _ valid_img), (exists_in_name _ _ valid_azl).
  destruct (child RASPBIAN_IMG (cwd h)) as [n|] eqn:Himg;
    destruct (child AZL_IMAGE (cwd h)) as [m|] eqn:Hazl; cbn [is_some andb negb].
  - intros [= <- <-]. repeat split; auto; try congruence; intros; congruence.
  - intros Hr. destruct (hcall_inv HE MoveImage h r h' Hr) as [[-> [Hz ->]]|[-> [Hz ->]]].
    + split; [|split].
      * intros x Hi Ha. rewrite heffect_child; [reflexivity|].
        simpl. intros [E|[E|[]]]; congruence.
      * intros [Hc|Hc]; congruence.
      * intros n' _ [= <-]. rewrite heffect_trace. split; [reflexivity|].
        split; [|congruence]. intros _. split; [reflexivity|].
        unfold heffect. rewrite (resolve_name _ _ valid_img).
        cbn [cwd hlog]. rewrite Himg. cbn [cwd set_cwd].
        rewrite (write_file_name _ _ _ valid_azl), (remove_at_name _ _ valid_img).
        destruct (cwd h) as [d|ms|es]; try discriminate.
        split.
        -- simpl. apply assoc_set_entry_same.
        -- rewrite child_set_other by (apply String.eqb_neq; reflexivity).
           apply child_remove_same.
    + split; [|split].
      * intros; reflexivity.
      * intros [Hc|Hc]; congruence.
      * intros n' _ [= <-]. split; [reflexivity|].
        split; [congruence|]. intros _. split; reflexivity.
  - intros [= <- <-]. repeat split; auto; try congruence; intros; congruence.
  - intros [= <- <-]. repeat split; auto; try congruence; intros; congruence.
Qed.

(** Removing the extracted directory (lines 186-189). *)
Lemma remove_tree_spec (HE : host_env) (h : host) (r : hresult unit) (h' : host) :
  remove_tree HE h = (r, h') ->
  (forall x, x <> EXTRACT_TO -> child x (cwd h') = child x (cwd h)) /\
  (r = HOk tt -> child EXTRACT_TO (cwd h') = None) /\
  (exists l, host_trace h' = (host_trace h ++ l)%list /\ forall a, In a l -> a = RmRfExtract).
Proof.
  unfold remove_tree, hbind, hexists. rewrite (exists_in_name _ _ valid_ext).
  destruct (child EXTRACT_TO (cwd h)) as [n|] eqn:Hext; cbn [is_some].
  - intros Hr. destruct (hrun_frame HE _ _ _ _ Hr) as [Ht Hc].
    split; [|split].
    + intros x Hx. apply Hc. simpl. intros [E|[]]; congruence.
    + intros ->. destruct (hrun_inv HE _ _ _ _ Hr) as [[_ [_ ->]]|[Hd _]]; [|discriminate].
      unfold heffect. cbn [cwd set_cwd]. rewrite (remove_at_name _ _ valid_ext).
      apply child_remove_same.
    + exists [RmRfExtract]. split; [exact Ht|]. intros a [<-|[]]. reflexivity.
  - intros [= <- <-]. split; [reflexivity|]. split; [intros _; exact Hext|].
    exists []. split; [now rewrite app_nil_r|]. intros a [].
Qed.

(** Removing the uncompressed image (lines 190-193). *)
Lemma remove_raw_image_spec (HE : host_env) (h : host) (r : hresult unit) (h' : host) :
  remove_raw_image HE h = (r, h') ->
  (forall x, x <> RASPBIAN_IMG -> child x (cwd h') = child x (cwd h)) /\
  (r = HOk tt -> child RASPBIAN_IMG (cwd h') = None) /\
  (child RASPBIAN_IMG (cwd h) = None -> child RASPBIAN_IMG (cwd h') = None) /\
  (exists l, host_trace h' = (host_trace h ++ l)%list /\ forall a, In a l -> a = RemoveImage).
Proof.
  unfold remove_raw_image, hbind, hexists. rewrite (exists_in_name _ _ valid_img).
  destruct (child RASPBIAN_IMG (cwd h)) as [n|] eqn:Himg; cbn [is_some].
  - unfold os_remove_image. destruct (path_isdir (cwd h) RASPBIAN_IMG).
    + intros [= <- <-]. split; [reflexivity|]. split; [discriminate|]. split; [congruence|].
      exists []. split; [now rewrite app_nil_r|]. intros a [].
    + intros Hr. destruct (hcall_frame HE _ _ _ _ Hr) as [Ht Hc].
      split; [|split; [|split]].
      * intros x Hx. apply Hc. simpl. intros [E|[]]; congruence.
      * intros ->. destruct (hcall_inv HE _ _ _ _ Hr) as [[_ [_ ->]]|[Hd _]]; [|discriminate].
        unfold heffect. cbn [cwd set_cwd]. rewrite (remove_at_name _ _ valid_img).
        apply child_remove_same.
      * discriminate.
      * exists [RemoveImage]. split; [exact Ht|]. intros a [<-|[]]. reflexivity.
  - intros [= <- <-]. split; [reflexivity|]. split; [intros _; exact Himg|].
    split; [intros _; exact Himg|].
    exists []. split; [now rewrite app_nil_r|]. intros a [].
Qed.

Lemma nproc_inv (HE : host_env) (h : host) (r : hresult unit) (h' : host) :
  nproc HE h = (r, h') -> h' = hlog Nproc h.
Proof.
  unfold nproc, hbind. destruct (hrun HE Nproc h) as [[[]|e] h1] eqn:Hr.
  - destruct (hrun_inv HE _ _ _ _ Hr) as [[_ [_ ->]]|[Hd _]]; [|discriminate].
    destruct (is_int_literal (strip (nproc_stdout HE))); now intros [= <- <-].
  - destruct (hrun_inv HE _ _ _ _ Hr) as [[Hd _]|[_ [_ ->]]]; [discriminate|].
    now intros [= <- <-].
Qed.

(** Compressing the final image (lines 194-200). *)
Lemma compress_image_spec (HE : host_env) (h : host) (r : hresult unit) (h' : host) :
  compress_image HE h = (r, h') ->
  (forall x, x <> (AZL_IMAGE ++ ".zst")%string -> child x (cwd h') = child x (cwd h)) /\
  (r = HOk tt -> forall d, child AZL_IMAGE (cwd h) = Some (File d) ->
     child (AZL_IMAGE ++ ".zst") (cwd h') = Some (File (zstd_compress HE d))) /\
  (exists l, host_trace h' = (host_trace h ++ l)%list
             /\ forall a, In a l -> a = Nproc \/ a = Zstd).
Proof.
  unfold compress_image, hbind at 1, hexists. rewrite (exists_in_name _ _ valid_azl).
  destruct (child AZL_IMAGE (cwd h)) as [n|] eqn:Hazl; cbn [is_some].
  - intros Hr. destruct (hbind_inv _ _ _ _ _ Hr) as [[[] [h1 [Hn Hz]]]|[e [Hn ->]]].
    + apply nproc_inv in Hn. subst h1.
      destruct (hrun_frame HE _ _ _ _ Hz) as [Ht Hc].
      split; [|split].
      * intros x Hx. rewrite Hc; [reflexivity|]. intros [E|[]]. now apply Hx.
      * intros -> d [= ->].
        destruct (hrun_inv HE _ _ _ _ Hz) as [[_ [_ ->]]|[Hd _]]; [|discriminate].
        unfold heffect. rewrite (resolve_name _ _ valid_azl). cbn [cwd hlog].
        rewrite Hazl. cbn [cwd set_cwd]. rewrite (write_file_name _ _ _ valid_zst).
        destruct (cwd h) as [d'|ms|es]; try discriminate.
        simpl. apply assoc_set_entry_same.
      * exists [Nproc; Zstd]. split.
        -- rewrite Ht. cbn [hlog host_trace]. now rewrite <- app_assoc.
        -- intros a [<-|[<-|[]]]; auto.
    + apply nproc_inv in Hn. subst h'.
      split; [reflexivity|]. split; [discriminate|].
      exists [Nproc]. split; [reflexivity|]. intros a [<-|[]]; auto.
  - intros [= <- <-]. split; [reflexivity|]. split; [intros _ d; discriminate|].
    exists []. split; [now rewrite app_nil_r|]. intros a [].
Qed.

Lemma name_neq (x y : string) : String.eqb x y = false -> x <> y.
Proof. apply String.eqb_neq. Qed.

(** What follows the rename in [cleanup]. *)
Lemma cleanup_tail_spec (HE : host_env) (h : host) (r : hresult unit) (h' : host) :
  hbind (remove_tree HE) (fun _ => hbind (remove_raw_image HE) (fun _ => compress_image HE)) h
  = (r, h') ->
  (forall x, x <> EXTRACT_TO -> x <> RASPBIAN_IMG -> x <> (AZL_IMAGE ++ ".zst")%string ->
     child x (cwd h') = child x (cwd h)) /\
  (child RASPBIAN_IMG (cwd h) = None -> child RASPBIAN_IMG (cwd h') = None) /\
  (r = HOk tt ->
   child RASPBIAN_IMG (cwd h') = None /\ child EXTRACT_TO (cwd h') = None /\
   forall d, child AZL_IMAGE (cwd h) = Some (File d) ->
     child (AZL_IMAGE ++ ".zst") (cwd h') = Some (File (zstd_compress HE d))) /\
  (exists l, host_trace h' = (host_trace h ++ l)%list /\ ~ In MoveImage l).
Proof.
  intros Hr.
  destruct (hbind_inv _ _ _ _ _ Hr) as [[[] [h1 [H1 Hr1]]]|[e [H1 ->]]].
  - destruct (remove_tree_spec HE _ _ _ H1) as [F1 [O1 [l1 [T1 L1]]]].
    destruct (hbind_inv _ _ _ _ _ Hr1) as [[[] [h2 [H2 H3]]]|[e [H2 ->]]].
    + destruct (remove_raw_image_spec HE _ _ _ H2) as [F2 [O2 [N2 [l2 [T2 L2]]]]].
      destruct (compress_image_spec HE _ _ _ H3) as [F3 [O3 [l3 [T3 L3]]]].
      split; [|split; [|split]].
      * intros x He Hi Hz. now rewrite F3, F2, F1.
      * intros _. rewrite F3 by (apply name_neq; reflexivity). now apply O2.
      * intros ->. split; [|split].
        -- rewrite F3 by (apply name_neq; reflexivity). now apply O2.
        -- rewrite F3, F2 by (apply name_neq; reflexivity). now apply O1.
        -- intros d Hd. apply O3; [reflexivity|].
           rewrite F2, F1 by (apply name_neq; reflexivity). exact Hd.
      * exists (l1 ++ l2 ++ l3)%list. split.
        -- rewrite T3, T2, T1. now rewrite <- !app_assoc.
        -- rewrite !in_app_iff. intros [Hin|[Hin|Hin]].
           ++ apply L1 in Hin. discriminate.
           ++ apply L2 in Hin. discriminate.
           ++ apply L3 in Hin. destruct Hin; discriminate.
    + destruct (remove_raw_image_spec HE _ _ _ H2) as [F2 [O2 [N2 [l2 [T2 L2]]]]].
      split; [|split; [|split]].
      * intros x He Hi Hz. now rewrite F2, F1.
      * intros Hn. apply N2. rewrite F1 by (apply name_neq; reflexivity). exact Hn.
      * discriminate.
      * exists (l1 ++ l2)%list. split.
        -- rewrite T2, T1. now rewrite <- !app_assoc.
        -- rewrite !in_app_iff. intros [Hin|Hin].
           ++ apply L1 in Hin. discriminate.
           ++ apply L2 in Hin. discriminate.
  - destruct (remove_tree_spec HE _ _ _ H1) as [F1 [O1 [l1 [T1 L1]]]].
    split; [|split; [|split]].
    + intros x He Hi Hz. now rewrite F1.
    + intros Hn. rewrite F1 by (apply name_neq; reflexivity). exact Hn.
    + discriminate.
    + exists l1. split; [exact T1|]. intros Hin. apply L1 in Hin. discriminate.
Qed.

Lemma cleanup_inv (HE : host_env) (h : host) (r : hresult unit) (h' : host) :
  cleanup HE h = (r, h') ->
  (exists h1, rename_image HE h = (HOk tt, h1) /\
     hbind (remove_tree HE) (fun _ => hbind (remove_raw_image HE) (fun _ => compress_image HE))
       h1 = (r, h')) \/
  (exists e, rename_image HE h = (HRaise e, h') /\ r = HRaise e).
Proof.
  intros Hr. destruct (hbind_inv _ _ _ _ _ Hr) as [[[] [h1 [H1 H2]]]|[e [H1 ->]]].
  - left. now exists h1.
  - right. now exists e.
Qed.

(** X14. When [cleanup] returns normally, neither the uncompressed Raspberry
    Pi image nor the extracted directory exists any more, whatever the
    directory held before. *)
Theorem X14_cleanup_removes_image_and_tree (HE : host_env) (h h' : host) :
  cleanup HE h = (HOk tt, h') ->
  exists_in (cwd h') RASPBIAN_IMG = false /\ exists_in (cwd h') EXTRACT_TO = false.
Proof.
  intros Hr. rewrite (exists_in_name _ _ valid_img), (exists_in_name _ _ valid_ext).
  destruct (cleanup_inv HE _ _ _ Hr) as [[h1 [H1 H2]]|[e [_ Hd]]]; [|discriminate].
  destruct (cleanup_tail_spec HE _ _ _ H2) as [_ [_ [Ho _]]].
  destruct (Ho eq_refl) as [-> [-> _]]. split; reflexivity.
Qed.

Lemma X14_cleanup_removes_image_and_tree_witness :
  exists_in
    (cwd (snd (cleanup (host_env_with (failing []) (hfailing []))
                 (host_start [(RASPBIAN_IMG, File "image");
                              (EXTRACT_TO, Dir [("etc", Dir [])])]))))
    RASPBIAN_IMG = false /\
  exists_in
    (cwd (snd (cleanup (host_env_with (failing []) (hfailing []))
                 (host_start [(RASPBIAN_IMG, File "image");
                              (EXTRACT_TO, Dir [("etc", Dir [])])]))))
    EXTRACT_TO = false.
Proof.
  apply (X14_cleanup_removes_image_and_tree (host_env_with (failing []) (hfailing []))
           (host_start [(RASPBIAN_IMG, File "image"); (EXTRACT_TO, Dir [("etc", Dir [])])])).
  vm_compute. reflexivity.
Defined.

(** X15. When [azl-pi.img] already exists, [cleanup] never renames the new
    image onto it: whatever happens, [azl-pi.img] keeps its earlier content
    and no [shutil.move] is logged; and when [cleanup] returns normally the
    image that was just built has been deleted. *)
Theorem X15_existing_final_image_is_kept (HE : host_env) (h : host) (n : node)
  (r : hresult unit) (h' : host) :
  resolve_path (cwd h) AZL_IMAGE = Some n ->
  cleanup HE h = (r, h') ->
  resolve_path (cwd h') AZL_IMAGE = Some n /\
  (exists l, host_trace h' = (host_trace h ++ l)%list /\ ~ In MoveImage l) /\
  (r = HOk tt -> exists_in (cwd h') RASPBIAN_IMG = false).
Proof.
  rewrite !(resolve_name _ _ valid_azl), (exists_in_name _ _ valid_img).
  intros Hn Hr.
  destruct (cleanup_inv HE _ _ _ Hr) as [[h1 [H1 H2]]|[e [H1 ->]]].
  - destruct (rename_image_spec HE _ _ _ H1) as [_ [Hsame _]].
    destruct Hsame as [-> _]; [left; congruence|].
    destruct (cleanup_tail_spec HE _ _ _ H2) as [F [_ [Ho Ht]]].
    split; [|split].
    + rewrite F by (apply name_neq; reflexivity). exact Hn.
    + exact Ht.
    + intros ->. destruct (Ho eq_refl) as [-> _]. reflexivity.
  - destruct (rename_image_spec HE _ _ _ H1) as [_ [Hsame _]].
    destruct Hsame as [_ Hd]; [left; congruence|discriminate].
Qed.

Lemma X15_existing_final_image_is_kept_witness :
  resolve_path
    (cwd (snd (cleanup (host_env_with (failing []) (hfailing []))
                 (host_start [(AZL_IMAGE, File "earlier"); (RASPBIAN_IMG, File "new")]))))
    AZL_IMAGE = Some (File "earlier") /\
  exists_in
    (cwd (snd (cleanup (host_env_with (failing []) (hfailing []))
                 (host_start [(AZL_IMAGE, File "earlier"); (RASPBIAN_IMG, File "new")]))))
    RASPBIAN_IMG = false.
Proof.
  destruct (X15_existing_final_image_is_kept (host_env_with (failing []) (hfailing []))
              (host_start [(AZL_IMAGE, File "earlier"); (RASPBIAN_IMG, File "new")])
              (File "earlier") (HOk tt)
              (snd (cleanup (host_env_with (failing []) (hfailing []))
                      (host_start [(AZL_IMAGE, File "earlier"); (RASPBIAN_IMG, File "new")])))
              ltac:(vm_compute; reflexivity) ltac:(vm_compute; reflexivity))
    as [H1 [_ H2]].
  split; [exact H1|exact (H2 eq_refl)].
Defined.

(** X16. When there is no [azl-pi.img] yet and the rename succeeds, the image
    that was built becomes [azl-pi.img] with its content unchanged and is no
    longer there under its old name, also when a later step of [cleanup]
    fails; when [cleanup] returns normally, [azl-pi.img.zst] holds the
    compressed content and [azl-pi.img] is still there. *)
Theorem X16_fresh_image_is_renamed_and_compressed (HE : host_env) (h : host) (n : node)
  (r : hresult unit) (h' : host) :
  exists_in (cwd h) AZL_IMAGE = false ->
  resolve_path (cwd h) RASPBIAN_IMG = Some n ->
  host_status HE MoveImage = 0%Z ->
  cleanup HE h = (r, h') ->
  resolve_path (cwd h') AZL_IMAGE = Some n /\
  exists_in (cwd h') RASPBIAN_IMG = false /\
  (r = HOk tt -> forall d, n = File d ->
     resolve_path (cwd h') (AZL_IMAGE ++ ".zst") = Some (File (zstd_compress HE d))).
Proof.
  rewrite !(resolve_name _ _ valid_azl), !(resolve_name _ _ valid_img),
    (resolve_name _ _ valid_zst), !(exists_in_name _ _ valid_img),
    (exists_in_name _ _ valid_azl).
  intros Ha Hi Hz Hr. apply is_some_child_none in Ha.
  destruct (cleanup_inv HE _ _ _ Hr) as [[h1 [H1 H2]]|[e [H1 ->]]].
  - destruct (rename_image_spec HE _ _ _ H1) as [_ [_ Hmove]].
    destruct (Hmove n Ha Hi) as [_ [Hok _]].
    destruct (Hok Hz) as [_ [Hazl Himg]].
    destruct (cleanup_tail_spec HE _ _ _ H2) as [F [N [Ho _]]].
    split; [|split].
    + rewrite F by (apply name_neq; reflexivity). exact Hazl.
    + now rewrite (N Himg).
    + intros -> d ->. destruct (Ho eq_refl) as [_ [_ Hzst]]. now apply Hzst.
  - destruct (rename_image_spec HE _ _ _ H1) as [_ [_ Hmove]].
    destruct (Hmove n Ha Hi) as [_ [Hok _]].
    destruct (Hok Hz) as [Hd _]. discriminate.
Qed.

Lemma X16_fresh_image_is_renamed_and_compressed_witness :
  resolve_path
    (cwd (snd (cleanup (host_env_with (failing []) (hfailing []))
                 (host_start [(RASPBIAN_IMG, File "new"); (EXTRACT_TO, Dir [])]))))
    AZL_IMAGE = Some (File "new") /\
  resolve_path
    (cwd (snd (cleanup (host_env_with (failing []) (hfailing []))
                 (host_start [(RASPBIAN_IMG, File "new"); (EXTRACT_TO, Dir [])]))))
    (AZL_IMAGE ++ ".zst") = Some (File "zst:new").
Proof.
  destruct (X16_fresh_image_is_renamed_and_compressed
              (host_env_with (failing []) (hfailing []))
              (host_start [(RASPBIAN_IMG, File "new"); (EXTRACT_TO, Dir [])])
              (File "new") (HOk tt)
              (snd (cleanup (host_env_with (failing []) (hfailing []))
                      (host_start [(RASPBIAN_IMG, File "new"); (EXTRACT_TO, Dir [])])))
              ltac:(vm_compute; reflexivity) ltac:(vm_compute; reflexivity)
              ltac:(vm_compute; reflexivity) ltac:(vm_compute; reflexivity))
    as [H1 [_ H2]].
  split; [exact H1|exact (H2 eq_refl "new" eq_refl)].
Defined.

Lemma urlretrieve_inv (HE : host_env) (url dest : string) (h : host)
  (r : hresult unit) (h' : host) :
  urlretrieve HE url dest h = (r, h') ->
  host_trace h' = (host_trace h ++ [Urlretrieve url dest])%list /\
  pipeline h' = pipeline h /\
  ((r = HOk tt /\ put_at (path_of dest) (File (download HE url)) (cwd h) = Some (cwd h'))
   \/ ((exists k, r = HRaise (FromHost k)) /\ cwd h' = cwd h)).
Proof.
  unfold urlretrieve.
  destruct (Z.eqb (host_status HE (Urlretrieve url dest)) 0).
  - destruct (path_isdir (cwd h) dest).
    + intros [= <- <-]. repeat split. right. split; [eauto|reflexivity].
    + destruct (put_at (path_of dest) (File (download HE url)) (cwd h)) as [c|] eqn:Hp.
      * intros [= <- <-]. repeat split. left. split; reflexivity.
      * intros [= <- <-]. repeat split. right. split; [eauto|reflexivity].
  - intros [= <- <-]. repeat split. right. split; [eauto|reflexivity].
Qed.

Lemma put_at_exists (dest : string) (n c c' : node) :
  put_at (path_of dest) n c = Some c' ->
  exists_in c' dest = true /\ resolve_path c' dest = Some n.
Proof.
  intros Hp. pose proof (put_at_lookup _ _ _ _ Hp) as Hw.
  unfold exists_in, path_exists, resolve_path. rewrite Hw. split; [|reflexivity].
  destruct (String.eqb_spec dest ""); [|reflexivity].
  subst dest. discriminate Hp.
Qed.

(** X13. When [download_file] returns normally the destination exists, and a
    second call does nothing at all.  A destination that was already there
    is left as it is and nothing is fetched; otherwise the destination holds
    what the URL delivered and exactly one download was made.  (Paths are
    relative to the current directory.) *)
Theorem X13_download_file_fetches_once (HE : host_env) (url dest : string) (h h' : host) :
  download_file HE url dest h = (HOk tt, h') ->
  exists_in (cwd h') dest = true /\
  download_file HE url dest h' = (HOk tt, h') /\
  (exists_in (cwd h) dest = true -> h' = h) /\
  (exists_in (cwd h) dest = false ->
     resolve_path (cwd h') dest = Some (File (download HE url)) /\
     host_trace h' = (host_trace h ++ [Urlretrieve url dest])%list).
Proof.
  unfold download_file, hbind, hexists.
  destruct (exists_in (cwd h) dest) eqn:He; cbn [negb].
  - intros [= <-]. rewrite He. cbn [negb]. repeat split; auto; discriminate.
  - intros Hr. destruct (urlretrieve_inv HE _ _ _ _ _ Hr) as [Ht [_ [[_ Hp]|[[k Hk] _]]]];
      [|discriminate].
    destruct (put_at_exists _ _ _ _ Hp) as [Hex Hres].
    rewrite Hex. cbn [negb]. repeat split; auto. discriminate.
Qed.

Lemma X13_download_file_fetches_once_witness :
  exists_in
    (cwd (snd (download_file (host_env_with (failing []) (hfailing []))
                 "https://example.org/a.img.xz" "a.img.xz" (host_start []))))
    "a.img.xz" = true /\
  download_file (host_env_with (failing []) (hfailing []))
    "https://example.org/a.img.xz" "a.img.xz"
    (snd (download_file (host_env_with (failing []) (hfailing []))
            "https://example.org/a.img.xz" "a.img.xz" (host_start [])))
  = (HOk tt,
     snd (download_file (host_env_with (failing []) (hfailing []))
            "https://example.org/a.img.xz" "a.img.xz" (host_start []))).
Proof.
  destruct (X13_download_file_fetches_once (host_env_with (failing []) (hfailing []))
              "https://example.org/a.img.xz" "a.img.xz" (host_start [])
              (snd (download_file (host_env_with (failing []) (hfailing []))
                      "https://example.org/a.img.xz" "a.img.xz" (host_start [])))
              ltac:(vm_compute; reflexivity)) as [H1 [H2 _]].
  split; [exact H1|exact H2].
Defined.

Lemma keeps_refl (h0 : host) : prepare_keeps h0 h0.
Proof.
  exists []. rewrite app_nil_r. split; [reflexivity|]. split; [intros a []|].
  split; [reflexivity|]. split; intros n Hn; (split; [exact Hn|]).
  - intros [].
  - intros u d [].
Qed.

Lemma keeps_step (h0 h h' : host) (l' : list host_action) :
  prepare_keeps h0 h ->
  host_trace h' = (host_trace h ++ l')%list ->
  (forall a, In a l' -> is_cleanup_op a = false) ->
  (forall x, x <> EXTRACT_TO ->
     (x = RASPBIAN_IMG -> child x (cwd h) = None -> In XzDecompress l' -> False) ->
     (x = RASPBIAN_XZ -> child x (cwd h) = None ->
        (exists u d, In (Urlretrieve u d) l') -> False) ->
     child x (cwd h') = child x (cwd h)) ->
  (In XzDecompress l' -> child RASPBIAN_IMG (cwd h) = None) ->
  (forall u d, In (Urlretrieve u d) l' -> child RASPBIAN_XZ (cwd h) = None) ->
  prepare_keeps h0 h'.
Proof.
  intros [l [Ht [Hops [Hf [Hi Hx]]]]] Ht' Hops' Hf' Hxz Hurl.
  exists (l ++ l')%list. split; [|split; [|split; [|split]]].
  - now rewrite Ht', Ht, app_assoc.
  - intros a. rewrite in_app_iff. intros [Ha|Ha]; auto.
  - intros x He Hz Him. rewrite Hf' by (auto; intros E; congruence). now apply Hf.
  - intros n Hn. destruct (Hi n Hn) as [Hc Hno]. split.
    + rewrite Hf'; [exact Hc| apply name_neq; reflexivity | intros _ E; congruence
                   | intros E; discriminate E].
    + rewrite in_app_iff. intros [Hin|Hin]; [auto|]. apply Hxz in Hin. congruence.
  - intros n Hn. destruct (Hx n Hn) as [Hc Hno]. split.
    + rewrite Hf'; [exact Hc| apply name_neq; reflexivity | intros E; discriminate E
                   | intros _ E; congruence].
    + intros u d. rewrite in_app_iff. intros [Hin|Hin]; [now apply (Hno u d)|].
      apply Hurl in Hin. congruence.
Qed.

Lemma hrun_keeps (HE : host_env) (h0 : host) (a : host_action) :
  (forall x, In x (touches a) -> x = EXTRACT_TO) ->
  a <> XzDecompress -> (forall u d, a <> Urlretrieve u d) -> is_cleanup_op a = false ->
  htriple (prepare_keeps h0) (hrun HE a) (fun _ => prepare_keeps h0)
    (fun e h => prepare_keeps h0 h /\ exists k, e = FromHost k).
Proof.
  intros Htouch Hxz Hurl Hcl h r h' HK Hr.
  destruct (hrun_frame HE _ _ _ _ Hr) as [Ht Hc].
  assert (K : prepare_keeps h0 h').
  { apply (keeps_step h0 h h' [a] HK Ht).
    - intros b [<-|[]]. exact Hcl.
    - intros x He _ _. apply Hc. intros Hin. apply Htouch in Hin. contradiction.
    - intros [E|[]]. congruence.
    - intros u d [E|[]]. exfalso. exact (Hurl u d E). }
  destruct (hrun_inv HE _ _ _ _ Hr) as [[-> _]|[-> _]]; [exact K|split; [exact K|eauto]].
Qed.

Lemma rmtree_keeps (HE : host_env) (h0 : host) :
  htriple (prepare_keeps h0) (rmtree_extract HE) (fun _ => prepare_keeps h0)
    (fun e h => prepare_keeps h0 h /\ exists k, e = FromHost k).
Proof.
  intros h r h' HK. unfold rmtree_extract.
  destruct (path_isdir (cwd h) EXTRACT_TO).
  - intros Hr. destruct (hcall_frame HE _ _ _ _ Hr) as [Ht Hc].
    assert (K : prepare_keeps h0 h').
    { apply (keeps_step h0 h h' [RmtreeExtract] HK Ht).
      - intros b [<-|[]]. reflexivity.
      - intros x He _ _. apply Hc. intros [E|[]]. congruence.
      - intros [E|[]]. discriminate.
      - intros u d [E|[]]. discriminate. }
    destruct (hcall_inv HE _ _ _ _ Hr) as [[-> _]|[-> _]]; [exact K|split; [exact K|eauto]].
  - intros [= <- <-]. split; [exact HK|eauto].
Qed.

Lemma makedirs_keeps (h0 : host) :
  htriple (prepare_keeps h0) makedirs_extract (fun _ => prepare_keeps h0)
    (fun e h => prepare_keeps h0 h /\ exists k, e = FromHost k).
Proof.
  intros h r h' HK. unfold makedirs_extract.
  destruct (resolve_path (cwd h) EXTRACT_TO) as [[d|ms|es]|].
  - intros [= <- <-]. split; [exact HK|eauto].
  - intros [= <- <-]. split; [exact HK|eauto].
  - intros [= <- <-]. exact HK.
  - intros [= <- <-].
    apply (keeps_step h0 h _ [] HK).
    + cbn [set_cwd host_trace]. now rewrite app_nil_r.
    + intros a [].
    + intros x He _ _. cbn [set_cwd cwd]. rewrite (write_file_name _ _ _ valid_ext).
      now apply child_set_other.
    + intros [].
    + intros u d [].
Qed.

Lemma put_at_name (x : string) (n c c' : node) :
  valid_name x = true -> put_at (path_of x) n c = Some c' -> c' = set_child x n c.
Proof.
  intros Hv. rewrite (path_of_valid x Hv). destruct c; simpl; congruence.
Qed.

Lemma download_keeps (HE : host_env) (h0 : host) :
  htriple (prepare_keeps h0) (download_file HE RASPBIAN_URL RASPBIAN_XZ)
    (fun _ => prepare_keeps h0)
    (fun e h => prepare_keeps h0 h /\ exists k, e = FromHost k).
Proof.
  intros h r h' HK. unfold download_file, hbind, hexists.
  rewrite (exists_in_name _ _ valid_xz).
  destruct (child RASPBIAN_XZ (cwd h)) as [n|] eqn:Hxz; cbn [is_some negb].
  - intros [= <- <-]. exact HK.
  - intros Hr. destruct (urlretrieve_inv HE _ _ _ _ _ Hr) as [Ht [_ Hcases]].
    assert (K : prepare_keeps h0 h').
    { apply (keeps_step h0 h h' _ HK Ht).
      - intros b [<-|[]]. reflexivity.
      - intros x He _ Hx. destruct Hcases as [[_ Hp]|[_ ->]]; [|reflexivity].
        apply (put_at_name _ _ _ _ valid_xz) in Hp. rewrite Hp.
        destruct (String.eqb_spec x RASPBIAN_XZ) as [->|Hne].
        + exfalso. apply Hx; [reflexivity|exact Hxz|]. exists RASPBIAN_URL, RASPBIAN_XZ.
          now left.
        + now apply child_set_other.
      - intros [E|[]]. discriminate.
      - intros u d _. exact Hxz. }
    destruct Hcases as [[-> _]|[[k ->] _]]; [exact K|split; [exact K|eauto]].
Qed.

Lemma xz_keeps (HE : host_env) (h0 : host) :
  htriple (fun h => prepare_keeps h0 h /\ exists_in (cwd h) RASPBIAN_IMG = false)
    (hrun HE XzDecompress) (fun _ => prepare_keeps h0)
    (fun e h => prepare_keeps h0 h /\ exists k, e = FromHost k).
Proof.
  intros h r h' [HK Hno] Hr.
  rewrite (exists_in_name _ _ valid_img) in Hno. apply is_some_child_none in Hno.
  destruct (hrun_frame HE _ _ _ _ Hr) as [Ht Hc].
  assert (K : prepare_keeps h0 h').
  { apply (keeps_step h0 h h' _ HK Ht).
    - intros b [<-|[]]. reflexivity.
    - intros x He Hi _.
      destruct (String.eqb_spec x RASPBIAN_IMG) as [->|Hne].
      + exfalso. apply Hi; [reflexivity|exact Hno|now left].
      + apply Hc. intros [E|[]]. congruence.
    - intros _. exact Hno.
    - intros u d [E|[]]. discriminate. }
  destruct (hrun_inv HE _ _ _ _ Hr) as [[-> _]|[-> _]]; [exact K|split; [exact K|eauto]].
Qed.

(** Everything [main] does before [combine_images]. *)
Lemma prepare_spec (HE : host_env) (h0 : host) :
  htriple (prepare_keeps h0) (prepare HE)
    (fun _ h => prepare_keeps h0 h /\ exists_in (cwd h) RASPBIAN_IMG = true)
    (fun e h => prepare_keeps h0 h /\ exists k, e = FromHost k).
Proof.
  unfold prepare. rewrite image_name.
  apply htriple_bind with (Q := fun _ => prepare_keeps h0);
    [apply hrun_keeps; [intros x []|discriminate|discriminate|reflexivity]|intros _].
  apply htriple_bind with (Q := fun _ => prepare_keeps h0);
    [apply hrun_keeps; [intros x []|discriminate|discriminate|reflexivity]|intros _].
  apply htriple_bind with (Q := fun _ => prepare_keeps h0);
    [apply hrun_keeps; [intros x []|discriminate|discriminate|reflexivity]|intros _].
  eapply htriple_bind; [apply htriple_exists|intros stale].
  apply htriple_bind with (Q := fun _ => prepare_keeps h0).
  { destruct stale.
    - intros h r h' [HK _]. now apply rmtree_keeps.
    - intros h r h' [HK _] [= <- <-]. exact HK. }
  intros _.
  apply htriple_bind with (Q := fun _ => prepare_keeps h0); [apply makedirs_keeps|intros _].
  apply htriple_bind with (Q := fun _ => prepare_keeps h0);
    [apply hrun_keeps; [intros x [<-|[]]; reflexivity|discriminate|discriminate|reflexivity]
    |intros _].
  apply htriple_bind with (Q := fun _ => prepare_keeps h0);
    [apply hrun_keeps; [intros x []|discriminate|discriminate|reflexivity]|intros _].
  apply htriple_bind with (Q := fun _ => prepare_keeps h0); [apply download_keeps|intros _].
  eapply htriple_bind; [apply htriple_exists|intros archive_present].
  destruct archive_present; cbn [negb].
  - eapply htriple_bind; [apply htriple_exists|intros image_present].
    apply htriple_bind with (Q := fun _ => prepare_keeps h0).
    { destruct image_present; cbn [negb].
      - intros h r h' [[HK _] _] [= <- <-]. exact HK.
      - intros h r h' [[HK _] Hno]. apply xz_keeps. now split. }
    intros _.
    eapply htriple_bind; [apply htriple_exists|intros image_present'].
    destruct image_present'; cbn [negb].
    + intros h r h' HP [= <- <-]. exact HP.
    + intros h r h' [HK _] [= <- <-]. split; [exact HK|eauto].
  - intros h r h' [HK _] [= <- <-]. split; [exact HK|eauto].
Qed.

Lemma run_combine_inv (HE : host_env) (h : host) (r : hresult unit) (h' : host) :
  run_combine HE h = (r, h') ->
  host_trace h' = host_trace h /\
  (forall x, x <> EXTRACT_TO -> child x (cwd h') = child x (cwd h)) /\
  (forall x n, child x (cwd h) = Some n -> child EXTRACT_TO (cwd h') <> None) /\
  (forall e, r = HRaise e -> exists e0, e = FromPipeline e0).
Proof.
  unfold run_combine.
  destruct (combine_images _ _ _ _) as [[[]|e0] w'];
    intros [= <- <-]; cbn [host_trace cwd]; rewrite (write_file_name _ _ _ valid_ext);
    (split; [reflexivity|]); (split; [intros x Hx; now apply child_set_other|]);
    (split; [intros x n Hn; erewrite child_set_dir by exact Hn; discriminate|]).
  - discriminate.
  - intros e [= <-]. eauto.
Qed.

Lemma cleanup_raises_host (HE : host_env) (h : host) (e : host_exn) (h' : host) :
  cleanup HE h = (HRaise e, h') -> exists k, e = FromHost k.
Proof.
  assert (Hrun : forall a h r h', hrun HE a h = (r, h') ->
                 forall e, r = HRaise e -> exists k, e = FromHost k).
  { intros a h1 r h1' Hr e1 ->.
    destruct (hrun_inv HE _ _ _ _ Hr) as [[Hd _]|[[= ->] _]]; [discriminate|eauto]. }
  assert (Hcall : forall a h r h', hcall HE a h = (r, h') ->
                  forall e, r = HRaise e -> exists k, e = FromHost k).
  { intros a h1 r h1' Hr e1 ->.
    destruct (hcall_inv HE _ _ _ _ Hr) as [[Hd _]|[[= ->] _]]; [discriminate|eauto]. }
  intros Hr.
  destruct (hbind_inv _ _ _ _ _ Hr) as [[[] [h1 [_ Hr1]]]|[e1 [H1 [= ->]]]].
  - destruct (hbind_inv _ _ _ _ _ Hr1) as [[[] [h2 [_ Hr2]]]|[e1 [H1 [= ->]]]].
    + destruct (hbind_inv _ _ _ _ _ Hr2) as [[[] [h3 [_ Hr3]]]|[e1 [H1 [= ->]]]].
      * revert Hr3. unfold compress_image, hbind at 1, hexists.
        destruct (exists_in (cwd h3) AZL_IMAGE); [|discriminate].
        intros Hr3.
        destruct (hbind_inv _ _ _ _ _ Hr3) as [[[] [h4 [_ Hr4]]]|[e1 [H1 [= ->]]]].
        -- exact (Hrun _ _ _ _ Hr4 _ eq_refl).
        -- revert H1. unfold nproc. intros H1.
           destruct (hbind_inv _ _ _ _ _ H1) as [[[] [h4 [_ Hr4]]]|[e2 [H2 [= ->]]]].
           ++ revert Hr4. destruct (is_int_literal _); [discriminate|].
              intros [= <- <-]. eauto.
           ++ exact (Hrun _ _ _ _ H2 _ eq_refl).
      * revert H1. unfold remove_raw_image, hbind, hexists.
        destruct (exists_in (cwd h2) RASPBIAN_IMG); [|discriminate].
        unfold os_remove_image. destruct (path_isdir (cwd h2) RASPBIAN_IMG).
        -- intros [= <- <-]. eauto.
        -- intros H1. exact (Hcall _ _ _ _ H1 _ eq_refl).
    + revert H1. unfold remove_tree, hbind, hexists.
      destruct (exists_in (cwd h1) EXTRACT_TO); [|discriminate].
      intros H1. exact (Hrun _ _ _ _ H1 _ eq_refl).
  - revert H1. unfold rename_image, hbind, hexists.
    destruct (exists_in (cwd h) RASPBIAN_IMG && negb (exists_in (cwd h) AZL_IMAGE));
      [|discriminate].
    intros H1. exact (Hcall _ _ _ _ H1 _ eq_refl).
Qed.

(** The three parts of [main]. *)
Lemma main_inv (HE : host_env) (h : host) (r : hresult unit) (h' : host) :
  main HE h = (r, h') ->
  (exists e, prepare HE h = (HRaise e, h') /\ r = HRaise e) \/
  (exists h1, prepare HE h = (HOk tt, h1) /\
     ((exists e, run_combine HE h1 = (HRaise e, h') /\ r = HRaise e) \/
      (exists h2, run_combine HE h1 = (HOk tt, h2) /\ cleanup HE h2 = (r, h')))).
Proof.
  intros Hr. destruct (hbind_inv _ _ _ _ _ Hr) as [[[] [h1 [H1 Hr1]]]|[e [H1 ->]]].
  - right. exists h1. split; [exact H1|].
    destruct (hbind_inv _ _ _ _ _ Hr1) as [[[] [h2 [H2 Hr2]]]|[e [H2 ->]]].
    + right. now exists h2.
    + left. now exists e.
  - left. now exists e.
Qed.

(** X17. When [main] fails with an exception that came out of
    [combine_images], [cleanup] has not run: no operation of [cleanup] was
    executed, the decompressed image and the extracted directory are still
    there, and [azl-pi.img] is as it was before (absent if it was absent). *)
Theorem X17_failed_combine_skips_cleanup (HE : host_env) (h : host) (e : exn) (h' : host) :
  main HE h = (HRaise (FromPipeline e), h') ->
  exists_in (cwd h') RASPBIAN_IMG = true /\
  exists_in (cwd h') EXTRACT_TO = true /\
  resolve_path (cwd h') AZL_IMAGE = resolve_path (cwd h) AZL_IMAGE /\
  (exists l, host_trace h' = (host_trace h ++ l)%list
             /\ forall a, In a l -> is_cleanup_op a = false).
Proof.
  intros Hr. rewrite !(resolve_name _ _ valid_azl), (exists_in_name _ _ valid_ext).
  destruct (main_inv HE _ _ _ Hr) as [[e1 [Hp [= <-]]]|[h1 [Hp Hrest]]].
  - destruct (prepare_spec HE h _ _ _ (keeps_refl h) Hp) as [_ [k Hk]]. discriminate.
  - destruct (prepare_spec HE h _ _ _ (keeps_refl h) Hp) as [[l [Ht [Hops [Hf _]]]] Himg].
    destruct Hrest as [[e1 [Hc [= <-]]]|[h2 [_ Hc]]].
    + destruct (run_combine_inv HE _ _ _ Hc) as [Ht' [Hf' [Hext _]]].
      rewrite (exists_in_name _ _ valid_img) in Himg.
      rewrite (exists_in_name _ _ valid_img).
      rewrite Hf' by (apply name_neq; reflexivity).
      split; [exact Himg|]. split; [|split].
      * destruct (child RASPBIAN_IMG (cwd h1)) as [n|] eqn:Hn; [|discriminate].
        specialize (Hext _ _ Hn). now destruct (child EXTRACT_TO (cwd h')).
      * rewrite Hf' by (apply name_neq; reflexivity).
        apply Hf; apply name_neq; reflexivity.
      * exists l. split; [congruence|exact Hops].
    + destruct (cleanup_raises_host HE _ _ _ Hc) as [k Hk]. discriminate.
Qed.

Lemma X17_failed_combine_skips_cleanup_witness :
  exists_in
    (cwd (snd (main (host_env_with (failing [(Fsck Root, 4%Z)]) (hfailing []))
                 (host_start []))))
    RASPBIAN_IMG = true /\
  exists_in
    (cwd (snd (main (host_env_with (failing [(Fsck Root, 4%Z)]) (hfailing []))
                 (host_start []))))
    EXTRACT_TO = true.
Proof.
  destruct (X17_failed_combine_skips_cleanup
              (host_env_with (failing [(Fsck Root, 4%Z)]) (hfailing []))
              (host_start [])
              (fresh (CalledProcessError ["sudo"; "fsck.ext4"; "-y"; "/dev/loop0p2"] 4))
              (snd (main (host_env_with (failing [(Fsck Root, 4%Z)]) (hfailing []))
                      (host_start [])))
              ltac:(vm_compute; reflexivity)) as [H1 [H2 _]].
  split; [exact H1|exact H2].
Defined.

(** X18. The steps of [main] before [combine_images] reuse what is already in
    the directory: a decompressed image that is there is kept as it is and
    [xz] is not run, and an archive that is there is kept and not downloaded
    again, whether these steps then succeed or fail. *)
Theorem X18_prepare_reuses_files (HE : host_env) (h : host) (r : hresult unit) (h' : host) :
  prepare HE h = (r, h') ->
  exists l, host_trace h' = (host_trace h ++ l)%list /\
    (forall n, resolve_path (cwd h) RASPBIAN_IMG = Some n ->
       resolve_path (cwd h') RASPBIAN_IMG = Some n /\ ~ In XzDecompress l) /\
    (forall n, resolve_path (cwd h) RASPBIAN_XZ = Some n ->
       resolve_path (cwd h') RASPBIAN_XZ = Some n /\ forall u d, ~ In (Urlretrieve u d) l).
Proof.
  intros Hp. rewrite !(resolve_name _ _ valid_img), !(resolve_name _ _ valid_xz).
  pose proof (prepare_spec HE h _ _ _ (keeps_refl h) Hp) as Hs.
  assert (K : prepare_keeps h h') by (destruct r; tauto).
  destruct K as [l [Ht [_ [_ [Hi Hx]]]]]. exists l. auto.
Qed.

Lemma X18_prepare_reuses_files_witness :
  exists l,
    host_trace (snd (prepare (host_env_with (failing []) (hfailing []))
                       (host_start [(RASPBIAN_IMG, File "image")])))
    = (host_trace (host_start [(RASPBIAN_IMG, File "image")]) ++ l)%list /\
    resolve_path
      (cwd (snd (prepare (host_env_with (failing []) (hfailing []))
                   (host_start [(RASPBIAN_IMG, File "image")]))))
      RASPBIAN_IMG = Some (File "image") /\
    ~ In XzDecompress l.
Proof.
  destruct (X18_prepare_reuses_files (host_env_with (failing []) (hfailing []))
              (host_start [(RASPBIAN_IMG, File "image")])
              (fst (prepare (host_env_with (failing []) (hfailing []))
                      (host_start [(RASPBIAN_IMG, File "image")])))
              (snd (prepare (host_env_with (failing []) (hfailing []))
                      (host_start [(RASPBIAN_IMG, File "image")])))
              ltac:(vm_compute; reflexivity)) as [l [Ht [Hi _]]].
  exists l. split; [exact Ht|].
  exact (Hi (File "image") ltac:(vm_compute; reflexivity)).
Defined.

(** X19. When [main] returns normally, [azl-pi.img] exists and neither the
    decompressed image nor the extracted directory is left.  An [azl-pi.img]
    that was there before [main] started is the one that remains, with its
    earlier content. *)
Theorem X19_main_normal_return (HE : host_env) (h h' : host) :
  main HE h = (HOk tt, h') ->
  exists_in (cwd h') AZL_IMAGE = true /\
  exists_in (cwd h') RASPBIAN_IMG = false /\
  exists_in (cwd h') EXTRACT_TO = false /\
  (forall m, resolve_path (cwd h) AZL_IMAGE = Some m ->
     resolve_path (cwd h') AZL_IMAGE = Some m).
Proof.
  intros Hr. rewrite !(resolve_name _ _ valid_azl), (exists_in_name _ _ valid_ext),
    (exists_in_name _ _ valid_img), (exists_in_name _ _ valid_azl).
  destruct (main_inv HE _ _ _ Hr) as [[e1 [_ Hd]]|[h1 [Hp Hrest]]]; [discriminate|].
  destruct Hrest as [[e1 [_ Hd]]|[h2 [Hc Hcl]]]; [discriminate|].
  destruct (prepare_spec HE h _ _ _ (keeps_refl h) Hp) as [[l [_ [_ [Hf _]]]] Himg].
  destruct (run_combine_inv HE _ _ _ Hc) as [_ [Hf' _]].
  rewrite (exists_in_name _ _ valid_img) in Himg.
  assert (Hazl : child AZL_IMAGE (cwd h2) = child AZL_IMAGE (cwd h)).
  { rewrite Hf' by (apply name_neq; reflexivity). apply Hf; apply name_neq; reflexivity. }
  assert (Himg2 : exists n, child RASPBIAN_IMG (cwd h2) = Some n).
  { rewrite Hf' by (apply name_neq; reflexivity).
    destruct (child RASPBIAN_IMG (cwd h1)) as [n|]; [eauto|discriminate]. }
  destruct Himg2 as [n Himg2].
  destruct (cleanup_inv HE _ _ _ Hcl) as [[h3 [H1 H2]]|[e [_ Hd]]]; [|discriminate].
  destruct (cleanup_tail_spec HE _ _ _ H2) as [F [_ [Ho _]]].
  destruct (Ho eq_refl) as [-> [-> _]].
  rewrite F by (apply name_neq; reflexivity).
  destruct (rename_image_spec HE _ _ _ H1) as [_ [Hsame Hmove]].
  destruct (child AZL_IMAGE (cwd h2)) as [m|] eqn:Hm.
  - destruct Hsame as [-> _]; [left; discriminate|].
    rewrite Hm. repeat split; auto. intros m' Hm'. congruence.
  - destruct (Hmove n eq_refl Himg2) as [_ [Hok Hfail]].
    destruct (Z.eq_dec (host_status HE MoveImage) 0) as [Hz|Hz].
    + destruct (Hok Hz) as [_ [-> _]]. repeat split; auto. intros m' Hm'. congruence.
    + destruct (Hfail Hz) as [Hd _]. discriminate.
Qed.

Lemma X19_main_normal_return_witness :
  exists_in
    (cwd (snd (main (host_env_with (failing []) (hfailing [])) (host_start []))))
    AZL_IMAGE = true /\
  exists_in
    (cwd (snd (main (host_env_with (failing []) (hfailing [])) (host_start []))))
    RASPBIAN_IMG = false /\
  exists_in
    (cwd (snd (main (host_env_with (failing []) (hfailing [])) (host_start []))))
    EXTRACT_TO = false.
Proof.
  destruct (X19_main_normal_return (host_env_with (failing []) (hfailing []))
              (host_start [])
              (snd (main (host_env_with (failing []) (hfailing [])) (host_start [])))
              ltac:(vm_compute; reflexivity)) as [H1 [H2 [H3 _]]].
  split; [exact H1|]. split; [exact H2|exact H3].
Defined.
